(** * CloserCore battle-card pipeline: a shallow embedding of
      [bt_card.py] and [func.py] and the properties of its four stages.

    The pipeline is a fixed sequence Research -> Pricing -> News -> Writer
    over a shared [AgentState].  Every stage talks to the outside world
    (web search, HTTP, an LLM, an embedding model, the file system); those
    collaborators are the fields of an environment record [Env], and every
    call is recorded in the [World] so that statements such as "no request
    was issued" are statements about the recorded trace. *)

From Stdlib Require Import Ascii DecimalString DecimalZ DecimalPos DecimalFacts.
From stdpp Require Import gmap strings list pretty.

(** ** Python strings

    A Python [str] is modelled by a Rocq [string], one [ascii] per
    character. *)

Module PyStr.

Definition nl : ascii := Ascii.ascii_of_nat 10.

(** [str.isspace] on the characters below 256. *)
Definition isspace (c : ascii) : bool :=
  let n := Ascii.nat_of_ascii c in
  ((9 <=? n) && (n <=? 13)) || ((28 <=? n) && (n <=? 32))
  || (n =? 133) || (n =? 160).

(** [s.startswith(p)] *)
Fixpoint startswith (p s : string) : bool :=
  match p, s with
  | "", _ => true
  | String a p', String b s' => if Ascii.eqb a b then startswith p' s' else false
  | String _ _, "" => false
  end.

(** [p in s] *)
Fixpoint contains (p s : string) : bool :=
  startswith p s ||
  match s with
  | "" => false
  | String _ s' => contains p s'
  end.

(** [s[n:]] *)
Fixpoint drop (n : nat) (s : string) : string :=
  match n, s with
  | O, _ => s
  | S n', String _ s' => drop n' s'
  | S _, "" => ""
  end.

(** [s[:n]] *)
Fixpoint take (n : nat) (s : string) : string :=
  match n, s with
  | S n', String c s' => String c (take n' s')
  | _, _ => ""
  end.

(** [s[i:j]] for non-negative [i <= j] *)
Definition slice (i j : nat) (s : string) : string := take (j - i) (drop i s).

(** [s.lstrip(chars)] and [s.rstrip(chars)], the character set given as
    a predicate. *)
Fixpoint lstrip_by (p : ascii → bool) (s : string) : string :=
  match s with
  | "" => ""
  | String c s' => if p c then lstrip_by p s' else s
  end.

Fixpoint rstrip_by (p : ascii → bool) (s : string) : string :=
  match s with
  | "" => ""
  | String c s' =>
      match rstrip_by p s' with
      | "" => if p c then "" else String c ""
      | r => String c r
      end
  end.

(** [s.strip()] *)
Definition strip (s : string) : string := rstrip_by isspace (lstrip_by isspace s).

(** Splitting at every character satisfying [sep]: never empty, one more
    piece than there are separators. *)
Fixpoint split_by (sep : ascii → bool) (s : string) : list string :=
  match s with
  | "" => [""]
  | String c s' =>
      if sep c then "" :: split_by sep s'
      else match split_by sep s' with
           | l :: ls => String c l :: ls
           | [] => [String c ""]
           end
  end.

(** [s.split("\n")] *)
Definition split_nl (s : string) : list string := split_by (Ascii.eqb nl) s.

(** The line boundaries of [str.splitlines] below 256.  [splitlines]
    treats a carriage return followed by a newline as one boundary and
    yields no final empty piece; [lines] differs from it by empty pieces
    only, which its one caller ([scrape_website]) filters out. *)
Definition is_linebreak (c : ascii) : bool :=
  let n := Ascii.nat_of_ascii c in
  ((10 <=? n) && (n <=? 13)) || ((28 <=? n) && (n <=? 30)) || (n =? 133).

Definition lines (s : string) : list string := split_by is_linebreak s.

Definition is_empty (s : string) : bool :=
  match s with "" => true | _ => false end.

(** [sep.join(parts)] *)
Fixpoint join (sep : string) (parts : list string) : string :=
  match parts with
  | [] => ""
  | [x] => x
  | x :: rest => x +:+ sep +:+ join sep rest
  end.

(** [s.replace(' ', '_')] *)
Fixpoint replace_char (a b : ascii) (s : string) : string :=
  match s with
  | "" => ""
  | String c s' => String (if Ascii.eqb c a then b else c) (replace_char a b s')
  end.

(** [s.lower()] on the characters below 256: A-Z and the Latin-1 capitals. *)
Definition lower_char (c : ascii) : ascii :=
  let n := Ascii.nat_of_ascii c in
  if ((65 <=? n) && (n <=? 90))
     || ((192 <=? n) && (n <=? 222) && negb (n =? 215))
  then Ascii.ascii_of_nat (n + 32) else c.

Fixpoint lower (s : string) : string :=
  match s with
  | "" => ""
  | String c s' => String (lower_char c) (lower s')
  end.

(** [list(s)]: the one-character strings of [s], as iteration yields them. *)
Fixpoint chars (s : string) : list string :=
  match s with
  | "" => []
  | String c s' => String c "" :: chars s'
  end.

End PyStr.

Definition NL : string := String PyStr.nl "".

(** [lines[1:-1]] *)
Definition slice_1_m1 {A} (l : list A) : list A := removelast (tail l).

(** ** Markdown fence stripping

    [research_node] lines 64-69, repeated in [pricing_node] (171-176) and
    [news_node] (285-290). *)

Definition fence : string := "```".

Definition strip_fence (content : string) : string :=
  if PyStr.startswith fence content then
    let lines := PyStr.split_nl content in
    let content :=
      if 2 <? length lines then PyStr.join NL (slice_1_m1 lines) else content in
    if PyStr.startswith "json" content then PyStr.strip (PyStr.drop 4 content)
    else content
  else content.

(** ** Python values

    What [json.loads] can return, which is also what the state fields
    filled from an LLM answer can hold.  A dictionary keeps its insertion
    order (iteration and [json.dump] follow it). *)

Inductive pyfloat :=
| FNan
| FInf (negative : bool)
| FFinite (mantissa exponent : Z).

#[warnings="-register-all"] Inductive pyval :=
| PNone
| PBool (b : bool)
| PInt (n : Z)
| PFloat (f : pyfloat)
| PStr (s : string)
| PList (items : list pyval)
| PDict (entries : list (string * pyval)).

(** Exceptions, by the classes the handlers of the program tell apart;
    [str(e)] is the message. *)
Inductive exn :=
| JSONDecodeError (msg : string)
| AttributeError (msg : string)
| TypeError (msg : string)
| OtherException (msg : string).

Definition exn_str (e : exn) : string :=
  match e with
  | JSONDecodeError m | AttributeError m | TypeError m | OtherException m => m
  end.

Inductive result (A : Type) :=
| Ok (a : A)
| Raise (e : exn).
Arguments Ok {A} a.
Arguments Raise {A} e.

Definition rbind {A B} (r : result A) (k : A → result B) : result B :=
  match r with
  | Ok a => k a
  | Raise e => Raise e
  end.

Notation "'let?' x := r 'in' k" := (rbind r (λ x, k))
  (at level 10, x pattern, r at level 100, k at level 200).

Module Py.

Definition type_name (v : pyval) : string :=
  match v with
  | PNone => "NoneType"
  | PBool _ => "bool"
  | PInt _ => "int"
  | PFloat _ => "float"
  | PStr _ => "str"
  | PList _ => "list"
  | PDict _ => "dict"
  end.

(** [bool(v)] *)
Definition truthy (v : pyval) : bool :=
  match v with
  | PNone => false
  | PBool b => b
  | PInt n => negb (n =? 0)%Z
  | PFloat (FFinite 0 _) => false
  | PFloat _ => true
  | PStr s => negb (PyStr.is_empty s)
  | PList l => match l with [] => false | _ => true end
  | PDict d => match d with [] => false | _ => true end
  end.

(** [v == s] for a string literal [s] *)
Definition eq_str (v : pyval) (s : string) : bool :=
  match v with
  | PStr u => bool_decide (u = s)
  | _ => false
  end.

Fixpoint lookup (key : string) (d : list (string * pyval)) : option pyval :=
  match d with
  | [] => None
  | (k, v) :: d' => if bool_decide (k = key) then Some v else lookup key d'
  end.

Definition no_attribute (v : pyval) (attr : string) : exn :=
  AttributeError ("'" +:+ type_name v +:+ "' object has no attribute '" +:+ attr +:+ "'").

(** [v.get(key, default)]: only a dictionary has [get]. *)
Definition get (v : pyval) (key : string) (default : pyval) : result pyval :=
  match v with
  | PDict d => Ok (from_option id default (lookup key d))
  | _ => Raise (no_attribute v "get")
  end.

(** [len(v)] *)
Definition len (v : pyval) : result nat :=
  match v with
  | PStr s => Ok (String.length s)
  | PList l => Ok (length l)
  | PDict d => Ok (length d)
  | _ => Raise (TypeError ("object of type '" +:+ type_name v +:+ "' has no len()"))
  end.

(** [iter(v)]: the items of a list, the characters of a string, the keys
    of a dictionary. *)
Definition iter (v : pyval) : result (list pyval) :=
  match v with
  | PStr s => Ok (PStr <$> PyStr.chars s)
  | PList l => Ok l
  | PDict d => Ok ((λ kv, PStr kv.1) <$> d)
  | _ => Raise (TypeError ("'" +:+ type_name v +:+ "' object is not iterable"))
  end.

Fixpoint all_str (l : list pyval) : result (list string) :=
  match l with
  | [] => Ok []
  | PStr s :: l' => let? r := all_str l' in Ok (s :: r)
  | v :: _ =>
      Raise (TypeError ("sequence item: expected str instance, "
                        +:+ type_name v +:+ " found"))
  end.

(** [sep.join(v)] *)
Definition join (sep : string) (v : pyval) : result string :=
  let? items := iter v in
  let? strs := all_str items in
  Ok (PyStr.join sep strs).

(** [v.rstrip('/')]: only a string has [rstrip]. *)
Definition rstrip_slash (v : pyval) : result string :=
  match v with
  | PStr s => Ok (PyStr.rstrip_by (Ascii.eqb "/"%char) s)
  | _ => Raise (no_attribute v "rstrip")
  end.

End Py.

(** ** The outside world

    Every call that leaves the process is an [event]; the [World] keeps the
    events issued so far, oldest first, and the files written.  An external
    collaborator answers a call as a function of the history, so that the
    same URL may answer differently on each request. *)

Inductive event :=
| SearchInvoke (query : string)            (* search_tool.invoke(query) *)
| ModelInvoke (prompt : string)            (* model.invoke(prompt), temperature 0.0 *)
| ModelWriterInvoke (prompt : string)      (* model_writer.invoke(prompt), temperature 0.7 *)
| RequestsGet (url : string)               (* requests.get(url, timeout=10) *)
| SessionGet (url : string)                (* session.get(url, timeout=10) *)
| EmbeddingsLoad (model_name : string)     (* HuggingFaceEmbeddings(model_name=...) *)
| FaissFromDocuments                       (* FAISS.from_documents(chunks, embeddings) *)
| SimilaritySearch (query : string) (k : nat)
| FileWrite (filename content : string).   (* open(filename, "w") and one write *)

(** The outcome of [with open(filename, "w", encoding="utf-8") as f:]
    followed by one write of [content].  [open] may raise, and then the
    file is as it was.  Once [open] has returned the file is empty; when
    the write raises after that, the file holds what had reached it by
    then, [partial], possibly nothing. *)
Inductive write_result :=
| Written
| OpenFailed (e : exn)
| WriteFailed (e : exn) (partial : string).

Record World := mkWorld {
  trace : list event;
  files : gmap string string
}.

Definition log (ev : event) (w : World) : World :=
  mkWorld (trace w ++ [ev]) (files w).

(** Computations that issue calls and may raise. *)
Definition M (A : Type) : Type := World → result A * World.

Definition ret {A} (a : A) : M A := λ w, (Ok a, w).

Definition lift {A} (r : result A) : M A := λ w, (r, w).

Definition bind {A B} (m : M A) (k : A → M B) : M B :=
  λ w, match m w with
       | (Ok a, w') => k a w'
       | (Raise e, w') => (Raise e, w')
       end.

(** [try: m  except Exception as e: h e] *)
Definition try_except {A} (m : M A) (h : exn → M A) : M A :=
  λ w, match m w with
       | (Ok a, w') => (Ok a, w')
       | (Raise e, w') => h e w'
       end.

(** One external call: the collaborator sees the history before the call,
    the call is recorded whatever its outcome. *)
Definition call {A} (ev : event) (answer : list event → result A) : M A :=
  λ w, (answer (trace w), log ev w).

Notation "'let*' x := m 'in' k" := (bind m (λ x, k))
  (at level 10, x pattern, m at level 100, k at level 200).

(** A [Document] of langchain, by its text. *)
Record Document := mkDocument { page_content : string }.

(** The embedding model handle. *)
Inductive Embeddings := HuggingFaceEmbeddings (model_name : string).

(** The FAISS index, by the documents it was built from. *)
Record VectorStore := mkVectorStore { indexed : list Document }.

(** The collaborators.  The first group are the services; the second group
    are pure library functions whose text does not matter here: HTML text
    extraction, the text splitter, the JSON codec, [urljoin] (which raises
    [ValueError] on a base it cannot parse), [str()] of a value, and the
    four prompt templates (the f-strings of the stages). *)
Record Env := mkEnv {
  search_tool_invoke : list event → string → result string;
  model_invoke : list event → string → result string;
  model_writer_invoke : list event → string → result string;
  requests_get : list event → string → result Z;
  session_get : list event → string → result (Z * string);
  embeddings_load : list event → string → result Embeddings;
  faiss_from_documents : list event → list Document → Embeddings → result VectorStore;
  similarity_search : list event → VectorStore → string → nat → result (list Document);
  file_write : list event → string → string → write_result;

  soup_get_text : string → result string;
  create_documents : string → list Document;
  json_loads : string → result pyval;
  json_dumps : pyval → string;
  urljoin : string → string → result string;
  py_str : pyval → string;
  research_prompt : string → string → string;
  pricing_prompt : string → string;
  news_prompt : string → string;
  writer_prompt : string → string → string → string → string → string → string
}.

(** [with open(filename, "w", encoding="utf-8") as f: f.write(content)],
    and the same with [json.dump(..., f)] for the write. *)
Definition write_file (env : Env) (filename content : string) : M unit :=
  λ w, let t := trace w ++ [FileWrite filename content] in
       match file_write env (trace w) filename content with
       | Written => (Ok tt, mkWorld t (<[filename := content]> (files w)))
       | OpenFailed e => (Raise e, mkWorld t (files w))
       | WriteFailed e partial =>
           (Raise e, mkWorld t (<[filename := partial]> (files w)))
       end.

(** ** func.py *)

Section Func.

Variable env : Env.

(** [scrape_website] (lines 7-29).  The whole body is inside the [try],
    so the function returns a string on every path. *)
Definition clean_lines (text : string) : string :=
  PyStr.join NL
    (filter (λ l, negb (PyStr.is_empty l)) (PyStr.strip <$> PyStr.lines text)).

#[warnings="-abstract-large-number"] Definition scrape_website (url : string) : M string :=
  try_except
    (let* response := call (SessionGet url) (λ h, session_get env h url) in
     let '(status_code, html) := response in
     if (status_code =? 200)%Z then
       let* text := lift (soup_get_text env html) in
       let clean_text := clean_lines text in
       ret (PyStr.slice 2000 7000 clean_text)
     else
       ret ("Error: Status code " +:+ pretty status_code))
    (λ e, ret ("Error: Could not scrape " +:+ url +:+ ". Reason: " +:+ exn_str e)).

(** [retriever_text] (lines 31-43): the embedding model is loaded before
    the text is looked at. *)
Definition retriever_text (text : string)
  : M (option (list Document) * option Embeddings) :=
  let* embeddings :=
    call (EmbeddingsLoad "all-MiniLM-L6-v2")
         (λ h, embeddings_load env h "all-MiniLM-L6-v2") in
  if PyStr.is_empty text || PyStr.startswith "Error" text then
    ret (None, None)
  else
    let chunks := create_documents env text in
    ret (Some chunks, Some embeddings).

(** [get_price_chunks] (lines 45-55) *)
Definition get_price_chunks (chunks : list Document) (embeddings : Embeddings)
    (query : string) (top_k : nat) : M (list Document) :=
  let* vectorstore :=
    call FaissFromDocuments (λ h, faiss_from_documents env h chunks embeddings) in
  call (SimilaritySearch query top_k)
       (λ h, similarity_search env h vectorstore query top_k).

Definition default_query : string := "price $ or ₹".

End Func.

(** ** bt_card.py: the state *)

(** [AgentState] (lines 24-33).  [company_name] is the caller's string,
    [loop_count] an integer and [final_report] a string; the fields that
    [research_node] and [news_node] fill from parsed JSON hold whatever
    value the JSON had; [pricing_info] is the list [pricing_node] appends
    to. *)
Record AgentState := mkState {
  messages : list string;
  company_name : string;
  home_url : pyval;
  description : pyval;
  competitors : pyval;
  pricing_info : list pyval;
  news_headlines : pyval;
  loop_count : Z;
  final_report : string
}.

(** What a stage returns: a dictionary with some of the state's keys. *)
Record Update := mkUpdate {
  upd_home_url : option pyval;
  upd_description : option pyval;
  upd_competitors : option pyval;
  upd_pricing_info : option (list pyval);
  upd_news_headlines : option pyval;
  upd_loop_count : option Z;
  upd_final_report : option string
}.

(** The keys of a returned dictionary. *)
Definition key_if {A} (o : option A) (k : string) : gset string :=
  match o with
  | Some _ => {[ k ]}
  | None => ∅
  end.

Definition written (u : Update) : gset string :=
  key_if (upd_home_url u) "home_url"
  ∪ key_if (upd_description u) "description"
  ∪ key_if (upd_competitors u) "competitors"
  ∪ key_if (upd_pricing_info u) "pricing_info"
  ∪ key_if (upd_news_headlines u) "news_headlines"
  ∪ key_if (upd_loop_count u) "loop_count"
  ∪ key_if (upd_final_report u) "final_report".

(** The graph's merge of a returned dictionary into the state: none of the
    keys the stages return has a reducer, so a returned key replaces the
    state's value and the other keys keep theirs ([messages], the one key
    with a reducer, is returned by no stage). *)
Definition apply_update (s : AgentState) (u : Update) : AgentState :=
  {| messages := messages s;
     company_name := company_name s;
     home_url := default (home_url s) (upd_home_url u);
     description := default (description s) (upd_description u);
     competitors := default (competitors s) (upd_competitors u);
     pricing_info := default (pricing_info s) (upd_pricing_info u);
     news_headlines := default (news_headlines s) (upd_news_headlines u);
     loop_count := default (loop_count s) (upd_loop_count u);
     final_report := default (final_report s) (upd_final_report u) |}.

Definition only_pricing_info (pricing_info : list pyval) : Update :=
  mkUpdate None None None (Some pricing_info) None None None.

Definition only_news_headlines (news_headlines : pyval) : Update :=
  mkUpdate None None None None (Some news_headlines) None None.

(** [len(text) > 100] with the truth test in front of it (lines 116, 218). *)
Definition meaningful (text : string) : bool :=
  negb (PyStr.is_empty text) && (100 <? String.length text).

(** ["\n\n---\n\n".join([chunk.page_content for chunk in chunks])]
    (lines 136, 239) *)
Definition combine_chunks (chunks : list Document) : string :=
  PyStr.join (NL +:+ NL +:+ "---" +:+ NL +:+ NL) (page_content <$> chunks).

(** [content = response.content.strip()] followed by the fence cleaning. *)
Definition clean_response (response_content : string) : string :=
  strip_fence (PyStr.strip response_content).

Section Stages.

Variable env : Env.

(** *** [research_node] (lines 35-91) *)

(** The body of the [try] (lines 47-77) with the three locals it
    assigns.  [dict.get] cannot fail on a dictionary and fails at the
    first call on anything else, so the three assignments happen
    together or not at all. *)
Definition research_extract (query : string) : M (pyval * pyval * pyval) :=
  let q := query +:+ " official website competitors" in
  let* search_results := call (SearchInvoke q) (λ h, search_tool_invoke env h q) in
  let prompt := research_prompt env query search_results in
  let* response_content := call (ModelInvoke prompt) (λ h, model_invoke env h prompt) in
  let content := clean_response response_content in
  let* dat_js := lift (json_loads env content) in
  let* website_url := lift (Py.get dat_js "website_url" (PStr "Not found")) in
  let* description := lift (Py.get dat_js "description" (PStr "Not available")) in
  let* competitors := lift (Py.get dat_js "competitors" (PList [])) in
  ret (website_url, description, competitors).

Definition research_defaults : pyval * pyval * pyval :=
  (PStr "Not found", PStr "Not available", PList []).

Definition research_node (state : AgentState) : M Update :=
  let query := company_name state in
  let count := loop_count state in
  let* found := try_except (research_extract query) (λ _, ret research_defaults) in
  let '(website_url, description, competitors) := found in
  ret {| upd_home_url := Some website_url;
         upd_description := Some description;
         upd_competitors := Some competitors;
         upd_pricing_info := None;
         upd_news_headlines := None;
         upd_loop_count := Some (count + 1)%Z;
         upd_final_report := None |}.

(** *** [pricing_node] (lines 93-189) *)

(** [not home_url or home_url == "Not found"] (lines 98, 196) *)
Definition unresolved (home_url : pyval) : bool :=
  negb (Py.truthy home_url) || Py.eq_str home_url "Not found".

(** [urljoin(home_url.rstrip('/') + '/', suffix)]: [rstrip] raises on a
    value that is not a string, [urljoin] on a base it cannot parse. *)
Definition candidate (home_url : pyval) (suffix : string) : result string :=
  let? base := Py.rstrip_slash home_url in
  urljoin env (base +:+ "/") suffix.

(** The candidate list (lines 103-107, 201-206), built before the first
    request and outside any [try]: the items are evaluated in order, and
    the first one that raises ends the stage. *)
Fixpoint candidate_urls (home_url : pyval) (suffixes : list string)
  : result (list string) :=
  match suffixes with
  | [] => Ok []
  | suffix :: rest =>
      let? url := candidate home_url suffix in
      let? urls := candidate_urls home_url rest in
      Ok (url :: urls)
  end.

(** One turn of the probe loop (lines 113-122): the new [text] and
    whether the loop stops.  [text] keeps the last fetched string also
    when it was not accepted. *)
Definition pricing_attempt (url : string) (text : option string)
  : M (option string * bool) :=
  try_except
    (let* fetched := scrape_website env url in
     ret (Some fetched, meaningful fetched))
    (λ _, ret (text, false)).

(** The probe loop (lines 112-122). *)
Fixpoint pricing_probe (urls : list string) (text : option string)
  : M (option string) :=
  match urls with
  | [] => ret text
  | url :: rest =>
      let* step := pricing_attempt url text in
      let '(text, stop) := step in
      if stop : bool then ret text else pricing_probe rest text
  end.

(** The body of the [try] (lines 129-180): the list to return.
    [pricing_info.append(res_json)] changes the state's own list in place
    and the stage returns that same list; nothing can raise between the
    append and the return, so the state ends with the list computed
    here. *)
Definition pricing_extract (text : string) (pricing_info : list pyval)
  : M (list pyval) :=
  let* retrieved := retriever_text env text in
  match retrieved with
  | (Some chunks, Some embeddings) =>
      let* price_chunks := get_price_chunks env chunks embeddings default_query 3 in
      let combined_chunks := combine_chunks price_chunks in
      let prompt := pricing_prompt env combined_chunks in
      let* res_content := call (ModelInvoke prompt) (λ h, model_invoke env h prompt) in
      let content := clean_response res_content in
      let* res_json := lift (json_loads env content) in
      ret (pricing_info ++ [res_json])
  | _ => ret pricing_info
  end.

(** Lines 124-189: what happens once the probe is over. *)
Definition pricing_finish (text : option string) (pricing_info : list pyval)
  : M Update :=
  match text with
  | Some text =>
      if PyStr.is_empty text then ret (only_pricing_info pricing_info)
      else
        let* pricing_info :=
          try_except (pricing_extract text pricing_info) (λ _, ret pricing_info) in
        ret (only_pricing_info pricing_info)
  | None => ret (only_pricing_info pricing_info)
  end.

Definition pricing_suffixes : list string := ["pricing"; "plans"; "price"].

Definition pricing_node (state : AgentState) : M Update :=
  let pricing_info := pricing_info state in
  let home_url := home_url state in
  if unresolved home_url then ret (only_pricing_info pricing_info)
  else
    let* pricing_urls := lift (candidate_urls home_url pricing_suffixes) in
    let* text := pricing_probe pricing_urls None in
    pricing_finish text pricing_info.

(** *** [news_node] (lines 191-304) *)

(** One turn of the probe loop (lines 212-224): a status check, then
    the scrape. *)
Definition news_attempt (url : string) (text : option string)
  : M (option string * bool) :=
  try_except
    (let* status_code := call (RequestsGet url) (λ h, requests_get env h url) in
     if (status_code =? 200)%Z then
       let* fetched := scrape_website env url in
       ret (Some fetched, meaningful fetched)
     else ret (text, false))
    (λ _, ret (text, false)).

(** The probe loop (lines 211-224). *)
Fixpoint news_probe (urls : list string) (text : option string)
  : M (option string) :=
  match urls with
  | [] => ret text
  | url :: rest =>
      let* step := news_attempt url text in
      let '(text, stop) := step in
      if stop : bool then ret text else news_probe rest text
  end.

Definition news_query : string := "blog headline article title news".

(** The body of the outer [try] (lines 231-300): the headlines to
    return.  The inner [try] catches the decoding error only; the [len]
    of the success message is computed before the [return]. *)
Definition news_extract (text : string) : M pyval :=
  let* retrieved := retriever_text env text in
  match retrieved with
  | (Some chunks, Some embeddings) =>
      let* chunks := get_price_chunks env chunks embeddings news_query 5 in
      let combined_chunks := combine_chunks chunks in
      let prompt := news_prompt env combined_chunks in
      let* response_content := call (ModelInvoke prompt) (λ h, model_invoke env h prompt) in
      let content := clean_response response_content in
      match json_loads env content with
      | Raise (JSONDecodeError _) => ret (PList [])
      | Raise e => lift (Raise e)
      | Ok headlines_data =>
          let* headlines := lift (Py.get headlines_data "headlines" (PList [])) in
          let* _ := lift (Py.len headlines) in
          ret headlines
      end
  | _ => ret (PList [])
  end.

(** Lines 226-304: what happens once the probe is over. *)
Definition news_finish (text : option string) : M Update :=
  match text with
  | Some text =>
      if PyStr.is_empty text then ret (only_news_headlines (PList []))
      else
        let* headlines :=
          try_except (news_extract text) (λ _, ret (PList [])) in
        ret (only_news_headlines headlines)
  | None => ret (only_news_headlines (PList []))
  end.

Definition news_suffixes : list string := ["blog"; "news"; "press"; "updates"].

Definition news_node (state : AgentState) : M Update :=
  let home_url := home_url state in
  if unresolved home_url then ret (only_news_headlines (PList []))
  else
    let* news_urls := lift (candidate_urls home_url news_suffixes) in
    let* text := news_probe news_urls None in
    news_finish text.

End Stages.

(** *** [writer_node] (lines 306-449) *)

Section Writer.

Variable env : Env.

(** Line 325 *)
Definition format_competitors (competitors : pyval) : result string :=
  if Py.truthy competitors then Py.join ", " competitors else Ok "Unknown".

(** Lines 333-337 *)
Definition format_starter (pricing_data : pyval) : result string :=
  let? starter_plan := Py.get pricing_data "starter_plan" (PDict []) in
  if Py.truthy starter_plan then
    let? name := Py.get starter_plan "name" PNone in
    if Py.truthy name then
      let? price := Py.get starter_plan "price" PNone in
      if Py.truthy price then Ok (py_str env name +:+ ": " +:+ py_str env price)
      else Ok "Unknown"
    else Ok "Unknown"
  else Ok "Unknown".

(** Lines 328-347 *)
Definition format_pricing (pricing_info : list pyval) : result string :=
  match pricing_info with
  | pricing_data :: _ =>
      let? free := Py.get pricing_data "free_tier" (PBool false) in
      let free_tier := if Py.truthy free then "✅ Yes" else "❌ No" in
      let? starter_text := format_starter pricing_data in
      let? ent := Py.get pricing_data "enterprise_plan" (PBool false) in
      let enterprise := if Py.truthy ent then "✅ Available" else "❌ Not Available" in
      Ok (NL +:+ "- **Free Tier:** " +:+ free_tier +:+ NL
          +:+ "- **Starter Plan:** " +:+ starter_text +:+ NL
          +:+ "- **Enterprise Plan:** " +:+ enterprise +:+ NL)
  | [] => Ok "Unknown"
  end.

(** The comprehension of lines 351-352, [i] the index of the first item. *)
Fixpoint headline_lines (i : nat) (headlines : list pyval) : result (list string) :=
  match headlines with
  | [] => Ok []
  | headline :: rest =>
      let? title := Py.get headline "title" (PStr "N/A") in
      let? others := headline_lines (S i) rest in
      Ok ((pretty (S i) +:+ ". " +:+ py_str env title) :: others)
  end.

(** Lines 350-354 *)
Definition format_news (news_headlines : pyval) : result string :=
  if Py.truthy news_headlines then
    let? n := Py.len news_headlines in
    if 0 <? n then
      let? items := Py.iter news_headlines in
      let? numbered := headline_lines 0 items in
      Ok (PyStr.join NL numbered)
    else Ok "No recent news available"
  else Ok "No recent news available".

(** Lines 421-428 *)
Definition raw_data (state : AgentState) : pyval :=
  PDict [("company_name", PStr (company_name state));
         ("website", home_url state);
         ("description", description state);
         ("competitors", competitors state);
         ("pricing_info", PList (pricing_info state));
         ("news_headlines", news_headlines state)].

Definition file_stem (company_name : string) : string :=
  PyStr.lower (PyStr.replace_char " " "_" company_name).

Definition report_filename (company_name : string) : string :=
  file_stem company_name +:+ "_battle_card.md".

Definition json_filename (company_name : string) : string :=
  file_stem company_name +:+ "_data.json".

(** The body of the [try] (lines 409-440): the report to return. *)
Definition writer_generate (state : AgentState) (prompt : string) : M string :=
  let* battle_card :=
    call (ModelWriterInvoke prompt) (λ h, model_writer_invoke env h prompt) in
  let* _ := write_file env (report_filename (company_name state)) battle_card in
  let* _ := write_file env (json_filename (company_name state))
                       (json_dumps env (raw_data state)) in
  ret battle_card.

(** Line 444 *)
Definition error_message (e : exn) : string :=
  "# Error Generating Battle Card" +:+ NL +:+ NL +:+ "Error: " +:+ exn_str e.

Definition report_update (state : AgentState) (report : string) : Update :=
  {| upd_home_url := None;
     upd_description := None;
     upd_competitors := None;
     upd_pricing_info := None;
     upd_news_headlines := None;
     upd_loop_count := Some (loop_count state + 1)%Z;
     upd_final_report := Some report |}.

(** The formatting of lines 325-403 is outside the [try].  (So is the
    construction of the writer model, lines 310-314, which calls
    nothing.) *)
Definition writer_format (state : AgentState) : result string :=
  let? competitors_text := format_competitors (competitors state) in
  let? pricing_text := format_pricing (pricing_info state) in
  let? news_text := format_news (news_headlines state) in
  Ok (writer_prompt env (company_name state) (py_str env (home_url state))
        (py_str env (description state)) competitors_text pricing_text news_text).

Definition writer_node (state : AgentState) : M Update :=
  let* prompt := lift (writer_format state) in
  let* report :=
    try_except (writer_generate state prompt) (λ e, ret (error_message e)) in
  ret (report_update state report).

End Writer.

(** ** The graph (lines 451-497) *)

Section Graph.

Variable env : Env.

(** One node of the compiled graph: run the stage on the current state
    and merge what it returns. *)
Definition run_node (node : AgentState → M Update) (state : AgentState)
  : M AgentState :=
  let* update := node state in
  ret (apply_update state update).

(** detective -> pricing -> news -> editor -> END *)
Definition graph_invoke (state : AgentState) : M AgentState :=
  let* s1 := run_node (research_node env) state in
  let* s2 := run_node (pricing_node env) s1 in
  let* s3 := run_node (news_node env) s2 in
  run_node (writer_node env) s3.

Definition initial_state (company_name : string) : AgentState :=
  {| messages := [];
     company_name := company_name;
     home_url := PStr "";
     description := PStr "";
     competitors := PList [];
     pricing_info := [];
     news_headlines := PList [];
     loop_count := 0;
     final_report := "" |}.

(** [run_battle_card_generator]: [None] when the graph raised. *)
Definition run_battle_card_generator (company_name : string)
  : World → option AgentState * World :=
  λ w, match graph_invoke (initial_state company_name) w with
       | (Ok result, w') => (Some result, w')
       | (Raise _, w') => (None, w')
       end.

End Graph.

(** ** bulk_run.py *)

(** A [DataFrame] as [iterrows] yields it: the rows in order, each a
    mapping from column name to cell. *)
Definition DataFrame : Type := list (list (string * string)).

(** [pd.read_csv(input_csv)]: the frame, [FileNotFoundError], or another
    exception. *)
Inductive csv_result :=
| CsvRows (df : DataFrame)
| CsvNotFound
| CsvRaise (e : exn).

(** The collaborators of the batch driver: reading the input, and the CSV
    text [DataFrame(summary_results).to_csv(index=False)] of the
    summary. *)
Record BulkEnv := mkBulkEnv {
  read_csv : list event → string → csv_result;
  summary_csv : list (string * pyval * pyval * pyval * string) → string
}.

(** One dictionary of [summary_results] (lines 44-50). *)
Record SummaryRow := mkSummaryRow {
  Company : string;
  Website : pyval;
  Description : pyval;
  Starter_Price : pyval;
  Report_File : string
}.

(** The two lists of [run_bulk_job], and the number of [time.sleep(2)]
    calls made so far. *)
Record BulkState := mkBulk {
  summary_results : list SummaryRow;
  failed_companies : list string;
  slept : nat
}.

Definition output_folder : string := "reports".

Section Bulk.

Variable env : Env.
Variable benv : BulkEnv.

(** [row[column]]: [KeyError] on a missing column. *)
Fixpoint row_get (column : string) (row : list (string * string)) : result string :=
  match row with
  | [] => Raise (OtherException ("'" +:+ column +:+ "'"))
  | (k, v) :: row' => if bool_decide (k = column) then Ok v else row_get column row'
  end.

(** Lines 41-42.  The state has the key [pricing_info], so the default
    [[{}]] of the [get] is never used and [[0]] raises [IndexError] on
    the empty list. *)
Definition starter_price (final : AgentState) : result pyval :=
  match pricing_info final with
  | [] => Raise (OtherException "list index out of range")
  | pricing_data :: _ =>
      if Py.truthy pricing_data then
        let? starter_plan := Py.get pricing_data "starter_plan" (PDict []) in
        Py.get starter_plan "price" (PStr "Unknown")
      else Ok (PStr "Unknown")
  end.

Definition bulk_report_file (company : string) : string :=
  output_folder +:+ "/" +:+ company +:+ "_Battle_Card.md".

(** The body of the [try] (lines 30-54): the summary row, or [None] when
    the agent returned nothing. *)
Definition bulk_attempt (company : string) : M (option SummaryRow) :=
  λ w, match run_battle_card_generator env company w with
       | (Some final, w1) =>
           (let filename := bulk_report_file company in
            let* _ := write_file env filename (final_report final) in
            let* price := lift (starter_price final) in
            ret (Some {| Company := company;
                         Website := home_url final;
                         Description := description final;
                         Starter_Price := price;
                         Report_File := filename |})) w1
       | (None, w1) => (Ok None, w1)
       end.

(** One turn of the loop (lines 25-61): an exception counts as a
    failure, and the driver sleeps once whatever happened. *)
Definition bulk_step (st : BulkState) (row : list (string * string)) : M BulkState :=
  let* company := lift (row_get "Company" row) in
  let* outcome := try_except (bulk_attempt company) (λ _, ret None) in
  ret match outcome with
      | Some summary =>
          {| summary_results := summary_results st ++ [summary];
             failed_companies := failed_companies st;
             slept := S (slept st) |}
      | None =>
          {| summary_results := summary_results st;
             failed_companies := failed_companies st ++ [company];
             slept := S (slept st) |}
      end.

Fixpoint bulk_loop (df : DataFrame) (st : BulkState) : M BulkState :=
  match df with
  | [] => ret st
  | row :: rest =>
      let* st := bulk_step st row in
      bulk_loop rest st
  end.

Definition summary_tuple (r : SummaryRow)
  : string * pyval * pyval * pyval * string :=
  (Company r, Website r, Description r, Starter_Price r, Report_File r).

(** [run_bulk_job] (lines 11-70).  The Python function returns nothing;
    the model returns the two lists it built, or [None] when the input
    file was not found. *)
Definition run_bulk_job (input_csv : string) : M (option BulkState) :=
  λ w, match read_csv benv (trace w) input_csv with
       | CsvNotFound => (Ok None, w)
       | CsvRaise e => (Raise e, w)
       | CsvRows df =>
           (let* st := bulk_loop df (mkBulk [] [] 0) in
            let* _ :=
              match summary_results st with
              | [] => ret tt
              | _ => write_file env "final_delivery.csv"
                       (summary_csv benv (summary_tuple <$> summary_results st))
              end in
            ret (Some st)) w
       end.

End Bulk.

(** ** The JSON codec

    [json.dump(obj, f, indent=2, ensure_ascii=False)] and [json.loads] of
    the standard library, on the values of [pyval] and on strings of
    characters below 256.  Two steps are left to the caller, as
    parameters: how a finite float is written ([float.__repr__]) and how
    a number with a fraction or an exponent is read ([float]).  The
    position that Python appends to the message of a decoding error, the
    interpreter's limits on nesting depth and on the digits of an
    integer, and the byte order mark are not modelled. *)

Module Json.

Definition dq : ascii := Ascii.ascii_of_nat 34.
Definition bs : ascii := Ascii.ascii_of_nat 92.

(** *** Writing *)

Definition hex_digit (n : nat) : ascii :=
  Ascii.ascii_of_nat (if n <? 10 then 48 + n else 87 + n).

(** The replacement of one character inside a string: the quote, the
    backslash and the control characters are escaped, every other
    character is written as it is. *)
Definition escape_char (c : ascii) : string :=
  let n := Ascii.nat_of_ascii c in
  if n =? 34 then String bs (String dq "")
  else if n =? 92 then String bs (String bs "")
  else if n =? 8 then String bs "b"
  else if n =? 12 then String bs "f"
  else if n =? 10 then String bs "n"
  else if n =? 13 then String bs "r"
  else if n =? 9 then String bs "t"
  else if n <? 32 then
    String bs (String "u" (String "0" (String "0"
      (String (hex_digit (n / 16)) (String (hex_digit (n mod 16)) "")))))
  else String c "".

Fixpoint escape (s : string) : string :=
  match s with
  | "" => ""
  | String c s' => escape_char c +:+ escape s'
  end.

Definition quote (s : string) : string :=
  String dq (escape s +:+ String dq "").

Fixpoint spaces (n : nat) : string :=
  match n with
  | O => ""
  | S n' => String " " (spaces n')
  end.

(** [int.__repr__] *)
Definition int_repr (n : Z) : string := NilZero.string_of_int (Z.to_int n).

Section Encoder.

(** [float.__repr__] of a finite float *)
Variable float_repr : pyfloat → string.

Definition dumps_float (f : pyfloat) : string :=
  match f with
  | FNan => "NaN"
  | FInf false => "Infinity"
  | FInf true => "-Infinity"
  | FFinite _ _ => float_repr f
  end.

(** [level] is the nesting depth; with [indent=2] an item sits on a line
    of its own, two spaces deeper than its container, and the items are
    separated by a comma at the end of the line. *)
Fixpoint dumps_at (level : nat) (v : pyval) : string :=
  let inner := NL +:+ spaces (2 * S level) in
  let close := NL +:+ spaces (2 * level) in
  match v with
  | PNone => "null"
  | PBool true => "true"
  | PBool false => "false"
  | PInt n => int_repr n
  | PFloat f => dumps_float f
  | PStr s => quote s
  | PList [] => "[]"
  | PList items =>
      "[" +:+ inner
      +:+ PyStr.join ("," +:+ inner) (map (dumps_at (S level)) items)
      +:+ close +:+ "]"
  | PDict [] => "{}"
  | PDict entries =>
      "{" +:+ inner
      +:+ PyStr.join ("," +:+ inner)
            (map (λ kv, quote kv.1 +:+ ": " +:+ dumps_at (S level) kv.2) entries)
      +:+ close +:+ "}"
  end.

Definition dumps (v : pyval) : string := dumps_at 0 v.

End Encoder.

(** *** Reading *)

Definition is_ws (c : ascii) : bool :=
  let n := Ascii.nat_of_ascii c in
  (n =? 32) || (n =? 9) || (n =? 10) || (n =? 13).

Definition skip_ws (s : string) : string := PyStr.lstrip_by is_ws s.

Definition decode_error {A} (msg : string) : result A :=
  Raise (JSONDecodeError msg).

(** The character an escape letter stands for. *)
Definition unescape (e : ascii) : option ascii :=
  let n := Ascii.nat_of_ascii e in
  if n =? 34 then Some dq
  else if n =? 92 then Some bs
  else if n =? 47 then Some "/"%char
  else if n =? 98 then Some (Ascii.ascii_of_nat 8)
  else if n =? 102 then Some (Ascii.ascii_of_nat 12)
  else if n =? 110 then Some (Ascii.ascii_of_nat 10)
  else if n =? 114 then Some (Ascii.ascii_of_nat 13)
  else if n =? 116 then Some (Ascii.ascii_of_nat 9)
  else None.

Definition hex_value (c : ascii) : option nat :=
  let n := Ascii.nat_of_ascii c in
  if (48 <=? n) && (n <=? 57) then Some (n - 48)
  else if (97 <=? n) && (n <=? 102) then Some (n - 87)
  else if (65 <=? n) && (n <=? 70) then Some (n - 55)
  else None.

Definition hex4 (h1 h2 h3 h4 : ascii) : option nat :=
  match hex_value h1, hex_value h2, hex_value h3, hex_value h4 with
  | Some a, Some b, Some c, Some d => Some (((a * 16 + b) * 16 + c) * 16 + d)
  | _, _, _, _ => None
  end.

(** After the opening quote: the decoded text and what follows the
    closing quote.  A raw control character ends the decoding.  An escape
    that names a code point above 255 names a character outside the
    strings of this model, and is reported like a malformed escape. *)
Fixpoint parse_string (s : string) : result (string * string) :=
  match s with
  | "" => decode_error "Unterminated string starting at"
  | String c s' =>
      if Ascii.eqb c dq then Ok ("", s')
      else if Ascii.eqb c bs then
        match s' with
        | "" => decode_error "Unterminated string starting at"
        | String e s'' =>
            if Ascii.eqb e "u" then
              match s'' with
              | String h1 (String h2 (String h3 (String h4 s3))) =>
                  match hex4 h1 h2 h3 h4 with
                  | Some n =>
                      if n <? 256 then
                        let? (t, r) := parse_string s3 in
                        Ok (String (Ascii.ascii_of_nat n) t, r)
                      else decode_error "Invalid \uXXXX escape"
                  | None => decode_error "Invalid \uXXXX escape"
                  end
              | _ => decode_error "Invalid \uXXXX escape"
              end
            else
              match unescape e with
              | Some d => let? (t, r) := parse_string s'' in Ok (String d t, r)
              | None => decode_error "Invalid \escape"
              end
        end
      else if Ascii.nat_of_ascii c <? 32 then
        decode_error "Invalid control character at"
      else let? (t, r) := parse_string s' in Ok (String c t, r)
  end.

Definition is_digit (c : ascii) : bool :=
  let n := Ascii.nat_of_ascii c in (48 <=? n) && (n <=? 57).

(** The longest run of digits at the head of [s], and the rest. *)
Fixpoint digits (s : string) : string * string :=
  match s with
  | "" => ("", "")
  | String c s' =>
      if is_digit c then let '(ds, r) := digits s' in (String c ds, r)
      else ("", s)
  end.

(** The three groups of the number pattern: the integer part (an
    optional minus sign, then a lone 0 or a digit from 1 to 9 followed by
    any digits), the optional fraction (a point and at least one digit)
    and the optional exponent (e or E, an optional sign and at least one
    digit). *)
Definition lex_natural (s : string) : option (string * string) :=
  match s with
  | "" => None
  | String c r =>
      if Ascii.eqb c "0" then Some ("0", r)
      else if is_digit c then let '(ds, r') := digits r in Some (String c ds, r')
      else None
  end.

Definition lex_integer (s : string) : option (string * string) :=
  match s with
  | "" => None
  | String c r =>
      if Ascii.eqb c "-" then
        match lex_natural r with
        | Some (i, r') => Some (String c i, r')
        | None => None
        end
      else lex_natural s
  end.

Definition lex_frac (s : string) : string * string :=
  match s with
  | "" => ("", s)
  | String c r =>
      if Ascii.eqb c "." then
        match digits r with
        | ("", _) => ("", s)
        | (ds, r') => (String c ds, r')
        end
      else ("", s)
  end.

Definition lex_sign (s : string) : string * string :=
  match s with
  | "" => ("", s)
  | String c r =>
      if Ascii.eqb c "+" || Ascii.eqb c "-" then (String c "", r) else ("", s)
  end.

Definition lex_exp (s : string) : string * string :=
  match s with
  | "" => ("", s)
  | String c r =>
      if Ascii.eqb c "e" || Ascii.eqb c "E" then
        let '(sign, r1) := lex_sign r in
        match digits r1 with
        | ("", _) => ("", s)
        | (ds, r') => (String c (sign +:+ ds), r')
        end
      else ("", s)
  end.

(** The number at the head of [s]: its integer part, its fraction, its
    exponent, and the rest. *)
Definition lex_number (s : string) : option (string * string * string * string) :=
  match lex_integer s with
  | Some (integer, r1) =>
      let '(frac, r2) := lex_frac r1 in
      let '(exp, r3) := lex_exp r2 in
      Some (integer, frac, exp, r3)
  | None => None
  end.

(** A text that is, as a whole, a number with a fraction or an
    exponent. *)
Definition float_literal (s : string) : bool :=
  match lex_number s with
  | Some (_, frac, exp, r) =>
      PyStr.is_empty r && negb (PyStr.is_empty frac && PyStr.is_empty exp)
  | None => false
  end.

(** [int(literal)] *)
Definition int_of_literal (s : string) : Z :=
  match NilZero.int_of_string s with
  | Some d => Z.of_int d
  | None => 0
  end.

(** [dict(pairs)]: a key that comes again keeps its place and takes the
    later value. *)
Fixpoint dict_set (k : string) (v : pyval) (d : list (string * pyval))
  : list (string * pyval) :=
  match d with
  | [] => [(k, v)]
  | (k', v') :: d' =>
      if bool_decide (k' = k) then (k', v) :: d' else (k', v') :: dict_set k v d'
  end.

Definition dict_of_pairs (pairs : list (string * pyval)) : list (string * pyval) :=
  foldl (λ d kv, dict_set kv.1 kv.2 d) [] pairs.

Section Decoder.

(** [float(literal)] *)
Variable float_of_literal : string → pyfloat.

Definition parse_number (s : string) : option (pyval * string) :=
  match lex_number s with
  | Some (integer, frac, exp, r) =>
      if PyStr.is_empty frac && PyStr.is_empty exp
      then Some (PInt (int_of_literal integer), r)
      else Some (PFloat (float_of_literal (integer +:+ frac +:+ exp)), r)
  | None => None
  end.

(** The words that are read after the pattern of numbers has failed. *)
Definition parse_constant (s : string) : result (pyval * string) :=
  if PyStr.startswith "NaN" s then Ok (PFloat FNan, PyStr.drop 3 s)
  else if PyStr.startswith "Infinity" s then Ok (PFloat (FInf false), PyStr.drop 8 s)
  else if PyStr.startswith "-Infinity" s then Ok (PFloat (FInf true), PyStr.drop 9 s)
  else decode_error "Expecting value".

(** One value at the head of [s].  White space is skipped by the caller,
    in front of a value and behind it.  [fuel] bounds the calls in
    progress; twice the length of the text is always enough. *)
Fixpoint parse_value (fuel : nat) (s : string) : result (pyval * string) :=
  match fuel with
  | O => decode_error "Expecting value"
  | S fuel' =>
      match s with
      | "" => decode_error "Expecting value"
      | String c rest =>
          if Ascii.eqb c dq then
            let? (t, r) := parse_string rest in Ok (PStr t, r)
          else if Ascii.eqb c "{" then
            match skip_ws rest with
            | "" => decode_error "Expecting property name enclosed in double quotes"
            | String c' r =>
                if Ascii.eqb c' "}" then Ok (PDict [], r)
                else
                  let? (pairs, r') := parse_members fuel' (String c' r) in
                  Ok (PDict (dict_of_pairs pairs), r')
            end
          else if Ascii.eqb c "[" then
            match skip_ws rest with
            | "" => decode_error "Expecting value"
            | String c' r =>
                if Ascii.eqb c' "]" then Ok (PList [], r)
                else
                  let? (items, r') := parse_items fuel' (String c' r) in
                  Ok (PList items, r')
            end
          else if PyStr.startswith "null" s then Ok (PNone, PyStr.drop 4 s)
          else if PyStr.startswith "true" s then Ok (PBool true, PyStr.drop 4 s)
          else if PyStr.startswith "false" s then Ok (PBool false, PyStr.drop 5 s)
          else
            match parse_number s with
            | Some found => Ok found
            | None => parse_constant s
            end
      end
  end
with parse_items (fuel : nat) (s : string) : result (list pyval * string) :=
  match fuel with
  | O => decode_error "Expecting value"
  | S fuel' =>
      let? (v, r) := parse_value fuel' s in
      match skip_ws r with
      | "" => decode_error "Expecting ',' delimiter"
      | String c r' =>
          if Ascii.eqb c "]" then Ok ([v], r')
          else if Ascii.eqb c "," then
            let? (vs, r'') := parse_items fuel' (skip_ws r') in
            Ok (v :: vs, r'')
          else decode_error "Expecting ',' delimiter"
      end
  end
with parse_members (fuel : nat) (s : string)
  : result (list (string * pyval) * string) :=
  match fuel with
  | O => decode_error "Expecting value"
  | S fuel' =>
      match s with
      | "" => decode_error "Expecting property name enclosed in double quotes"
      | String c r0 =>
          if Ascii.eqb c dq then
            let? (k, r1) := parse_string r0 in
            match skip_ws r1 with
            | "" => decode_error "Expecting ':' delimiter"
            | String c1 r2 =>
                if Ascii.eqb c1 ":" then
                  let? (v, r3) := parse_value fuel' (skip_ws r2) in
                  match skip_ws r3 with
                  | "" => decode_error "Expecting ',' delimiter"
                  | String c2 r4 =>
                      if Ascii.eqb c2 "}" then Ok ([(k, v)], r4)
                      else if Ascii.eqb c2 "," then
                        let? (kvs, r5) := parse_members fuel' (skip_ws r4) in
                        Ok ((k, v) :: kvs, r5)
                      else decode_error "Expecting ',' delimiter"
                  end
                else decode_error "Expecting ':' delimiter"
            end
          else decode_error "Expecting property name enclosed in double quotes"
      end
  end.

(** [json.loads] *)
Definition loads (s : string) : result pyval :=
  let? (v, r) := parse_value (2 * String.length s + 2) (skip_ws s) in
  if PyStr.is_empty (skip_ws r) then Ok v else decode_error "Extra data".

End Decoder.

End Json.

(** ** Example worlds

    Concrete collaborators on which the stages run by computation. *)

Module Demo.

(** A stand-in for [float.__repr__] and [float]: the mantissa and the
    exponent in decimal, around the letter e. *)
Definition float_repr (f : pyfloat) : string :=
  match f with
  | FFinite m e => Json.int_repr m +:+ "e" +:+ Json.int_repr e
  | FNan => "nan"
  | FInf false => "inf"
  | FInf true => "-inf"
  end.

Definition float_of_literal (s : string) : pyfloat :=
  match Json.lex_integer s with
  | Some (m, String _ e) => FFinite (Json.int_of_literal m) (Json.int_of_literal e)
  | _ => FNan
  end.

Definition dumps : pyval → string := Json.dumps float_repr.

Definition loads : string → result pyval := Json.loads float_of_literal.

Fixpoint filler (n : nat) : string :=
  match n with
  | O => ""
  | S n' => String "x" (filler n')
  end.

(** A page whose cleaned text has [n] characters after the first 2000. *)
#[warnings="-abstract-large-number"] Definition page (n : nat) : Z * string := (200%Z, filler (2000 + n)).

Definition fenced (body : string) : string :=
  "```json" +:+ NL +:+ body +:+ NL +:+ "```".

Definition acme_answer : pyval :=
  PDict [("website_url", PStr "https://acme.test");
         ("description", PStr "Acme sells anvils.");
         ("competitors", PList [PStr "Ajax"; PStr "Apex"]);
         ("free_tier", PBool true);
         ("starter_plan", PDict [("name", PStr "Pro"); ("price", PStr "$9/month")]);
         ("enterprise_plan", PBool true);
         ("headlines", PList [PDict [("title", PStr "Acme ships"); ("position", PInt 1)]])].

Definition show (v : pyval) : string :=
  match v with
  | PStr s => s
  | _ => dumps v
  end.

(** The collaborators that vary between the examples are the web site
    ([site], the answer of both HTTP clients' GET), the two LLMs and the
    search tool; the rest is fixed. *)
Definition make (search : string → result string)
    (llm writer_llm : string → result string)
    (site : string → result (Z * string)) : Env :=
  {| search_tool_invoke := λ _, search;
     model_invoke := λ _, llm;
     model_writer_invoke := λ _, writer_llm;
     requests_get := λ _ url, let? r := site url in Ok r.1;
     session_get := λ _, site;
     embeddings_load := λ _ name, Ok (HuggingFaceEmbeddings name);
     faiss_from_documents := λ _ chunks _, Ok (mkVectorStore chunks);
     similarity_search := λ _ store _ k, Ok (take k (indexed store));
     file_write := λ _ _ _, Written;
     soup_get_text := Ok;
     create_documents := λ text, [mkDocument text];
     json_loads := loads;
     json_dumps := dumps;
     urljoin := λ base suffix, Ok (base +:+ suffix);
     py_str := show;
     research_prompt := λ query results, query +:+ NL +:+ results;
     pricing_prompt := λ chunks, chunks;
     news_prompt := λ chunks, chunks;
     writer_prompt := λ name url descr comp pricing news,
       PyStr.join NL [name; url; descr; comp; pricing; news] |}.

Definition unreachable : exn :=
  OtherException
    ("HTTPSConnectionPool(host='acme.test', port=443): Max retries exceeded "
     +:+ "with url: /pricing (Caused by ConnectTimeoutError('Connection to "
     +:+ "acme.test timed out. (connect timeout=10)'))").

Definition good_llm (prompt : string) : result string :=
  Ok (fenced (dumps acme_answer)).

Definition good_search (query : string) : result string :=
  Ok "Acme - https://acme.test - anvils".

Definition good_writer (prompt : string) : result string :=
  Ok ("# Battle Card: Acme" +:+ NL +:+ prompt).

(** Every page of the site answers 200 with 3000 characters of text. *)
Definition happy : Env :=
  make good_search good_llm good_writer (λ _, Ok (page 1000)).

(** Only the second candidate of each stage exists: [/plans] and [/news]
    have 300 characters of content, every other page is missing. *)
Definition second_only : Env :=
  make good_search good_llm good_writer
    (λ url, if bool_decide (url = "https://acme.test/plans") then Ok (page 300)
            else if bool_decide (url = "https://acme.test/news") then Ok (page 300)
            else Ok (404%Z, "")).

(** [/pricing] times out, the other pages are fine. *)
Definition pricing_times_out : Env :=
  make good_search good_llm good_writer
    (λ url, if bool_decide (url = "https://acme.test/pricing") then Raise unreachable
            else Ok (page 1000)).

(** [/pricing] is missing and [/plans] has exactly 100 characters. *)
Definition plans_hundred : Env :=
  make good_search good_llm good_writer
    (λ url, if bool_decide (url = "https://acme.test/pricing") then Ok (404%Z, "")
            else if bool_decide (url = "https://acme.test/plans") then Ok (page 100)
            else Ok (page 1000)).

(** Nothing answers. *)
Definition offline : Env :=
  make (λ _, Raise unreachable) (λ _, Raise unreachable) (λ _, Raise unreachable)
       (λ _, Raise unreachable).

(** The extraction LLM answers with prose. *)
Definition chatty : Env :=
  make good_search (λ _, Ok "Sure! Here is the JSON you asked for.") good_writer
       (λ _, Ok (page 1000)).

(** The writer LLM answers with the empty string. *)
Definition silent_writer : Env :=
  make good_search good_llm (λ _, Ok "") (λ _, Ok (page 1000)).

Definition start : World := mkWorld [] ∅.

Definition acme : AgentState :=
  {| messages := [];
     company_name := "Acme Corp";
     home_url := PStr "https://acme.test";
     description := PStr "Acme sells anvils.";
     competitors := PList [PStr "Ajax"];
     pricing_info := [];
     news_headlines := PList [];
     loop_count := 1;
     final_report := "" |}.

(** A state left over from an earlier run of an unresolved company. *)
Definition stale : AgentState :=
  {| messages := [];
     company_name := "Acme Corp";
     home_url := PStr "Not found";
     description := PStr "Not available";
     competitors := PList [];
     pricing_info := [];
     news_headlines := PList [PDict [("title", PStr "Old news"); ("position", PInt 1)]];
     loop_count := 1;
     final_report := "" |}.

(** A state whose headlines are bare strings, as an LLM answer
    [{"headlines": ["Acme ships"]}] leaves them. *)
Definition bare_headlines : AgentState :=
  {| messages := [];
     company_name := "Acme Corp";
     home_url := PStr "https://acme.test";
     description := PStr "Acme sells anvils.";
     competitors := PList [PStr "Ajax"];
     pricing_info := [];
     news_headlines := PList [PStr "Acme ships"];
     loop_count := 1;
     final_report := "" |}.

End Demo.

(** ** Vocabulary of the statements *)

(** No fencing: the text does not open with a fence.  One layer: an
    opening fence line (the fence and an optional language tag), a body
    free of fences, and a closing fence line. *)
Definition unfenced (x : string) : Prop := PyStr.startswith fence x = false.

Definition fenced_once (x : string) : Prop :=
  ∃ tag body,
    x = fence +:+ tag +:+ NL +:+ body +:+ NL +:+ fence
    ∧ PyStr.contains NL tag = false
    ∧ PyStr.contains fence body = false.

(** The two HTTP requests of the program. *)
Definition is_fetch (ev : event) : bool :=
  match ev with
  | RequestsGet _ | SessionGet _ => true
  | _ => false
  end.

(** [m] extends the trace, and only with events satisfying [P]. *)
Definition emits (P : event → Prop) {A} (m : M A) : Prop :=
  ∀ w, ∃ evs, trace (m w).2 = trace w ++ evs ∧ Forall P evs.

Definition not_fetch (ev : event) : Prop := is_fetch ev = false.

(** A News candidate that is passed over: the status check raises or
    answers another status than 200, or it answers 200 and the scrape
    yields at most 100 characters.  [w1] is the world afterwards. *)
Definition news_candidate_fails (env : Env) (url : string) (w w1 : World) : Prop :=
  (requests_get env (trace w) url ≠ Ok 200%Z ∧ w1 = log (RequestsGet url) w)
  ∨ (requests_get env (trace w) url = Ok 200%Z
     ∧ w1 = log (SessionGet url) (log (RequestsGet url) w)
     ∧ ∃ e1, (scrape_website env url (log (RequestsGet url) w)).1 = Ok e1
             ∧ String.length e1 ≤ 100).

(** The failures of the Research stage: the search raises, the LLM call
    raises, the answer is not JSON, or it is JSON but not an object. *)
Definition research_fails (env : Env) (query : string) (w : World) : Prop :=
  let q := query +:+ " official website competitors" in
  match search_tool_invoke env (trace w) q with
  | Raise _ => True
  | Ok search_results =>
      let prompt := research_prompt env query search_results in
      match model_invoke env (trace w ++ [SearchInvoke q]) prompt with
      | Raise _ => True
      | Ok response_content =>
          match json_loads env (clean_response response_content) with
          | Raise _ => True
          | Ok (PDict _) => False
          | Ok _ => True
          end
      end
  end.

(** The states whose fields the Writer can format: [competitors] is
    empty or an iterable of strings; the first pricing record, if any, is
    a dictionary whose [starter_plan] is empty or a dictionary;
    [news_headlines] is empty or a list of dictionaries. *)
Definition is_str (v : pyval) : bool :=
  match v with PStr _ => true | _ => false end.

Definition is_dict (v : pyval) : bool :=
  match v with PDict _ => true | _ => false end.

Definition joinable (v : pyval) : bool :=
  negb (Py.truthy v)
  || match v with
     | PList l => forallb is_str l
     | PStr _ | PDict _ => true
     | _ => false
     end.

Definition record_formattable (v : pyval) : bool :=
  match v with
  | PDict d =>
      let starter_plan := default (PDict []) (Py.lookup "starter_plan" d) in
      negb (Py.truthy starter_plan) || is_dict starter_plan
  | _ => false
  end.

Definition headlines_formattable (v : pyval) : bool :=
  negb (Py.truthy v)
  || match v with
     | PList l => forallb is_dict l
     | _ => false
     end.

Definition formattable (state : AgentState) : bool :=
  joinable (competitors state)
  && match pricing_info state with
     | [] => true
     | pricing_data :: _ => record_formattable pricing_data
     end
  && headlines_formattable (news_headlines state).

Definition is_ok {A} (r : result A) : bool :=
  match r with Ok _ => true | Raise _ => false end.

(** The banner of a degraded report (line 444). *)
Definition error_banner : string := "# Error Generating Battle Card".

(** [home_url] holds a URL string that the stages do not skip. *)
Definition resolved (home_url : pyval) (u : string) : Prop :=
  home_url = PStr u ∧ u ≠ "" ∧ u ≠ "Not found".

(** ** Further example worlds *)

Module Demo2.

(** Search and LLMs answer, but every page of the site is missing. *)
Definition offline_site : Env :=
  Demo.make Demo.good_search Demo.good_llm Demo.good_writer (λ _, Ok (404%Z, "")).

(** A state whose [home_url] is a list, as an LLM answer with
    ["website_url": ["https://acme.test"]] leaves it. *)
Definition list_url : AgentState :=
  {| messages := [];
     company_name := "Acme Corp";
     home_url := PList [PStr "https://acme.test"];
     description := PStr "Acme sells anvils.";
     competitors := PList [];
     pricing_info := [];
     news_headlines := PList [];
     loop_count := 1;
     final_report := "" |}.

(** The extraction LLM answers with a list of URLs for [website_url]. *)
Definition list_answer : Env :=
  Demo.make Demo.good_search
    (λ _, Ok (Demo.fenced
                (Demo.dumps (PDict [("website_url", PList [PStr "https://acme.test"])]))))
    Demo.good_writer (λ _, Ok (Demo.page 1000)).

(** Saving the sidecar fails; everything else works. *)
Definition no_sidecar : Env :=
  let base := Demo.happy in
  {| search_tool_invoke := search_tool_invoke base;
     model_invoke := model_invoke base;
     model_writer_invoke := model_writer_invoke base;
     requests_get := requests_get base;
     session_get := session_get base;
     embeddings_load := embeddings_load base;
     faiss_from_documents := faiss_from_documents base;
     similarity_search := similarity_search base;
     file_write := λ _ filename _,
       if bool_decide (filename = "acme_corp_data.json")
       then WriteFailed (OtherException "[Errno 28] No space left on device") "{"
       else Written;
     soup_get_text := soup_get_text base;
     create_documents := create_documents base;
     json_loads := json_loads base;
     json_dumps := json_dumps base;
     urljoin := urljoin base;
     py_str := py_str base;
     research_prompt := research_prompt base;
     pricing_prompt := pricing_prompt base;
     news_prompt := news_prompt base;
     writer_prompt := writer_prompt base |}.

(** [urljoin] as strict as the library's: a base with an opening
    bracket and no closing one is rejected. *)
Definition strict_urls : Env :=
  let base := Demo.happy in
  {| search_tool_invoke := search_tool_invoke base;
     model_invoke := model_invoke base;
     model_writer_invoke := model_writer_invoke base;
     requests_get := requests_get base;
     session_get := session_get base;
     embeddings_load := embeddings_load base;
     faiss_from_documents := faiss_from_documents base;
     similarity_search := similarity_search base;
     file_write := file_write base;
     soup_get_text := soup_get_text base;
     create_documents := create_documents base;
     json_loads := json_loads base;
     json_dumps := json_dumps base;
     urljoin := λ b suffix,
       if PyStr.contains "[" b && negb (PyStr.contains "]" b)
       then Raise (OtherException "Invalid IPv6 URL")
       else Ok (b +:+ suffix);
     py_str := py_str base;
     research_prompt := research_prompt base;
     pricing_prompt := pricing_prompt base;
     news_prompt := news_prompt base;
     writer_prompt := writer_prompt base |}.

(** A state whose [home_url] is a string that [urljoin] rejects. *)
Definition bracket_url : AgentState :=
  {| messages := [];
     company_name := "Acme Corp";
     home_url := PStr "https://[acme.test";
     description := PStr "Acme sells anvils.";
     competitors := PList [];
     pricing_info := [];
     news_headlines := PList [];
     loop_count := 1;
     final_report := "" |}.

(** A state with one pricing record, whose price is a number. *)
Definition priced : AgentState :=
  {| messages := [];
     company_name := "Acme Corp";
     home_url := PStr "https://acme.test";
     description :=
       PStr ("Acme sells " +:+ String Json.dq ("anvils" +:+ String Json.dq ".") +:+ NL);
     competitors := PList [PStr "Ajax"; PStr "Apex"];
     pricing_info :=
       [PDict [("free_tier", PBool false);
               ("starter_plan",
                PDict [("name", PStr "Pro"); ("price", PFloat (FFinite 725 (-2)))]);
               ("enterprise_plan", PNone)]];
     news_headlines := PList [PDict [("title", PStr "Acme ships"); ("position", PInt 1)]];
     loop_count := 1;
     final_report := "" |}.

(** An input file with two companies; the summary as one line per row. *)
Definition two_companies : BulkEnv :=
  {| read_csv := λ _ _, CsvRows [[("Company", "Acme Corp")]; [("Company", "Ajax")]];
     summary_csv := λ rows,
       PyStr.join NL ((λ r, r.1.1.1.1 +:+ "," +:+ r.2) <$> rows) |}.

End Demo2.

(** ** Vocabulary of the further statements *)

(** The failures of [scrape_website]: the request raises, the status is
    not 200, or the HTML parser raises. *)
Definition scrape_fails (env : Env) (url : string) (w : World) : Prop :=
  match session_get env (trace w) url with
  | Raise _ => True
  | Ok (status_code, html) =>
      if (status_code =? 200)%Z then is_ok (soup_get_text env html) = false
      else True
  end.

(** Some character of [s] satisfies [f]. *)
Fixpoint has_char (f : ascii → bool) (s : string) : bool :=
  match s with
  | "" => false
  | String c s' => f c || has_char f s'
  end.

(** The world after the pages [urls] have been fetched in order. *)
Definition fetched (urls : list string) (w : World) : World :=
  foldl (λ w url, log (SessionGet url) w) w urls.

(** The requests of the News probe for the candidates it looked at: the
    status check, followed by the scrape when [scraped]. *)
Definition news_requests (looked_at : list (string * bool)) : list event :=
  looked_at ≫= λ '(url, scraped),
    RequestsGet url :: if scraped : bool then [SessionGet url] else [].

(** The status checks of the candidates [urls], made one after the
    other from the world [w], all fail: each raises or answers another
    status than 200 in the history in which it is made. *)
Definition status_checks_fail (env : Env) (urls : list string) (w : World) : Prop :=
  ∀ k url, urls !! k = Some url →
    requests_get env (trace w ++ (RequestsGet <$> take k urls)) url ≠ Ok 200%Z.

(** The events of a stage that are neither an HTTP request nor a
    retrieval step. *)
Definition is_report_event (ev : event) : Prop :=
  match ev with
  | SearchInvoke _ | ModelInvoke _ | ModelWriterInvoke _ | FileWrite _ _ => True
  | _ => False
  end.

(** ** Vocabulary of the JSON round trip *)

#[global] Instance pyfloat_eq_dec : EqDecision pyfloat.
Proof. solve_decision. Defined.

(** The dictionaries of [v] have distinct keys, as every Python [dict]
    has. *)
Fixpoint keys_distinct (v : pyval) : bool :=
  match v with
  | PList items => forallb keys_distinct items
  | PDict entries =>
      bool_decide (NoDup entries.*1) && forallb (λ kv, keys_distinct kv.2) entries
  | _ => true
  end.

(** What Python guarantees of a finite float [f]: [repr(f)] is a number
    with a fraction or an exponent, and [float(repr(f))] is [f]. *)
Definition float_reads_back (float_repr : pyfloat → string)
    (float_of_literal : string → pyfloat) (f : pyfloat) : bool :=
  match f with
  | FFinite _ _ =>
      Json.float_literal (float_repr f)
      && bool_decide (float_of_literal (float_repr f) = f)
  | _ => true
  end.

(** Every float held in [v] has that property. *)
Fixpoint floats_read_back (float_repr : pyfloat → string)
    (float_of_literal : string → pyfloat) (v : pyval) : bool :=
  match v with
  | PFloat f => float_reads_back float_repr float_of_literal f
  | PList items => forallb (floats_read_back float_repr float_of_literal) items
  | PDict entries =>
      forallb (λ kv, floats_read_back float_repr float_of_literal kv.2) entries
  | _ => true
  end.

(** The calls in progress that reading [v] back may need. *)
Fixpoint cost (v : pyval) : nat :=
  match v with
  | PList items => S (list_sum (map (λ x, S (cost x)) items))
  | PDict entries => S (list_sum (map (λ kv, S (cost kv.2)) entries))
  | _ => 1
  end.

Definition head_is (p : ascii → bool) (s : string) : bool :=
  match s with
  | "" => false
  | String c _ => p c
  end.

(** The characters a number is made of, and those it may start with. *)
Definition number_char (c : ascii) : bool :=
  Json.is_digit c || Ascii.eqb c "." || Ascii.eqb c "e" || Ascii.eqb c "E"
  || Ascii.eqb c "+" || Ascii.eqb c "-".

Definition number_start (c : ascii) : bool :=
  Json.is_digit c || Ascii.eqb c "-".

(** The first character of a written value. *)
Definition value_start (c : ascii) : bool :=
  number_start c || Ascii.eqb c Json.dq || Ascii.eqb c "{" || Ascii.eqb c "["
  || Ascii.eqb c "n" || Ascii.eqb c "t" || Ascii.eqb c "f"
  || Ascii.eqb c "N" || Ascii.eqb c "I".

(** What follows a value in the text [json.dump] writes: nothing, a
    comma, or the end of the line. *)
Definition ends_value (s : string) : bool :=
  match s with
  | "" => true
  | String c _ => Ascii.eqb c "," || Ascii.eqb c PyStr.nl
  end.

(** Unfolding of the monad's operations, and case analysis on every
    branching the computation makes. *)
Ltac unfold_m := unfold bind, ret, lift, try_except, call in *.

Ltac step_m := unfold_m; simpl in *; repeat (case_match; simplify_eq/=); eauto.

(** ** Strings *)

Section StringFacts.

Implicit Types (s t p sep : string) (c : ascii).

Local Arguments Ascii.eqb : simpl never.

Lemma append_cons c s t : String c s +:+ t = String c (s +:+ t).
Proof. reflexivity. Qed.

Lemma append_empty_l s : "" +:+ s = s.
Proof. reflexivity. Qed.

Lemma append_assoc s t p : (s +:+ t) +:+ p = s +:+ t +:+ p.
Proof. induction s as [|c s IH]; [done|]. by rewrite !append_cons, IH. Qed.

Lemma startswith_empty p : PyStr.startswith p "" = true → p = "".
Proof. by destruct p. Qed.

Lemma contains_startswith p s :
  PyStr.contains p s = false → PyStr.startswith p s = false.
Proof. destruct s; simpl; intros H; by apply orb_false_iff in H as [? _]. Qed.

Lemma contains_tail p c s :
  PyStr.contains p (String c s) = false → PyStr.contains p s = false.
Proof.
  intros H. change (PyStr.contains p (String c s))
    with (PyStr.startswith p (String c s) || PyStr.contains p s) in H.
  by apply orb_false_iff in H as [_ ?].
Qed.

Lemma contains_drop p n s :
  PyStr.contains p s = false → PyStr.contains p (PyStr.drop n s) = false.
Proof.
  revert s. induction n as [|n IH]; intros [|c s] H; simpl; try done.
  apply IH. by eapply contains_tail.
Qed.

Lemma contains_lstrip p f s :
  PyStr.contains p s = false → PyStr.contains p (PyStr.lstrip_by f s) = false.
Proof.
  induction s as [|c s IH]; intros H; [done|].
  simpl. destruct (f c); [|done]. apply IH. by eapply contains_tail.
Qed.

(** What starts a right-stripped string starts the string. *)
Lemma startswith_rstrip f p s :
  PyStr.startswith p (PyStr.rstrip_by f s) = true → PyStr.startswith p s = true.
Proof.
  revert p. induction s as [|c s IH]; intros p; [done|].
  destruct p as [|a p]; [done|]. simpl.
  destruct (PyStr.rstrip_by f s) as [|d r] eqn:Hr.
  - destruct (f c); [done|]. simpl.
    destruct (Ascii.eqb a c); [|done].
    intros ->%startswith_empty. by destruct s.
  - simpl. destruct (Ascii.eqb a c); [|done]. apply IH.
Qed.

Lemma startswith_strip_drop p n s :
  PyStr.contains p s = false →
  PyStr.startswith p (PyStr.strip (PyStr.drop n s)) = false.
Proof.
  intros H. unfold PyStr.strip.
  destruct (PyStr.startswith p (PyStr.rstrip_by _ _)) eqn:E; [|done].
  apply startswith_rstrip in E.
  by rewrite (contains_startswith _ _ (contains_lstrip _ _ _ (contains_drop _ n _ H))) in E.
Qed.

Lemma split_by_nonempty f s : PyStr.split_by f s ≠ [].
Proof.
  destruct s as [|c s]; simpl; [done|].
  destruct (f c); [done|]. by destruct (PyStr.split_by f s).
Qed.

(** Splitting distributes over a separator. *)
Lemma split_by_app f s c t :
  f c = true →
  PyStr.split_by f (s +:+ String c t) = PyStr.split_by f s ++ PyStr.split_by f t.
Proof.
  intros Hc. induction s as [|d s IH].
  - rewrite append_empty_l. simpl. by rewrite Hc.
  - rewrite append_cons. simpl. rewrite IH.
    destruct (f d); [done|].
    pose proof (split_by_nonempty f s).
    by destruct (PyStr.split_by f s).
Qed.

Lemma split_nl_single s :
  PyStr.contains NL s = false → PyStr.split_nl s = [s].
Proof.
  unfold PyStr.split_nl. induction s as [|c s IH]; intros H; [done|].
  pose proof (contains_startswith _ _ H) as Hs.
  simpl in Hs. simpl.
  destruct (Ascii.eqb PyStr.nl c); [done|].
  by rewrite (IH (contains_tail _ _ _ H)).
Qed.

Lemma join_cons sep s t (l : list string) :
  PyStr.join sep (s :: t :: l) = s +:+ sep +:+ PyStr.join sep (t :: l).
Proof. reflexivity. Qed.

Lemma join_split_nl s : PyStr.join NL (PyStr.split_nl s) = s.
Proof.
  unfold PyStr.split_nl. induction s as [|c s IH]; [done|].
  simpl. pose proof (split_by_nonempty (Ascii.eqb PyStr.nl) s) as Hne.
  destruct (Ascii.eqb PyStr.nl c) eqn:Hc.
  - apply Ascii.eqb_eq in Hc as <-.
    destruct (PyStr.split_by _ s) as [|l ls]; [done|].
    by rewrite join_cons, IH.
  - destruct (PyStr.split_by _ s) as [|l ls]; [done|].
    rewrite <- IH. destruct ls; [done|]. by rewrite !join_cons.
Qed.

Lemma fence_not_json s :
  PyStr.startswith fence s = true → PyStr.startswith "json" s = false.
Proof.
  destruct s as [|c s]; [done|]. simpl.
  destruct (Ascii.eqb "`" c) eqn:E; [|done].
  apply Ascii.eqb_eq in E as <-. done.
Qed.

End StringFacts.

(** Stripping is the identity on a text that does not open with a fence. *)
Lemma strip_fence_unfenced x : unfenced x → strip_fence x = x.
Proof. unfold unfenced, strip_fence. by intros ->. Qed.

(** After one pass the text is either unchanged or no longer opens with
    a fence, as soon as the lines between the first and the last hold no
    fence. *)
Lemma strip_fence_fixed_or_unfenced x :
  PyStr.contains fence (PyStr.join NL (slice_1_m1 (PyStr.split_nl x))) = false →
  strip_fence x = x ∨ unfenced (strip_fence x).
Proof.
  intros Hin. unfold strip_fence, unfenced.
  destruct (PyStr.startswith fence x) eqn:Hx; [|by right].
  destruct (2 <? length (PyStr.split_nl x)).
  - right. destruct (PyStr.startswith "json" _).
    + by apply startswith_strip_drop.
    + by apply contains_startswith.
  - left. by rewrite (fence_not_json _ Hx).
Qed.

Lemma strip_fence_twice_inner x :
  PyStr.contains fence (PyStr.join NL (slice_1_m1 (PyStr.split_nl x))) = false →
  strip_fence (strip_fence x) = strip_fence x.
Proof.
  intros [H|H]%strip_fence_fixed_or_unfenced.
  - by rewrite !H.
  - by apply strip_fence_unfenced.
Qed.

(** The lines of a text with one layer of fencing. *)
Lemma fenced_once_lines tag body :
  PyStr.contains NL tag = false →
  PyStr.split_nl (fence +:+ tag +:+ NL +:+ body +:+ NL +:+ fence)
  = (fence +:+ tag) :: PyStr.split_nl body ++ [fence].
Proof.
  intros Htag. unfold PyStr.split_nl.
  rewrite <- (append_assoc fence tag).
  change (NL +:+ body +:+ NL +:+ fence) with (String PyStr.nl (body +:+ String PyStr.nl fence)).
  rewrite split_by_app by apply Ascii.eqb_refl.
  rewrite split_by_app by apply Ascii.eqb_refl.
  assert (PyStr.split_by (Ascii.eqb PyStr.nl) (fence +:+ tag) = [fence +:+ tag]) as ->.
  { apply split_nl_single. exact Htag. }
  done.
Qed.

Lemma fenced_once_inner tag body :
  PyStr.contains NL tag = false →
  PyStr.join NL
    (slice_1_m1 (PyStr.split_nl (fence +:+ tag +:+ NL +:+ body +:+ NL +:+ fence)))
  = body.
Proof.
  intros Htag. rewrite (fenced_once_lines _ _ Htag).
  unfold slice_1_m1. simpl tail. rewrite removelast_last. apply join_split_nl.
Qed.

(** C8. Markdown-fence stripping is idempotent on every text with zero or
    one layers of triple-backtick fencing: a second pass of the stripping
    step returns what the first pass returned. *)
Theorem strip_fence_idempotent x :
  unfenced x ∨ fenced_once x → strip_fence (strip_fence x) = strip_fence x.
Proof.
  intros [H|(tag & body & -> & Htag & Hbody)].
  - by rewrite !(strip_fence_unfenced _ H).
  - apply strip_fence_twice_inner. by rewrite fenced_once_inner.
Qed.

(** ** Computations and their traces *)

Section Emits.

Context {A B : Type} (P : event → Prop).

Lemma emits_ret (a : A) : emits P (ret a).
Proof. intros w. exists []. by rewrite app_nil_r. Qed.

Lemma emits_lift (r : result A) : emits P (lift r).
Proof. intros w. exists []. by rewrite app_nil_r. Qed.

Lemma emits_call ev (answer : list event → result A) : P ev → emits P (call ev answer).
Proof. intros Hev w. exists [ev]. split; [done|]. by constructor. Qed.

Lemma emits_bind (m : M A) (k : A → M B) :
  emits P m → (∀ a, emits P (k a)) → emits P (bind m k).
Proof.
  intros Hm Hk w. destruct (Hm w) as (evs & Ht & Hevs). unfold bind.
  destruct (m w) as [[a|e] w1]; simpl in *.
  - destruct (Hk a w1) as (evs' & Ht' & Hevs'). exists (evs ++ evs').
    rewrite Ht', Ht, <- app_assoc. split; [done|]. by apply Forall_app.
  - by exists evs.
Qed.

Lemma emits_try_except (m : M A) (h : exn → M A) :
  emits P m → (∀ e, emits P (h e)) → emits P (try_except m h).
Proof.
  intros Hm Hh w. destruct (Hm w) as (evs & Ht & Hevs). unfold try_except.
  destruct (m w) as [[a|e] w1]; simpl in *.
  - by exists evs.
  - destruct (Hh e w1) as (evs' & Ht' & Hevs'). exists (evs ++ evs').
    rewrite Ht', Ht, <- app_assoc. split; [done|]. by apply Forall_app.
Qed.

End Emits.

Section StageFacts.

Variable env : Env.

(** *** [scrape_website] returns a string, after exactly one request. *)
Lemma scrape_website_total url w :
  ∃ text, scrape_website env url w = (Ok text, log (SessionGet url) w).
Proof.
  unfold scrape_website. unfold_m.
  destruct (session_get env (trace w) url) as [[code html]|e]; [|eauto].
  destruct (code =? 200)%Z; [|eauto].
  destruct (soup_get_text env html); eauto.
Qed.

Lemma scrape_website_world url w :
  (scrape_website env url w).2 = log (SessionGet url) w.
Proof. destruct (scrape_website_total url w) as [t ->]. done. Qed.

Lemma scrape_website_eq url w text :
  (scrape_website env url w).1 = Ok text →
  scrape_website env url w = (Ok text, log (SessionGet url) w).
Proof. destruct (scrape_website_total url w) as [t ->]. by intros [= ->]. Qed.

(** *** The retrieval steps issue no HTTP request. *)
Lemma retriever_text_no_fetch text : emits not_fetch (retriever_text env text).
Proof.
  unfold retriever_text. apply emits_bind; [by apply emits_call|].
  intros emb. destruct (_ || _); apply emits_ret.
Qed.

Lemma get_price_chunks_no_fetch chunks emb query k :
  emits not_fetch (get_price_chunks env chunks emb query k).
Proof.
  unfold get_price_chunks. apply emits_bind; [by apply emits_call|].
  intros vs. by apply emits_call.
Qed.

Lemma pricing_extract_no_fetch text pi : emits not_fetch (pricing_extract env text pi).
Proof.
  unfold pricing_extract. apply emits_bind; [apply retriever_text_no_fetch|].
  intros [[chunks|] [emb|]]; try apply emits_ret.
  apply emits_bind; [apply get_price_chunks_no_fetch|]. intros pc.
  apply emits_bind; [by apply emits_call|]. intros res.
  apply emits_bind; [apply emits_lift|]. intros js. apply emits_ret.
Qed.

Lemma pricing_finish_no_fetch text pi : emits not_fetch (pricing_finish env text pi).
Proof.
  unfold pricing_finish. destruct text as [text|]; [|apply emits_ret].
  destruct (PyStr.is_empty text); [apply emits_ret|].
  apply emits_bind; [|intros; apply emits_ret].
  apply emits_try_except; [apply pricing_extract_no_fetch|intros; apply emits_ret].
Qed.

Lemma news_extract_no_fetch text : emits not_fetch (news_extract env text).
Proof.
  unfold news_extract. apply emits_bind; [apply retriever_text_no_fetch|].
  intros [[chunks|] [emb|]]; try apply emits_ret.
  apply emits_bind; [apply get_price_chunks_no_fetch|]. intros pc.
  apply emits_bind; [by apply emits_call|]. intros res.
  destruct (json_loads env _) as [v|[]]; try apply emits_ret; try apply emits_lift.
  apply emits_bind; [apply emits_lift|]. intros h.
  apply emits_bind; [apply emits_lift|]. intros n. apply emits_ret.
Qed.

Lemma news_finish_no_fetch text : emits not_fetch (news_finish env text).
Proof.
  unfold news_finish. destruct text as [text|]; [|apply emits_ret].
  destruct (PyStr.is_empty text); [apply emits_ret|].
  apply emits_bind; [|intros; apply emits_ret].
  apply emits_try_except; [apply news_extract_no_fetch|intros; apply emits_ret].
Qed.

(** *** What each stage returns *)

Lemma research_node_returns state w :
  ∃ website_url description competitors w',
    research_node env state w
    = (Ok {| upd_home_url := Some website_url;
             upd_description := Some description;
             upd_competitors := Some competitors;
             upd_pricing_info := None;
             upd_news_headlines := None;
             upd_loop_count := Some (loop_count state + 1)%Z;
             upd_final_report := None |}, w').
Proof.
  unfold research_node, bind, try_except, ret, research_defaults.
  destruct (research_extract env _ w) as [[[[a b] c]|e] w1]; eauto.
Qed.

Lemma pricing_finish_returns text pi w :
  ∃ pi' w', pricing_finish env text pi w = (Ok (only_pricing_info pi'), w')
            ∧ (pi' = pi ∨ ∃ record, pi' = pi ++ [record]).
Proof.
  unfold pricing_finish. destruct text as [text|]; [|unfold ret; eauto].
  destruct (PyStr.is_empty text); [unfold ret; eauto|].
  unfold bind, try_except, ret.
  destruct (pricing_extract env text pi w) as [[pi'|e] w1] eqn:E; [|eauto].
  exists pi', w1. split; [done|].
  unfold pricing_extract in E. step_m.
Qed.

Lemma pricing_node_returns state w u w' :
  pricing_node env state w = (Ok u, w') →
  ∃ pi', u = only_pricing_info pi'
         ∧ (pi' = pricing_info state ∨ ∃ record, pi' = pricing_info state ++ [record]).
Proof.
  unfold pricing_node. destruct (unresolved _).
  { unfold ret. intros [= <- <-]. eauto. }
  unfold bind, lift. destruct (candidate_urls _ _ _) as [urls|e]; [|done].
  destruct (pricing_probe env urls None w) as [[text|e] w1]; [|done].
  destruct (pricing_finish_returns text (pricing_info state) w1) as (pi' & w2 & -> & H).
  intros [= <- <-]. eauto.
Qed.

Lemma news_finish_returns text w :
  ∃ headlines w', news_finish env text w = (Ok (only_news_headlines headlines), w').
Proof.
  unfold news_finish. destruct text as [text|]; [|unfold ret; eauto].
  destruct (PyStr.is_empty text); [unfold ret; eauto|].
  unfold bind, try_except, ret.
  destruct (news_extract env text w) as [[h|e] w1]; eauto.
Qed.

Lemma news_node_returns state w u w' :
  news_node env state w = (Ok u, w') → ∃ headlines, u = only_news_headlines headlines.
Proof.
  unfold news_node. destruct (unresolved _).
  { unfold ret. intros [= <- <-]. eauto. }
  unfold bind, lift. destruct (candidate_urls _ _ _) as [urls|e]; [|done].
  destruct (news_probe env urls None w) as [[text|e] w1]; [|done].
  destruct (news_finish_returns text w1) as (h & w2 & ->).
  intros [= <- <-]. eauto.
Qed.

Lemma writer_node_returns state w u w' :
  writer_node env state w = (Ok u, w') → ∃ report, u = report_update state report.
Proof.
  unfold writer_node, bind, lift, try_except, ret.
  destruct (writer_format env state) as [prompt|e]; [|done].
  destruct (writer_generate env state prompt w) as [[r|e] w1]; intros [= <- <-]; eauto.
Qed.

End StageFacts.

(** ** The counter of stages *)

Lemma run_node_eq (node : AgentState → M Update) state w u w' :
  node state w = (Ok u, w') → run_node node state w = (Ok (apply_update state u), w').
Proof. unfold run_node, bind, ret. by intros ->. Qed.

Lemma run_node_inv (node : AgentState → M Update) state w s' w' :
  run_node node state w = (Ok s', w') →
  ∃ u, node state w = (Ok u, w') ∧ s' = apply_update state u.
Proof.
  unfold run_node, bind, ret. destruct (node state w) as [[u|e] w1]; [|done].
  intros [= <- <-]. eauto.
Qed.

(** C1 (amended). After one full pipeline run of Research, Pricing, News
    and Writer from the initial state, whose [loop_count] is 0, the final
    [loop_count] is 2: Research and Writer each add exactly 1, Pricing and
    News return no [loop_count] and leave the counter as it is. *)
Theorem loop_count_after_run env name w final w' :
  graph_invoke env (initial_state name) w = (Ok final, w') →
  ∃ s1 s2 s3 w1 w2 w3,
    run_node (research_node env) (initial_state name) w = (Ok s1, w1)
    ∧ run_node (pricing_node env) s1 w1 = (Ok s2, w2)
    ∧ run_node (news_node env) s2 w2 = (Ok s3, w3)
    ∧ run_node (writer_node env) s3 w3 = (Ok final, w')
    ∧ loop_count s1 = 1%Z ∧ loop_count s2 = 1%Z ∧ loop_count s3 = 1%Z
    ∧ loop_count final = 2%Z.
Proof.
  unfold graph_invoke. unfold bind at 1 2 3.
  destruct (run_node (research_node env) _ w) as [[s1|?] w1] eqn:H1; [|done].
  destruct (run_node (pricing_node env) s1 w1) as [[s2|?] w2] eqn:H2; [|done].
  destruct (run_node (news_node env) s2 w2) as [[s3|?] w3] eqn:H3; [|done].
  intros H4. exists s1, s2, s3, w1, w2, w3. repeat (split; [done|]).
  apply run_node_inv in H1 as (u1 & H1 & ->).
  apply run_node_inv in H2 as (u2 & H2 & ->).
  apply run_node_inv in H3 as (u3 & H3 & ->).
  apply run_node_inv in H4 as (u4 & H4 & ->).
  destruct (research_node_returns env (initial_state name) w) as (a & b & c & w0 & E).
  rewrite E in H1. injection H1 as <- <-.
  apply pricing_node_returns in H2 as (pi & -> & _).
  apply news_node_returns in H3 as (h & ->).
  apply writer_node_returns in H4 as (r & ->).
  done.
Qed.

Lemma loop_count_after_run_witness :
  ∃ final,
    (graph_invoke Demo.happy (initial_state "Acme Corp") Demo.start).1 = Ok final
    ∧ loop_count final = 2%Z.
Proof.
  eexists. split; [vm_compute; reflexivity|].
  edestruct (loop_count_after_run Demo.happy "Acme Corp" Demo.start)
    as (s1 & s2 & s3 & w1 & w2 & w3 & _ & _ & _ & _ & _ & _ & _ & Hfinal).
  - vm_compute; reflexivity.
  - exact Hfinal.
Defined.

(** C1 as stated fails: a run in which every stage succeeds ends with
    [loop_count] different from 4. *)
Lemma loop_count_not_four :
  ∃ final,
    (graph_invoke Demo.happy (initial_state "Acme Corp") Demo.start).1 = Ok final
    ∧ length (pricing_info final) = 1
    ∧ news_headlines final ≠ PList []
    ∧ loop_count final ≠ 4%Z.
Proof. eexists. split; [vm_compute; reflexivity|]. by vm_compute. Qed.

(** ** The short circuit on an unresolved company *)

(** C2 (amended). When [home_url] is the empty string or the exact string
    "Not found", the Pricing stage and the News stage each issue no call
    at all (the world they return is the world they were given); Pricing
    returns [pricing_info] as it was, and News returns the empty list as
    [news_headlines], whatever the state held before. *)
Theorem short_circuit env state w :
  home_url state = PStr "" ∨ home_url state = PStr "Not found" →
  pricing_node env state w = (Ok (only_pricing_info (pricing_info state)), w)
  ∧ run_node (pricing_node env) state w = (Ok state, w)
  ∧ news_node env state w = (Ok (only_news_headlines (PList [])), w)
  ∧ news_headlines (apply_update state (only_news_headlines (PList []))) = PList [].
Proof.
  intros H.
  assert (unresolved (home_url state) = true) as Hun by (by destruct H as [-> | ->]).
  assert (pricing_node env state w = (Ok (only_pricing_info (pricing_info state)), w)) as Hp.
  { unfold pricing_node. by rewrite Hun. }
  split; [done|]. split.
  { rewrite (run_node_eq _ _ _ _ _ Hp). by destruct state. }
  split; [|done]. unfold news_node. by rewrite Hun.
Qed.

Lemma short_circuit_witness :
  pricing_node Demo.offline Demo.stale Demo.start
    = (Ok (only_pricing_info (pricing_info Demo.stale)), Demo.start)
  ∧ news_node Demo.offline Demo.stale Demo.start
    = (Ok (only_news_headlines (PList [])), Demo.start).
Proof.
  destruct (short_circuit Demo.offline Demo.stale Demo.start) as (Hp & _ & Hn & _).
  - right. reflexivity.
  - exact (conj Hp Hn).
Defined.

(** C2 as stated fails for News: with [home_url] "Not found" and one
    headline in the state, the stage returns no headline. *)
Lemma short_circuit_news_replaces :
  home_url Demo.stale = PStr "Not found"
  ∧ ∃ u w',
      news_node Demo.happy Demo.stale Demo.start = (Ok u, w')
      ∧ trace w' = []
      ∧ news_headlines (apply_update Demo.stale u) ≠ news_headlines Demo.stale.
Proof. split; [done|]. eexists _, _. split; [reflexivity|]. done. Qed.

(** ** Write sets *)

Lemma written_only_pricing_info pi : written (only_pricing_info pi) = {["pricing_info"]}.
Proof. unfold written, only_pricing_info, key_if. simpl. set_solver. Qed.

Lemma written_only_news_headlines h : written (only_news_headlines h) = {["news_headlines"]}.
Proof. unfold written, only_news_headlines, key_if. simpl. set_solver. Qed.

Lemma written_report_update state r :
  written (report_update state r) = {["final_report"; "loop_count"]}.
Proof. unfold written, report_update, key_if. simpl. set_solver. Qed.

(** C4 (amended). Research returns exactly [home_url], [description],
    [competitors] and [loop_count]; Pricing exactly [pricing_info]; News
    exactly [news_headlines]; Writer exactly [final_report] and
    [loop_count].  The write sets of two different stages are disjoint,
    except that Research and Writer both write [loop_count], which is the
    one key they share. *)
Theorem write_sets env sr sp sn sw wr wp wn ww ur up un uw wr' wp' wn' ww' :
  research_node env sr wr = (Ok ur, wr') →
  pricing_node env sp wp = (Ok up, wp') →
  news_node env sn wn = (Ok un, wn') →
  writer_node env sw ww = (Ok uw, ww') →
  written ur = {["home_url"; "description"; "competitors"; "loop_count"]}
  ∧ written up = {["pricing_info"]}
  ∧ written un = {["news_headlines"]}
  ∧ written uw = {["final_report"; "loop_count"]}
  ∧ written ur ## written up ∧ written ur ## written un
  ∧ written up ## written un ∧ written up ## written uw
  ∧ written un ## written uw
  ∧ written ur ∩ written uw = {["loop_count"]}.
Proof.
  intros Hr Hp Hn Hw.
  destruct (research_node_returns env sr wr) as (a & b & c & w0 & E).
  rewrite E in Hr. injection Hr as <- <-.
  apply pricing_node_returns in Hp as (pi & -> & _).
  apply news_node_returns in Hn as (h & ->).
  apply writer_node_returns in Hw as (r & ->).
  rewrite written_only_pricing_info, written_only_news_headlines, written_report_update.
  assert (written
            {| upd_home_url := Some a; upd_description := Some b;
               upd_competitors := Some c; upd_pricing_info := None;
               upd_news_headlines := None;
               upd_loop_count := Some (loop_count sr + 1)%Z;
               upd_final_report := None |}
          = {["home_url"; "description"; "competitors"; "loop_count"]}) as ->.
  { unfold written, key_if. simpl. set_solver. }
  repeat split;
    rewrite ?disjoint_union_l, ?disjoint_union_r, ?disjoint_singleton_l,
      ?not_elem_of_singleton; repeat split; done.
Qed.

Lemma run_ok {A} (m : M A) w a : (m w).1 = Ok a → m w = (Ok a, (m w).2).
Proof. destruct (m w) as [r w']. simpl. by intros ->. Qed.

Lemma write_sets_witness :
  ∃ ur up un uw,
    (research_node Demo.happy Demo.acme Demo.start).1 = Ok ur
    ∧ (pricing_node Demo.happy Demo.acme Demo.start).1 = Ok up
    ∧ (news_node Demo.happy Demo.acme Demo.start).1 = Ok un
    ∧ (writer_node Demo.happy Demo.acme Demo.start).1 = Ok uw
    ∧ written up ## written un
    ∧ written ur ∩ written uw = {["loop_count"]}.
Proof.
  eexists _, _, _, _.
  split; [vm_compute; reflexivity|].
  split; [vm_compute; reflexivity|].
  split; [vm_compute; reflexivity|].
  split; [vm_compute; reflexivity|].
  pose proof
    (write_sets Demo.happy Demo.acme Demo.acme Demo.acme Demo.acme
       Demo.start Demo.start Demo.start Demo.start _ _ _ _ _ _ _ _
       (run_ok (research_node Demo.happy Demo.acme) Demo.start _
               ltac:(vm_compute; reflexivity))
       (run_ok (pricing_node Demo.happy Demo.acme) Demo.start _
               ltac:(vm_compute; reflexivity))
       (run_ok (news_node Demo.happy Demo.acme) Demo.start _
               ltac:(vm_compute; reflexivity))
       (run_ok (writer_node Demo.happy Demo.acme) Demo.start _
               ltac:(vm_compute; reflexivity)))
    as (_ & _ & _ & _ & _ & _ & Hpn & _ & _ & Hrw).
  exact (conj Hpn Hrw).
Defined.

(** C4 as stated fails: [loop_count] is written by Research and by
    Writer. *)
Lemma loop_count_written_twice :
  ∃ ur uw,
    (research_node Demo.happy Demo.acme Demo.start).1 = Ok ur
    ∧ (writer_node Demo.happy Demo.acme Demo.start).1 = Ok uw
    ∧ "loop_count" ∈ written ur
    ∧ "loop_count" ∈ written uw
    ∧ written ur ≠ {["home_url"; "description"; "competitors"]}
    ∧ written uw ≠ {["final_report"]}.
Proof.
  eexists _, _.
  split; [vm_compute; reflexivity|].
  split; [vm_compute; reflexivity|].
  assert (∀ X : gset string, "loop_count" ∈ X →
            X ≠ {["home_url"; "description"; "competitors"]}) as Hr.
  { intros X HX ->. apply elem_of_union in HX as [HX|HX]; [|set_solver].
    apply elem_of_union in HX as [HX|HX]; set_solver. }
  assert (∀ X : gset string, "loop_count" ∈ X → X ≠ {["final_report"]}) as Hw.
  { intros X HX ->. set_solver. }
  assert ("loop_count" ∈ ({["loop_count"]} : gset string)) as Hin by set_solver.
  unfold written, key_if; simpl.
  split; [set_solver|]. split; [set_solver|].
  split; [apply Hr|apply Hw]; set_solver.
Qed.

(** ** The probes *)

Lemma meaningful_spec t : meaningful t = true ↔ 100 < String.length t.
Proof.
  unfold meaningful. destruct t as [|c t]; simpl PyStr.is_empty; simpl negb.
  - split; [done|]. simpl. lia.
  - rewrite andb_true_l. apply Nat.ltb_lt.
Qed.

Lemma meaningful_short t : String.length t ≤ 100 → meaningful t = false.
Proof.
  intros H. destruct (meaningful t) eqn:E; [|done].
  apply meaningful_spec in E. lia.
Qed.

Lemma resolved_not_unresolved home_url u : resolved home_url u → unresolved home_url = false.
Proof.
  intros (-> & Hne & Hnf). unfold unresolved. simpl.
  rewrite (bool_decide_eq_false_2 _ Hnf). by destruct u.
Qed.

Section ProbeFacts.

Variable env : Env.

Lemma pricing_attempt_eq url text w t :
  (scrape_website env url w).1 = Ok t →
  pricing_attempt env url text w = (Ok (Some t, meaningful t), log (SessionGet url) w).
Proof.
  intros H. unfold pricing_attempt, try_except, bind, ret.
  by rewrite (scrape_website_eq _ _ _ _ H).
Qed.

(** A candidate with at most 100 characters is passed over, and its
    text carried along. *)
Lemma pricing_probe_skip c rest text w e1 :
  (scrape_website env c w).1 = Ok e1 → String.length e1 ≤ 100 →
  pricing_probe env (c :: rest) text w
  = pricing_probe env rest (Some e1) (log (SessionGet c) w).
Proof.
  intros Hs Hlen. simpl. unfold bind at 1.
  by rewrite (pricing_attempt_eq _ _ _ _ Hs), (meaningful_short _ Hlen).
Qed.

(** A candidate with more than 100 characters ends the loop: the rest
    of the list is not looked at. *)
Lemma pricing_probe_stop c rest text w t :
  (scrape_website env c w).1 = Ok t → 100 < String.length t →
  pricing_probe env (c :: rest) text w = (Ok (Some t), log (SessionGet c) w).
Proof.
  intros Hs Hlen. simpl. unfold bind at 1.
  rewrite (pricing_attempt_eq _ _ _ _ Hs).
  by rewrite (proj2 (meaningful_spec t) Hlen).
Qed.

Lemma news_attempt_fails url text w w1 :
  news_candidate_fails env url w w1 →
  ∃ text', news_attempt env url text w = (Ok (text', false), w1).
Proof.
  unfold news_attempt, try_except, bind, call, ret.
  intros [[Hne ->]|(Hget & -> & e1 & Hs & Hlen)].
  - destruct (requests_get env (trace w) url) as [code|e]; [|eauto].
    destruct (code =? 200)%Z eqn:E; [|eauto].
    apply Z.eqb_eq in E as ->. done.
  - rewrite Hget. simpl.
    rewrite (scrape_website_eq _ _ _ _ Hs), (meaningful_short _ Hlen). eauto.
Qed.

Lemma news_probe_skip c rest text w w1 :
  news_candidate_fails env c w w1 →
  ∃ text', news_probe env (c :: rest) text w = news_probe env rest text' w1.
Proof.
  intros H. destruct (news_attempt_fails c text w w1 H) as [text' E].
  exists text'. simpl. unfold bind at 1. by rewrite E.
Qed.

Lemma news_probe_stop c rest text w t :
  requests_get env (trace w) c = Ok 200%Z →
  (scrape_website env c (log (RequestsGet c) w)).1 = Ok t → 100 < String.length t →
  news_probe env (c :: rest) text w
  = (Ok (Some t), log (SessionGet c) (log (RequestsGet c) w)).
Proof.
  intros Hget Hs Hlen. simpl. unfold bind at 1.
  unfold news_attempt, try_except, bind, call, ret. rewrite Hget. simpl.
  rewrite (scrape_website_eq _ _ _ _ Hs).
  by rewrite (proj2 (meaningful_spec t) Hlen).
Qed.

(** The candidate list of a string [home_url]: one [urljoin] per suffix,
    each of which has returned. *)
Lemma candidate_urls_joined u suffixes urls :
  candidate_urls env (PStr u) suffixes = Ok urls
  ↔ Forall2
      (λ suffix url,
         urljoin env (PyStr.rstrip_by (Ascii.eqb "/"%char) u +:+ "/") suffix = Ok url)
      suffixes urls.
Proof.
  revert urls. induction suffixes as [|suffix rest IH]; intros urls; simpl.
  { split; [by intros [= <-]; constructor|by intros ->%Forall2_nil_inv_l]. }
  unfold candidate at 1. simpl.
  destruct (urljoin env _ suffix) as [url|e] eqn:E; simpl.
  - destruct (candidate_urls env (PStr u) rest) as [urls'|e] eqn:E'; simpl.
    + split.
      * intros [= <-]. constructor; [done|]. by apply IH.
      * intros (url' & urls'' & Hj & Hrest & ->)%Forall2_cons_inv_l.
        apply IH in Hrest. congruence.
    + split; [done|].
      intros (url' & urls'' & Hj & Hrest & ->)%Forall2_cons_inv_l.
      by apply IH in Hrest.
  - split; [done|].
    intros (url' & urls'' & Hj & Hrest & ->)%Forall2_cons_inv_l. congruence.
Qed.

(** The stages on a resolved URL: the probe over the stage's candidate
    list, then the extraction. *)
Lemma pricing_node_resolved state u urls w :
  resolved (home_url state) u →
  candidate_urls env (home_url state) pricing_suffixes = Ok urls →
  pricing_node env state w
  = (let* text := pricing_probe env urls None in
     pricing_finish env text (pricing_info state)) w.
Proof.
  intros H Hc. unfold pricing_node. rewrite (resolved_not_unresolved _ _ H).
  unfold bind at 1, lift. by rewrite Hc.
Qed.

Lemma news_node_resolved state u urls w :
  resolved (home_url state) u →
  candidate_urls env (home_url state) news_suffixes = Ok urls →
  news_node env state w
  = (let* text := news_probe env urls None in
     news_finish env text) w.
Proof.
  intros H Hc. unfold news_node. rewrite (resolved_not_unresolved _ _ H).
  unfold bind at 1, lift. by rewrite Hc.
Qed.

End ProbeFacts.

(** C3 (amended). First match wins.  In the Pricing stage, with
    candidate list [c1; c2; c3], when the fetch of candidate 1 yields at
    most 100 characters (as the marker of an error status does) and the
    fetch of candidate 2 yields more than 100 characters, the stage
    continues with candidate 2's text and issues no further request:
    candidate 3 is never fetched.  In the News stage, with candidate list
    [c1; c2; c3; c4], the same holds when candidate 1 fails its status
    check, or passes it and yields at most 100 characters, and candidate 2
    passes the status check and yields more than 100 characters. *)
Theorem probe_first_match env state u w :
  resolved (home_url state) u →
  (∀ c1 c2 c3 e1 t2,
     candidate_urls env (home_url state) pricing_suffixes = Ok [c1; c2; c3] →
     (scrape_website env c1 w).1 = Ok e1 → String.length e1 ≤ 100 →
     (scrape_website env c2 (log (SessionGet c1) w)).1 = Ok t2 →
     100 < String.length t2 →
     pricing_node env state w
     = pricing_finish env (Some t2) (pricing_info state)
         (log (SessionGet c2) (log (SessionGet c1) w))
     ∧ ∃ evs, trace (pricing_node env state w).2
              = trace w ++ [SessionGet c1; SessionGet c2] ++ evs
              ∧ Forall not_fetch evs)
  ∧ (∀ c1 c2 c3 c4 w1 t2,
       candidate_urls env (home_url state) news_suffixes = Ok [c1; c2; c3; c4] →
       news_candidate_fails env c1 w w1 →
       requests_get env (trace w1) c2 = Ok 200%Z →
       (scrape_website env c2 (log (RequestsGet c2) w1)).1 = Ok t2 →
       100 < String.length t2 →
       news_node env state w
       = news_finish env (Some t2) (log (SessionGet c2) (log (RequestsGet c2) w1))
       ∧ ∃ evs, trace (news_node env state w).2
                = trace w1 ++ [RequestsGet c2; SessionGet c2] ++ evs
                ∧ Forall not_fetch evs).
Proof.
  intros Hres. split.
  - intros c1 c2 c3 e1 t2 Hc H1 Hlen1 H2 Hlen2.
    assert (pricing_node env state w
            = pricing_finish env (Some t2) (pricing_info state)
                (log (SessionGet c2) (log (SessionGet c1) w))) as E.
    { rewrite (pricing_node_resolved _ _ _ _ _ Hres Hc). unfold bind at 1.
      rewrite (pricing_probe_skip _ _ _ _ _ _ H1 Hlen1).
      by rewrite (pricing_probe_stop _ _ _ _ _ _ H2 Hlen2). }
    split; [done|]. rewrite E.
    destruct (pricing_finish_no_fetch env (Some t2) (pricing_info state)
                (log (SessionGet c2) (log (SessionGet c1) w))) as (evs & -> & Hevs).
    exists evs. split; [|done]. simpl. by rewrite <- !app_assoc.
  - intros c1 c2 c3 c4 w1 t2 Hc H1 Hget H2 Hlen2.
    assert (news_node env state w
            = news_finish env (Some t2)
                (log (SessionGet c2) (log (RequestsGet c2) w1))) as E.
    { rewrite (news_node_resolved _ _ _ _ _ Hres Hc). unfold bind at 1.
      destruct (news_probe_skip env c1 [c2; c3; c4] None w w1 H1) as [text' ->].
      by rewrite (news_probe_stop _ _ _ _ _ _ Hget H2 Hlen2). }
    split; [done|]. rewrite E.
    destruct (news_finish_no_fetch env (Some t2)
                (log (SessionGet c2) (log (RequestsGet c2) w1))) as (evs & -> & Hevs).
    exists evs. split; [|done]. simpl. by rewrite <- !app_assoc.
Qed.

Lemma probe_first_match_witness :
  (∃ evs, trace (pricing_node Demo.second_only Demo.acme Demo.start).2
          = [] ++ [SessionGet "https://acme.test/pricing";
                   SessionGet "https://acme.test/plans"] ++ evs
          ∧ Forall not_fetch evs)
  ∧ (∃ evs, trace (news_node Demo.second_only Demo.acme Demo.start).2
            = [RequestsGet "https://acme.test/blog"]
              ++ [RequestsGet "https://acme.test/news";
                  SessionGet "https://acme.test/news"] ++ evs
            ∧ Forall not_fetch evs).
Proof.
  destruct (probe_first_match Demo.second_only Demo.acme "https://acme.test" Demo.start)
    as [Hp Hn].
  { repeat split; done. }
  split.
  - apply (Hp "https://acme.test/pricing" "https://acme.test/plans"
             "https://acme.test/price" "Error: Status code 404" (Demo.filler 300)).
    + reflexivity.
    + vm_compute; reflexivity.
    + vm_compute; lia.
    + vm_compute; reflexivity.
    + apply Nat.ltb_lt. vm_compute; reflexivity.
  - apply (Hn "https://acme.test/blog" "https://acme.test/news"
             "https://acme.test/press" "https://acme.test/updates"
             (log (RequestsGet "https://acme.test/blog") Demo.start) (Demo.filler 300)).
    + reflexivity.
    + left. split; [|reflexivity]. vm_compute. discriminate.
    + vm_compute; reflexivity.
    + vm_compute; reflexivity.
    + apply Nat.ltb_lt. vm_compute; reflexivity.
Defined.

(** C3 as stated fails in two ways.  When the request for candidate 1
    times out, the error marker is longer than 100 characters, the stage
    takes it as content and never fetches candidate 2.  When candidate 1
    answers 404 and candidate 2 yields exactly 100 characters, the stage
    goes on to fetch candidate 3. *)
Lemma probe_not_first_match :
  (∃ e1 t2,
     (scrape_website Demo.pricing_times_out "https://acme.test/pricing" Demo.start).1
       = Ok e1
     ∧ PyStr.startswith "Error" e1 = true
     ∧ (scrape_website Demo.pricing_times_out "https://acme.test/plans"
          (log (SessionGet "https://acme.test/pricing") Demo.start)).1 = Ok t2
     ∧ 100 ≤ String.length t2
     ∧ trace (pricing_node Demo.pricing_times_out Demo.acme Demo.start).2
       = [SessionGet "https://acme.test/pricing"; EmbeddingsLoad "all-MiniLM-L6-v2"])
  ∧ (∃ e1 t2,
       (scrape_website Demo.plans_hundred "https://acme.test/pricing" Demo.start).1
         = Ok e1
       ∧ PyStr.startswith "Error" e1 = true
       ∧ (scrape_website Demo.plans_hundred "https://acme.test/plans"
            (log (SessionGet "https://acme.test/pricing") Demo.start)).1 = Ok t2
       ∧ 100 ≤ String.length t2
       ∧ take 3 (trace (pricing_node Demo.plans_hundred Demo.acme Demo.start).2)
         = [SessionGet "https://acme.test/pricing";
            SessionGet "https://acme.test/plans";
            SessionGet "https://acme.test/price"]).
Proof.
  split; eexists _, _.
  - split; [vm_compute; reflexivity|]. split; [vm_compute; reflexivity|].
    split; [vm_compute; reflexivity|]. split; [|vm_compute; reflexivity].
    apply Nat.leb_le. vm_compute; reflexivity.
  - split; [vm_compute; reflexivity|]. split; [vm_compute; reflexivity|].
    split; [vm_compute; reflexivity|]. split; [|vm_compute; reflexivity].
    apply Nat.leb_le. vm_compute; reflexivity.
Qed.

(** ** A long error marker taken as content *)

(** C10. On a resolved [home_url], when the fetch of the first pricing
    candidate returns a string that begins with "Error" and is longer than
    100 characters, the probe accepts it (its only test is the length) and
    stops, so that the only request of the stage is the one for candidate
    1; retrieval answers (None, None) on that text, and the stage returns
    [pricing_info] unchanged, whatever the later candidates would have
    answered. *)
Theorem long_error_accepted env state u w c1 c2 c3 e1 :
  resolved (home_url state) u →
  candidate_urls env (home_url state) pricing_suffixes = Ok [c1; c2; c3] →
  let w1 := log (SessionGet c1) w in
  let w2 := log (EmbeddingsLoad "all-MiniLM-L6-v2") w1 in
  (scrape_website env c1 w).1 = Ok e1 →
  PyStr.startswith "Error" e1 = true →
  100 < String.length e1 →
  pricing_probe env [c1; c2; c3] None w = (Ok (Some e1), w1)
  ∧ (∀ emb, embeddings_load env (trace w1) "all-MiniLM-L6-v2" = Ok emb →
            retriever_text env e1 w1 = (Ok (None, None), w2))
  ∧ pricing_node env state w = (Ok (only_pricing_info (pricing_info state)), w2)
  ∧ trace w2 = trace w ++ [SessionGet c1; EmbeddingsLoad "all-MiniLM-L6-v2"].
Proof.
  intros Hres Hc w1 w2 Hs Herr Hlen.
  assert (pricing_probe env [c1; c2; c3] None w = (Ok (Some e1), w1)) as Hprobe.
  { by rewrite (pricing_probe_stop _ _ _ _ _ _ Hs Hlen). }
  assert (PyStr.is_empty e1 = false) as Hne by (by destruct e1).
  split; [done|]. split; [|split].
  - intros emb Hemb. unfold retriever_text, bind, call, ret.
    by rewrite Hemb, Herr, orb_true_r.
  - rewrite (pricing_node_resolved _ _ _ _ _ Hres Hc). unfold bind at 1.
    rewrite Hprobe. unfold pricing_finish. rewrite Hne.
    unfold bind, try_except, ret, pricing_extract, retriever_text, bind, call, ret.
    rewrite Herr, orb_true_r.
    by destruct (embeddings_load env (trace w1) "all-MiniLM-L6-v2").
  - simpl. by rewrite <- app_assoc.
Qed.

Lemma long_error_accepted_witness :
  pricing_node Demo.pricing_times_out Demo.acme Demo.start
  = (Ok (only_pricing_info (pricing_info Demo.acme)),
     log (EmbeddingsLoad "all-MiniLM-L6-v2")
       (log (SessionGet "https://acme.test/pricing") Demo.start)).
Proof.
  refine (proj1 (proj2 (proj2
    (long_error_accepted Demo.pricing_times_out Demo.acme "https://acme.test"
       Demo.start "https://acme.test/pricing" "https://acme.test/plans"
       "https://acme.test/price"
       ("Error: Could not scrape https://acme.test/pricing. Reason: "
        +:+ exn_str Demo.unreachable) _ _ _ _ _)))).
  - repeat split; done.
  - reflexivity.
  - vm_compute; reflexivity.
  - vm_compute; reflexivity.
  - apply Nat.ltb_lt. vm_compute; reflexivity.
Defined.

(** ** The Pricing extraction *)

(** C5. On a resolved [home_url], once the probe over the stage's
    candidates has left a non-empty text: when retrieval answers
    (None, None), and when the LLM answer fails to parse as JSON, the
    stage returns [pricing_info] as it was and the state is unchanged;
    when the answer parses, the stage returns [pricing_info] with exactly
    one record appended at its end, the parsed answer: the new state's
    [pricing_info] is the old list followed by that record, and every
    other field is as it was. *)
Theorem pricing_extraction env state u urls w text w1 :
  resolved (home_url state) u →
  candidate_urls env (home_url state) pricing_suffixes = Ok urls →
  pricing_probe env urls None w = (Ok (Some text), w1) →
  PyStr.is_empty text = false →
  (∀ w2, retriever_text env text w1 = (Ok (None, None), w2) →
         ∃ returned,
           pricing_node env state w = (Ok returned, w2)
           ∧ upd_pricing_info returned = Some (pricing_info state)
           ∧ run_node (pricing_node env) state w = (Ok state, w2))
  ∧ (∀ chunks emb w2 price_chunks w3 res,
       let prompt := pricing_prompt env (combine_chunks price_chunks) in
       retriever_text env text w1 = (Ok (Some chunks, Some emb), w2) →
       get_price_chunks env chunks emb default_query 3 w2 = (Ok price_chunks, w3) →
       model_invoke env (trace w3) prompt = Ok res →
       (∀ e, json_loads env (clean_response res) = Raise e →
             ∃ returned,
               pricing_node env state w = (Ok returned, log (ModelInvoke prompt) w3)
               ∧ upd_pricing_info returned = Some (pricing_info state)
               ∧ run_node (pricing_node env) state w
                 = (Ok state, log (ModelInvoke prompt) w3))
       ∧ (∀ record, json_loads env (clean_response res) = Ok record →
            ∃ returned state',
              pricing_node env state w = (Ok returned, log (ModelInvoke prompt) w3)
              ∧ upd_pricing_info returned = Some (pricing_info state ++ [record])
              ∧ run_node (pricing_node env) state w
                = (Ok state', log (ModelInvoke prompt) w3)
              ∧ pricing_info state' = pricing_info state ++ [record]
              ∧ length (pricing_info state') = S (length (pricing_info state))
              ∧ messages state' = messages state
              ∧ company_name state' = company_name state
              ∧ home_url state' = home_url state
              ∧ description state' = description state
              ∧ competitors state' = competitors state
              ∧ news_headlines state' = news_headlines state
              ∧ loop_count state' = loop_count state
              ∧ final_report state' = final_report state)).
Proof.
  intros Hres Hc Hprobe Hne.
  assert (∀ pi' w',
            (try_except (pricing_extract env text (pricing_info state))
               (λ _, ret (pricing_info state))) w1 = (Ok pi', w') →
            pricing_node env state w = (Ok (only_pricing_info pi'), w')) as Hnode.
  { intros pi' w' E.
    rewrite (pricing_node_resolved _ _ _ _ _ Hres Hc). unfold bind at 1.
    rewrite Hprobe. unfold pricing_finish. rewrite Hne.
    unfold bind at 1. by rewrite E. }
  assert (apply_update state (only_pricing_info (pricing_info state)) = state) as Hsame
    by (by destruct state).
  assert (∀ w', pricing_node env state w
                = (Ok (only_pricing_info (pricing_info state)), w') →
                ∃ returned,
                  pricing_node env state w = (Ok returned, w')
                  ∧ upd_pricing_info returned = Some (pricing_info state)
                  ∧ run_node (pricing_node env) state w = (Ok state, w')) as Hkeep.
  { intros w' E. eexists. split; [exact E|]. split; [done|].
    by rewrite (run_node_eq _ _ _ _ _ E), Hsame. }
  split.
  - intros w2 Hretr. apply Hkeep, Hnode.
    unfold try_except, pricing_extract. unfold bind at 1. by rewrite Hretr.
  - intros chunks emb w2 price_chunks w3 res prompt Hretr Hchunks Hllm.
    split.
    + intros e Hjson. apply Hkeep, Hnode.
      unfold try_except, pricing_extract. unfold bind at 1. rewrite Hretr.
      unfold bind at 1. rewrite Hchunks.
      unfold bind, call, lift, ret. fold prompt. by rewrite Hllm, Hjson.
    + intros record Hjson.
      assert (pricing_node env state w
              = (Ok (only_pricing_info (pricing_info state ++ [record])),
                 log (ModelInvoke prompt) w3)) as E.
      { apply Hnode.
        unfold try_except, pricing_extract. unfold bind at 1. rewrite Hretr.
        unfold bind at 1. rewrite Hchunks.
        unfold bind, call, lift, ret. fold prompt. by rewrite Hllm, Hjson. }
      eexists _, _. split; [exact E|]. split; [reflexivity|].
      split; [exact (run_node_eq _ _ _ _ _ E)|]. simpl.
      split; [reflexivity|]. split; [by rewrite length_app, Nat.add_1_r|].
      repeat split.
Qed.

Lemma pricing_extraction_witness :
  (run_node (pricing_node Demo.pricing_times_out) Demo.acme Demo.start).1 = Ok Demo.acme
  ∧ (run_node (pricing_node Demo.chatty) Demo.acme Demo.start).1 = Ok Demo.acme
  ∧ ∃ state',
      (run_node (pricing_node Demo.happy) Demo.acme Demo.start).1 = Ok state'
      ∧ pricing_info state' = pricing_info Demo.acme ++ [Demo.acme_answer].
Proof.
  assert (resolved (home_url Demo.acme) "https://acme.test") as Hres
    by (repeat split; done).
  split; [|split].
  - edestruct (pricing_extraction Demo.pricing_times_out Demo.acme "https://acme.test"
                 ["https://acme.test/pricing"; "https://acme.test/plans";
                  "https://acme.test/price"] Demo.start) as [Hnone _];
      [exact Hres|reflexivity|vm_compute; reflexivity|vm_compute; reflexivity|].
    edestruct Hnone as (returned & _ & _ & Hrun); [vm_compute; reflexivity|].
    rewrite Hrun. reflexivity.
  - edestruct (pricing_extraction Demo.chatty Demo.acme "https://acme.test"
                 ["https://acme.test/pricing"; "https://acme.test/plans";
                  "https://acme.test/price"] Demo.start) as [_ Hsome];
      [exact Hres|reflexivity|vm_compute; reflexivity|vm_compute; reflexivity|].
    edestruct Hsome as [Hbad _];
      [vm_compute; reflexivity|vm_compute; reflexivity|vm_compute; reflexivity|].
    edestruct Hbad as (returned & _ & _ & Hrun); [vm_compute; reflexivity|].
    rewrite Hrun. reflexivity.
  - edestruct (pricing_extraction Demo.happy Demo.acme "https://acme.test"
                 ["https://acme.test/pricing"; "https://acme.test/plans";
                  "https://acme.test/price"] Demo.start) as [_ Hsome];
      [exact Hres|reflexivity|vm_compute; reflexivity|vm_compute; reflexivity|].
    edestruct Hsome as [_ Hgood];
      [vm_compute; reflexivity|vm_compute; reflexivity|vm_compute; reflexivity|].
    edestruct (Hgood Demo.acme_answer) as (returned & state' & _ & _ & Hrun & Hpi & _);
      [vm_compute; reflexivity|].
    exists state'. rewrite Hrun. split; [reflexivity|exact Hpi].
Defined.

(** ** The Research stage *)

Lemma research_extract_fails env query w :
  research_fails env query w ↔ ∃ e, (research_extract env query w).1 = Raise e.
Proof.
  unfold research_fails, research_extract, bind, call, lift, ret. simpl.
  destruct (search_tool_invoke env (trace w) _) as [results|e];
    [|split; [eauto|done]].
  destruct (model_invoke env _ _) as [content|e]; [|split; [eauto|done]].
  destruct (json_loads env _) as [[]|e]; simpl;
    (split; [intros H; try done; eauto|intros [e' He']; done]).
Qed.

(** C7. The Research stage never raises and always returns
    [loop_count + 1].  When anything raises inside its [try] (the search,
    the LLM call, the JSON decoding of the answer, or the reading of an
    answer that is not an object), it returns "Not found", "Not available"
    and the empty list. *)
Theorem research_never_raises env state w :
  ∃ u w',
    research_node env state w = (Ok u, w')
    ∧ upd_loop_count u = Some (loop_count state + 1)%Z
    ∧ loop_count (apply_update state u) = (loop_count state + 1)%Z
    ∧ (research_fails env (company_name state) w →
       home_url (apply_update state u) = PStr "Not found"
       ∧ description (apply_update state u) = PStr "Not available"
       ∧ competitors (apply_update state u) = PList []).
Proof.
  unfold research_node, bind, try_except, ret, research_defaults.
  destruct (research_extract env (company_name state) w) as [[[[a b] c]|e] w1] eqn:E.
  - eexists _, _. split; [done|]. split; [done|]. split; [done|].
    intros [e He]%research_extract_fails. by rewrite E in He.
  - eexists _, _. split; [done|]. split; [done|]. split; [done|]. done.
Qed.

Lemma research_never_raises_witness :
  research_fails Demo.offline "Acme Corp" Demo.start
  ∧ ∃ u,
      (research_node Demo.offline (initial_state "Acme Corp") Demo.start).1 = Ok u
      ∧ upd_home_url u = Some (PStr "Not found")
      ∧ upd_description u = Some (PStr "Not available")
      ∧ upd_competitors u = Some (PList [])
      ∧ upd_loop_count u = Some 1%Z.
Proof.
  assert (research_fails Demo.offline "Acme Corp" Demo.start) as Hf by exact I.
  split; [exact Hf|].
  destruct (research_never_raises Demo.offline (initial_state "Acme Corp") Demo.start)
    as (u & w' & Hrun & Hcount & _ & Hdef).
  destruct (Hdef Hf) as (Hh & Hd & Hc).
  exists u. rewrite Hrun. split; [reflexivity|].
  destruct (research_node_returns Demo.offline (initial_state "Acme Corp") Demo.start)
    as (a & b & c & w0 & E).
  rewrite E in Hrun. injection Hrun as <- <-. simpl in *.
  by rewrite Hh, Hd, Hc.
Defined.

(** ** The Writer stage *)

Section WriterFacts.

Variable env : Env.

Lemma is_ok_rbind {A B} (r : result A) (k : A → result B) :
  is_ok (rbind r k) = match r with Ok a => is_ok (k a) | Raise _ => false end.
Proof. by destruct r. Qed.

Lemma is_ok_all_str l : is_ok (Py.all_str l) = forallb is_str l.
Proof.
  induction l as [|v l IH]; [done|].
  destruct v; simpl; try done. rewrite is_ok_rbind.
  by destruct (Py.all_str l).
Qed.

Lemma forallb_is_str_chars s : forallb is_str (PStr <$> PyStr.chars s) = true.
Proof. induction s; simpl; auto. Qed.

Lemma forallb_is_str_keys (d : list (string * pyval)) :
  forallb is_str ((λ kv, PStr kv.1) <$> d) = true.
Proof. induction d; simpl; auto. Qed.

Lemma is_ok_format_competitors v : is_ok (format_competitors v) = joinable v.
Proof.
  unfold format_competitors, joinable, Py.join.
  destruct (Py.truthy v) eqn:Ht; [|done]. simpl.
  destruct v; simpl; try done; rewrite is_ok_rbind.
  - pose proof (is_ok_all_str (PStr <$> PyStr.chars s)) as H.
    rewrite forallb_is_str_chars in H. by destruct (Py.all_str _).
  - pose proof (is_ok_all_str items) as H. by destruct (Py.all_str _).
  - pose proof (is_ok_all_str ((λ kv, PStr kv.1) <$> entries)) as H.
    rewrite forallb_is_str_keys in H. by destruct (Py.all_str _).
Qed.

Lemma is_ok_format_starter d :
  is_ok (format_starter env (PDict d)) = record_formattable (PDict d).
Proof.
  unfold format_starter, record_formattable. simpl.
  destruct (Py.lookup "starter_plan" d) as [sp|]; simpl; [|done].
  destruct (Py.truthy sp) eqn:Ht; [|done]. simpl.
  destruct sp; simpl; try done.
  destruct (Py.truthy (default PNone (Py.lookup "name" entries))); [|done].
  by destruct (Py.truthy (default PNone (Py.lookup "price" entries))).
Qed.

Lemma is_ok_format_pricing pi :
  is_ok (format_pricing env pi)
  = match pi with [] => true | pricing_data :: _ => record_formattable pricing_data end.
Proof.
  destruct pi as [|v pi]; [done|].
  destruct v; try done.
  pose proof (is_ok_format_starter entries) as H.
  unfold format_pricing. simpl. unfold rbind at 1.
  by destruct (format_starter env (PDict entries)).
Qed.

Lemma is_ok_headline_lines i l :
  is_ok (headline_lines env i l) = forallb is_dict l.
Proof.
  revert i. induction l as [|v l IH]; intros i; [done|].
  destruct v; simpl; try done. rewrite is_ok_rbind.
  specialize (IH (S i)). by destruct (headline_lines env (S i) l).
Qed.

Lemma is_ok_format_news v : is_ok (format_news env v) = headlines_formattable v.
Proof.
  unfold format_news, headlines_formattable.
  destruct (Py.truthy v) eqn:Ht; [|done]. simpl.
  destruct v; simpl in *; try done.
  - destruct s as [|c s]; [done|]. done.
  - destruct items as [|v items]; [done|].
    change (0 <? length (v :: items)) with true. cbv iota.
    rewrite is_ok_rbind.
    pose proof (is_ok_headline_lines 0 (v :: items)) as H.
    by destruct (headline_lines env 0 (v :: items)).
  - destruct entries as [|kv entries]; [done|]. done.
Qed.

(** The formatting in front of the [try] succeeds exactly on the
    formattable states. *)
Lemma is_ok_writer_format state : is_ok (writer_format env state) = formattable state.
Proof.
  unfold writer_format, formattable.
  rewrite <- is_ok_format_competitors, <- is_ok_format_news.
  rewrite <- (is_ok_format_pricing (pricing_info state)).
  destruct (format_competitors _); [|done].
  destruct (format_pricing _ _); [|done].
  by destruct (format_news _ _).
Qed.

Lemma error_message_banner e :
  error_message e ≠ "" ∧ PyStr.startswith error_banner (error_message e) = true.
Proof. done. Qed.

(** [writer_generate] succeeds only after both files are written. *)
Lemma writer_generate_ok state prompt w battle_card w' :
  writer_generate env state prompt w = (Ok battle_card, w') →
  model_writer_invoke env (trace w) prompt = Ok battle_card
  ∧ files w'
    = <[json_filename (company_name state) := json_dumps env (raw_data state)]>
        (<[report_filename (company_name state) := battle_card]> (files w)).
Proof.
  unfold writer_generate, bind, call, write_file, ret. simpl.
  destruct (model_writer_invoke env (trace w) prompt) as [card|e]; [|done].
  destruct (file_write env _ (report_filename _) card); try done. simpl.
  destruct (file_write env _ (json_filename _) _); try done. simpl.
  by intros [= <- <-].
Qed.

End WriterFacts.

(** C6 (amended). On every state whose fields the Writer can format, the
    stage does not raise.  An exception raised while the report is
    generated or saved is caught: the stage returns normally with a
    [final_report] that begins with the error banner and holds the
    exception's message, which is not empty.  When nothing is raised the
    [final_report] is the LLM's answer as it came. *)
Theorem writer_contains_errors env state w :
  formattable state = true →
  ∃ prompt report w',
    writer_format env state = Ok prompt
    ∧ writer_node env state w = (Ok (report_update state report), w')
    ∧ final_report (apply_update state (report_update state report)) = report
    ∧ match writer_generate env state prompt w with
      | (Ok battle_card, w1) => report = battle_card ∧ w' = w1
      | (Raise e, w1) =>
          report = error_message e ∧ w' = w1
          ∧ report ≠ "" ∧ PyStr.startswith error_banner report = true
      end.
Proof.
  intros Hf. rewrite <- is_ok_writer_format with (env := env) in Hf.
  unfold writer_node, bind, lift, try_except, ret.
  destruct (writer_format env state) as [prompt|e]; [|done].
  exists prompt.
  destruct (writer_generate env state prompt w) as [[card|e] w1].
  - by exists card, w1.
  - exists (error_message e), w1. done.
Qed.

Lemma writer_contains_errors_witness :
  ∃ report,
    (writer_node Demo.offline Demo.acme Demo.start).1
      = Ok (report_update Demo.acme report)
    ∧ report = error_message Demo.unreachable.
Proof.
  destruct (writer_contains_errors Demo.offline Demo.acme Demo.start)
    as (prompt & report & w' & Hfmt & Hrun & _ & Hgen).
  - vm_compute; reflexivity.
  - exists report. rewrite Hrun. split; [reflexivity|].
    injection Hfmt as <-.
    exact (proj1 Hgen).
Defined.

(** C6 as stated fails: on a state whose headlines are bare strings the
    formatting in front of the [try] raises, and the exception leaves the
    stage. *)
Lemma writer_raises :
  ∃ msg w',
    writer_node Demo.happy Demo.bare_headlines Demo.start = (Raise (AttributeError msg), w')
    ∧ trace w' = [].
Proof. eexists _, _. split; [vm_compute; reflexivity|]. reflexivity. Qed.

(** And a successful run may end with an empty report. *)
Lemma writer_report_may_be_empty :
  (writer_node Demo.silent_writer Demo.acme Demo.start).1
  = Ok (report_update Demo.acme "").
Proof. vm_compute; reflexivity. Qed.

(** ** The JSON codec reads back what it writes *)

Section JsonStrings.

Local Arguments Ascii.eqb : simpl never.

Lemma append_empty_r s : s +:+ "" = s.
Proof. induction s as [|c s IH]; [done|]. by rewrite append_cons, IH. Qed.

Lemma length_append s t :
  String.length (s +:+ t) = String.length s + String.length t.
Proof. induction s as [|c s IH]; [done|]. rewrite append_cons. simpl. by rewrite IH. Qed.

Lemma skip_ws_head c s : Json.is_ws c = false → Json.skip_ws (String c s) = String c s.
Proof. intros H. unfold Json.skip_ws. simpl. by rewrite H. Qed.

Lemma skip_ws_spaces n s : Json.skip_ws (Json.spaces n +:+ s) = Json.skip_ws s.
Proof. induction n as [|n IH]; [done|]. simpl. by rewrite append_cons. Qed.

Lemma skip_ws_nl s : Json.skip_ws (NL +:+ s) = Json.skip_ws s.
Proof. reflexivity. Qed.

Lemma parse_string_escape_char c rest :
  Json.parse_string (Json.escape_char c +:+ rest)
  = let? (t, r) := Json.parse_string rest in Ok (String c t, r).
Proof. destruct c as [[] [] [] [] [] [] [] []]; reflexivity. Qed.

(** A quoted text is read back, up to its closing quote. *)
Lemma parse_string_escape s rest :
  Json.parse_string (Json.escape s +:+ String Json.dq rest) = Ok (s, rest).
Proof.
  induction s as [|c s IH]; [done|].
  simpl Json.escape. rewrite append_assoc, parse_string_escape_char.
  by rewrite IH.
Qed.

End JsonStrings.

Section JsonNumbers.

Local Arguments Ascii.eqb : simpl never.
Local Arguments Json.is_digit : simpl never.

Lemma digits_split s : s = (Json.digits s).1 +:+ (Json.digits s).2.
Proof.
  induction s as [|c s IH]; [done|]. simpl.
  destruct (Json.is_digit c); [|done].
  destruct (Json.digits s) as [ds r]. simpl in *. by rewrite append_cons, <- IH.
Qed.

Lemma digits_app a rest :
  head_is Json.is_digit rest = false →
  Json.digits (a +:+ rest) = ((Json.digits a).1, (Json.digits a).2 +:+ rest).
Proof.
  intros Hrest. induction a as [|c a IH].
  - rewrite append_empty_l. destruct rest as [|c rest]; [done|].
    simpl in *. by rewrite Hrest.
  - rewrite append_cons. simpl. destruct (Json.is_digit c); [|done].
    rewrite IH. by destruct (Json.digits a).
Qed.

Lemma number_char_digit rest :
  head_is number_char rest = false → head_is Json.is_digit rest = false.
Proof.
  destruct rest as [|c rest]; [done|]. unfold number_char. simpl.
  by destruct (Json.is_digit c).
Qed.

Lemma is_digit_zero c : Ascii.eqb c "0" = true → Json.is_digit c = true.
Proof. by intros ->%Ascii.eqb_eq. Qed.

Lemma lex_natural_app a rest :
  head_is Json.is_digit rest = false →
  Json.lex_natural (a +:+ rest)
  = prod_map id (λ r, r +:+ rest) <$> Json.lex_natural a.
Proof.
  intros Hrest. destruct a as [|c a].
  - rewrite append_empty_l. destruct rest as [|c rest]; [done|].
    simpl in *. rewrite Hrest.
    destruct (Ascii.eqb c "0") eqn:E; [|done].
    apply is_digit_zero in E. congruence.
  - rewrite append_cons. simpl.
    destruct (Ascii.eqb c "0"); [done|].
    destruct (Json.is_digit c); [|done].
    rewrite (digits_app _ _ Hrest). by destruct (Json.digits a).
Qed.

Lemma lex_integer_app a rest :
  head_is number_char rest = false →
  Json.lex_integer (a +:+ rest)
  = prod_map id (λ r, r +:+ rest) <$> Json.lex_integer a.
Proof.
  intros Hrest. pose proof (number_char_digit _ Hrest) as Hd.
  destruct a as [|c a].
  - rewrite append_empty_l. destruct rest as [|c rest]; [done|].
    unfold Json.lex_integer.
    assert (Ascii.eqb c "-" = false) as ->.
    { revert Hrest. unfold number_char. simpl. destruct (Ascii.eqb c "-"); [|done].
      by rewrite !orb_true_r. }
    by rewrite <- (append_empty_l (String c rest)), (lex_natural_app "" _ Hd).
  - rewrite append_cons. unfold Json.lex_integer.
    destruct (Ascii.eqb c "-").
    + rewrite (lex_natural_app _ _ Hd).
      by destruct (Json.lex_natural a) as [[i r]|].
    + by rewrite <- append_cons, (lex_natural_app _ _ Hd).
Qed.

Lemma lex_frac_app a rest :
  head_is number_char rest = false →
  Json.lex_frac (a +:+ rest) = prod_map id (λ r, r +:+ rest) (Json.lex_frac a).
Proof.
  intros Hrest. pose proof (number_char_digit _ Hrest) as Hd.
  destruct a as [|c a].
  - rewrite append_empty_l. destruct rest as [|c rest]; [done|].
    unfold Json.lex_frac.
    assert (Ascii.eqb c "." = false) as ->; [|done].
    revert Hrest. unfold number_char. simpl. destruct (Ascii.eqb c "."); [|done].
    by rewrite !orb_true_r.
  - rewrite append_cons. unfold Json.lex_frac.
    destruct (Ascii.eqb c "."); [|done].
    rewrite (digits_app _ _ Hd). by destruct (Json.digits a) as [[|d ds] r].
Qed.

Lemma lex_sign_app a rest :
  head_is number_char rest = false →
  Json.lex_sign (a +:+ rest) = prod_map id (λ r, r +:+ rest) (Json.lex_sign a).
Proof.
  intros Hrest. destruct a as [|c a].
  - rewrite append_empty_l. destruct rest as [|c rest]; [done|].
    unfold Json.lex_sign.
    assert (Ascii.eqb c "+" || Ascii.eqb c "-" = false) as ->; [|done].
    revert Hrest. unfold number_char. simpl.
    destruct (Ascii.eqb c "+"), (Ascii.eqb c "-"); by rewrite ?orb_true_r.
  - rewrite append_cons. unfold Json.lex_sign.
    by destruct (_ || _).
Qed.

Lemma lex_exp_app a rest :
  head_is number_char rest = false →
  Json.lex_exp (a +:+ rest) = prod_map id (λ r, r +:+ rest) (Json.lex_exp a).
Proof.
  intros Hrest. pose proof (number_char_digit _ Hrest) as Hd.
  destruct a as [|c a].
  - rewrite append_empty_l. destruct rest as [|c rest]; [done|].
    unfold Json.lex_exp.
    assert (Ascii.eqb c "e" || Ascii.eqb c "E" = false) as ->; [|done].
    revert Hrest. unfold number_char. simpl.
    destruct (Ascii.eqb c "e"), (Ascii.eqb c "E"); by rewrite ?orb_true_r.
  - rewrite append_cons. unfold Json.lex_exp.
    destruct (_ || _); [|done].
    rewrite (lex_sign_app _ _ Hrest).
    destruct (Json.lex_sign a) as [sign r1]. simpl.
    rewrite (digits_app _ _ Hd). by destruct (Json.digits r1) as [[|d ds] r].
Qed.

(** A number is read the same way in front of anything that cannot
    continue it. *)
Lemma lex_number_app a rest :
  head_is number_char rest = false →
  Json.lex_number (a +:+ rest)
  = (λ '(i, f, e, r), (i, f, e, r +:+ rest)) <$> Json.lex_number a.
Proof.
  intros Hrest. unfold Json.lex_number. rewrite (lex_integer_app _ _ Hrest).
  destruct (Json.lex_integer a) as [[i r1]|]; [|done]. simpl.
  rewrite (lex_frac_app _ _ Hrest). destruct (Json.lex_frac r1) as [f r2]. simpl.
  rewrite (lex_exp_app _ _ Hrest). by destruct (Json.lex_exp r2) as [e r3].
Qed.

Lemma lex_natural_split s i r : Json.lex_natural s = Some (i, r) → s = i +:+ r.
Proof.
  destruct s as [|c s]; [done|]. simpl.
  destruct (Ascii.eqb c "0") eqn:E.
  { apply Ascii.eqb_eq in E as ->. by intros [= <- <-]. }
  destruct (Json.is_digit c); [|done].
  pose proof (digits_split s) as Hs. destruct (Json.digits s) as [ds r'].
  intros [= <- <-]. simpl in Hs. by rewrite append_cons, <- Hs.
Qed.

Lemma lex_integer_split s i r : Json.lex_integer s = Some (i, r) → s = i +:+ r.
Proof.
  destruct s as [|c s]; [done|]. unfold Json.lex_integer.
  destruct (Ascii.eqb c "-"); [|apply lex_natural_split].
  destruct (Json.lex_natural s) as [[i' r']|] eqn:E; [|done].
  intros [= <- <-]. by rewrite append_cons, <- (lex_natural_split _ _ _ E).
Qed.

Lemma lex_frac_split s : s = (Json.lex_frac s).1 +:+ (Json.lex_frac s).2.
Proof.
  destruct s as [|c s]; [done|]. unfold Json.lex_frac.
  destruct (Ascii.eqb c "."); [|done].
  pose proof (digits_split s) as Hs.
  destruct (Json.digits s) as [[|d ds] r]; [done|]. simpl in *.
  by rewrite append_cons, <- Hs.
Qed.

Lemma lex_exp_split s : s = (Json.lex_exp s).1 +:+ (Json.lex_exp s).2.
Proof.
  destruct s as [|c s]; [done|]. unfold Json.lex_exp.
  destruct (_ || _); [|done].
  assert (s = (Json.lex_sign s).1 +:+ (Json.lex_sign s).2) as Hsign.
  { destruct s as [|d s]; [done|]. unfold Json.lex_sign. by destruct (_ || _). }
  destruct (Json.lex_sign s) as [sign r1]. simpl in Hsign.
  pose proof (digits_split r1) as Hs.
  destruct (Json.digits r1) as [[|d ds] r]; [done|]. simpl in *.
  by rewrite append_cons, append_assoc, <- Hs, <- Hsign.
Qed.

Lemma lex_number_split s i f e r :
  Json.lex_number s = Some (i, f, e, r) → s = i +:+ f +:+ e +:+ r.
Proof.
  unfold Json.lex_number.
  destruct (Json.lex_integer s) as [[i' r1]|] eqn:Hi; [|done].
  pose proof (lex_frac_split r1) as Hf. destruct (Json.lex_frac r1) as [f' r2].
  pose proof (lex_exp_split r2) as He. destruct (Json.lex_exp r2) as [e' r3].
  intros [= <- <- <- <-]. simpl in *.
  by rewrite (lex_integer_split _ _ _ Hi), Hf, He at 1.
Qed.

(** A float literal in front of anything that cannot continue it is read
    as one float. *)
Lemma parse_number_float float_of_literal lit rest :
  Json.float_literal lit = true →
  head_is number_char rest = false →
  Json.parse_number float_of_literal (lit +:+ rest)
  = Some (PFloat (float_of_literal lit), rest).
Proof.
  intros Hlit Hrest. unfold Json.parse_number, Json.float_literal in *.
  rewrite (lex_number_app _ _ Hrest).
  destruct (Json.lex_number lit) as [[[[i f] e] r]|] eqn:E; [|done]. simpl.
  apply andb_true_iff in Hlit as [Hr Hfe]. apply negb_true_iff in Hfe. rewrite Hfe.
  destruct r; [|done]. apply lex_number_split in E.
  rewrite !append_empty_r in E. by rewrite append_empty_l, <- E.
Qed.

Lemma digits_uint d :
  Json.digits (NilEmpty.string_of_uint d) = (NilEmpty.string_of_uint d, "").
Proof. induction d as [|d IH|d IH|d IH|d IH|d IH|d IH|d IH|d IH|d IH|d IH]; [done| ..]; simpl; by rewrite IH. Qed.

Lemma lex_natural_uint d :
  d ≠ Decimal.Nil → Decimal.nzhead d = d →
  Json.lex_natural (NilZero.string_of_uint d) = Some (NilZero.string_of_uint d, "").
Proof.
  intros Hnil Hnz.
  destruct d; [done| | ..];
    try (simpl; by rewrite digits_uint).
  by pose proof (DecimalFacts.nzhead_nonzero (Decimal.D0 d) d).
Qed.

Lemma to_uint_nzhead p : Decimal.nzhead (Pos.to_uint p) = Pos.to_uint p.
Proof.
  pose proof (DecimalPos.Unsigned.to_of (Pos.to_uint p)) as H.
  rewrite DecimalPos.Unsigned.of_to in H. simpl in H.
  pose proof (DecimalPos.Unsigned.to_uint_nonzero p) as Hz.
  unfold Decimal.unorm in H.
  destruct (Decimal.nzhead (Pos.to_uint p)); congruence.
Qed.

Lemma lex_integer_repr n :
  Json.lex_integer (Json.int_repr n) = Some (Json.int_repr n, "").
Proof.
  destruct n as [|p|p]; [done| |]; unfold Json.int_repr; simpl.
  - pose proof (lex_natural_uint (Pos.to_uint p)
                  (DecimalPos.Unsigned.to_uint_nonnil p) (to_uint_nzhead p)) as H.
    unfold Json.lex_integer.
    destruct (NilZero.string_of_uint (Pos.to_uint p)) as [|c s] eqn:E; [done|].
    destruct (Ascii.eqb c "-") eqn:Hc; [|done].
    apply Ascii.eqb_eq in Hc as ->. by simpl in H.
  - unfold Json.lex_integer.
    by rewrite (lex_natural_uint (Pos.to_uint p)
                  (DecimalPos.Unsigned.to_uint_nonnil p) (to_uint_nzhead p)).
Qed.

Lemma int_of_literal_repr n : Json.int_of_literal (Json.int_repr n) = n.
Proof.
  unfold Json.int_of_literal, Json.int_repr.
  rewrite NilZero.isi.
  - apply DecimalZ.of_to.
  - destruct n as [|p|p]; simpl; try done.
    intros [= H]. by apply (DecimalPos.Unsigned.to_uint_nonnil p).
  - destruct n as [|p|p]; simpl; try done.
    intros [= H]. by apply (DecimalPos.Unsigned.to_uint_nonnil p).
Qed.

(** An integer in front of anything that cannot continue a number is
    read back. *)
Lemma parse_number_int float_of_literal n rest :
  head_is number_char rest = false →
  Json.parse_number float_of_literal (Json.int_repr n +:+ rest) = Some (PInt n, rest).
Proof.
  intros Hrest. unfold Json.parse_number.
  rewrite (lex_number_app _ _ Hrest). unfold Json.lex_number.
  rewrite lex_integer_repr. simpl. by rewrite int_of_literal_repr.
Qed.

End JsonNumbers.

Section JsonValues.

Variable float_repr : pyfloat → string.
Variable float_of_literal : string → pyfloat.

Local Arguments Ascii.eqb : simpl never.
Local Arguments Json.is_digit : simpl never.

Lemma parse_items_S fuel s :
  Json.parse_items float_of_literal (S fuel) s
  = let? (v, r) := Json.parse_value float_of_literal fuel s in
    match Json.skip_ws r with
    | "" => Json.decode_error "Expecting ',' delimiter"
    | String c r' =>
        if Ascii.eqb c "]" then Ok ([v], r')
        else if Ascii.eqb c "," then
          let? (vs, r'') := Json.parse_items float_of_literal fuel (Json.skip_ws r') in
          Ok (v :: vs, r'')
        else Json.decode_error "Expecting ',' delimiter"
    end.
Proof. reflexivity. Qed.

Lemma parse_members_quote fuel r0 :
  Json.parse_members float_of_literal (S fuel) (String Json.dq r0)
  = let? (k, r1) := Json.parse_string r0 in
    match Json.skip_ws r1 with
    | "" => Json.decode_error "Expecting ':' delimiter"
    | String c1 r2 =>
        if Ascii.eqb c1 ":" then
          let? (v, r3) := Json.parse_value float_of_literal fuel (Json.skip_ws r2) in
          match Json.skip_ws r3 with
          | "" => Json.decode_error "Expecting ',' delimiter"
          | String c2 r4 =>
              if Ascii.eqb c2 "}" then Ok ([(k, v)], r4)
              else if Ascii.eqb c2 "," then
                let? (kvs, r5) := Json.parse_members float_of_literal fuel (Json.skip_ws r4) in
                Ok ((k, v) :: kvs, r5)
              else Json.decode_error "Expecting ',' delimiter"
          end
        else Json.decode_error "Expecting ':' delimiter"
    end.
Proof. reflexivity. Qed.

Lemma number_start_other c :
  number_start c = true →
  Ascii.eqb c Json.dq = false ∧ Ascii.eqb c "{" = false ∧ Ascii.eqb c "[" = false
  ∧ Ascii.eqb "n" c = false ∧ Ascii.eqb "t" c = false ∧ Ascii.eqb "f" c = false
  ∧ Json.is_ws c = false ∧ Ascii.eqb c "]" = false ∧ Ascii.eqb c "}" = false.
Proof. destruct c as [[] [] [] [] [] [] [] []]; by vm_compute. Qed.

(** In front of a digit or a minus sign the value is a number, or one of
    the words read when the pattern of numbers fails. *)
Lemma parse_value_number fuel c s :
  number_start c = true →
  Json.parse_value float_of_literal (S fuel) (String c s)
  = match Json.parse_number float_of_literal (String c s) with
    | Some found => Ok found
    | None => Json.parse_constant (String c s)
    end.
Proof.
  intros (H1 & H2 & H3 & H4 & H5 & H6 & _)%number_start_other.
  simpl. by rewrite H1, H2, H3, H4, H5, H6.
Qed.

Lemma lex_integer_head s i r :
  Json.lex_integer s = Some (i, r) → ∃ c s', s = String c s' ∧ number_start c = true.
Proof.
  destruct s as [|c s]; [done|]. intros H. exists c, s. split; [done|].
  revert H. unfold Json.lex_integer, number_start.
  destruct (Ascii.eqb c "-"); [by rewrite orb_true_r|].
  simpl. destruct (Ascii.eqb c "0") eqn:E; [by rewrite (is_digit_zero _ E)|].
  by destruct (Json.is_digit c).
Qed.

Lemma int_repr_head n : ∃ c s, Json.int_repr n = String c s ∧ number_start c = true.
Proof. eapply lex_integer_head, lex_integer_repr. Qed.

Lemma float_literal_head lit :
  Json.float_literal lit = true → ∃ c s, lit = String c s ∧ number_start c = true.
Proof.
  unfold Json.float_literal, Json.lex_number.
  destruct (Json.lex_integer lit) as [[i r]|] eqn:E; [|done].
  intros _. by eapply lex_integer_head.
Qed.

Lemma ends_value_number rest : ends_value rest = true → head_is number_char rest = false.
Proof.
  destruct rest as [|c rest]; [done|]. simpl.
  intros [->%Ascii.eqb_eq| ->%Ascii.eqb_eq]%orb_true_iff; reflexivity.
Qed.

Lemma value_start_other c :
  value_start c = true →
  Json.is_ws c = false ∧ Ascii.eqb c "]" = false ∧ Ascii.eqb c "}" = false.
Proof. destruct c as [[] [] [] [] [] [] [] []]; by vm_compute. Qed.

Lemma number_start_value c : number_start c = true → value_start c = true.
Proof. unfold value_start. by intros ->. Qed.

Lemma dumps_at_head level v :
  floats_read_back float_repr float_of_literal v = true →
  ∃ c s, Json.dumps_at float_repr level v = String c s ∧ value_start c = true.
Proof.
  intros Hf. destruct v as [|[]|n|[|[]|m e]|s|[|x items]|[|kv entries]];
    try (by eexists _, _).
  - destruct (int_repr_head n) as (c & s & E & H).
    exists c, s. simpl. by rewrite E, (number_start_value _ H).
  - simpl in Hf. apply andb_true_iff in Hf as [Hlit _].
    destruct (float_literal_head _ Hlit) as (c & s & E & H).
    exists c, s. simpl. by rewrite E, (number_start_value _ H).
Qed.

Lemma dict_set_fresh k v (d : list (string * pyval)) :
  k ∉ d.*1 → Json.dict_set k v d = d ++ [(k, v)].
Proof.
  induction d as [|[k' v'] d IH]; [done|]. simpl.
  intros [Hne Hd]%not_elem_of_cons.
  rewrite bool_decide_eq_false_2 by done. by rewrite IH.
Qed.

Lemma dict_of_pairs_distinct (pairs : list (string * pyval)) :
  NoDup pairs.*1 → Json.dict_of_pairs pairs = pairs.
Proof.
  unfold Json.dict_of_pairs.
  assert (∀ acc : list (string * pyval), NoDup (acc ++ pairs).*1 →
            foldl (λ d kv, Json.dict_set kv.1 kv.2 d) acc pairs = acc ++ pairs) as H.
  { induction pairs as [|[k v] pairs IH]; intros acc Hnd; simpl.
    - by rewrite app_nil_r.
    - rewrite dict_set_fresh.
      + rewrite IH; rewrite <- app_assoc; done.
      + rewrite fmap_app in Hnd. apply NoDup_app in Hnd as (_ & Hdis & _).
        intros Hin. apply (Hdis k Hin). simpl. left. }
  intros Hnd. by apply (H []).
Qed.

Lemma join_head sep c s l : ∃ t, PyStr.join sep (String c s :: l) = String c t.
Proof. destruct l; eexists; reflexivity. Qed.

Lemma dumps_at_list level x xs :
  Json.dumps_at float_repr level (PList (x :: xs))
  = "[" +:+ (NL +:+ Json.spaces (2 * S level))
    +:+ PyStr.join ("," +:+ NL +:+ Json.spaces (2 * S level))
          (map (Json.dumps_at float_repr (S level)) (x :: xs))
    +:+ (NL +:+ Json.spaces (2 * level)) +:+ "]".
Proof. reflexivity. Qed.

Lemma dumps_at_dict level kv entries :
  Json.dumps_at float_repr level (PDict (kv :: entries))
  = "{" +:+ (NL +:+ Json.spaces (2 * S level))
    +:+ PyStr.join ("," +:+ NL +:+ Json.spaces (2 * S level))
          (map (λ kv, Json.quote kv.1 +:+ ": "
                      +:+ Json.dumps_at float_repr (S level) kv.2) (kv :: entries))
    +:+ (NL +:+ Json.spaces (2 * level)) +:+ "}".
Proof. reflexivity. Qed.

Lemma parse_value_quote fuel r :
  Json.parse_value float_of_literal (S fuel) (String Json.dq r)
  = let? (t, r') := Json.parse_string r in Ok (PStr t, r').
Proof. reflexivity. Qed.

Lemma parse_value_list fuel r :
  Json.parse_value float_of_literal (S fuel) (String "[" r)
  = match Json.skip_ws r with
    | "" => Json.decode_error "Expecting value"
    | String c' r' =>
        if Ascii.eqb c' "]" then Ok (PList [], r')
        else
          let? (items, r'') := Json.parse_items float_of_literal fuel (String c' r') in
          Ok (PList items, r'')
    end.
Proof. reflexivity. Qed.

Lemma parse_value_dict fuel r :
  Json.parse_value float_of_literal (S fuel) (String "{" r)
  = match Json.skip_ws r with
    | "" => Json.decode_error "Expecting property name enclosed in double quotes"
    | String c' r' =>
        if Ascii.eqb c' "}" then Ok (PDict [], r')
        else
          let? (pairs, r'') := Json.parse_members float_of_literal fuel (String c' r') in
          Ok (PDict (Json.dict_of_pairs pairs), r'')
    end.
Proof. reflexivity. Qed.

Lemma skip_ws_indent n s : Json.skip_ws ((NL +:+ Json.spaces n) +:+ s) = Json.skip_ws s.
Proof. by rewrite append_assoc, skip_ws_nl, skip_ws_spaces. Qed.

Lemma cost_pos v : 0 < cost v.
Proof. destruct v; simpl; lia. Qed.

(** A written value is read back, in front of whatever may follow a value
    in the text. *)
Lemma parse_value_dumps fuel :
  ∀ v level rest,
    cost v ≤ fuel →
    keys_distinct v = true →
    floats_read_back float_repr float_of_literal v = true →
    ends_value rest = true →
    Json.parse_value float_of_literal fuel (Json.dumps_at float_repr level v +:+ rest)
    = Ok (v, rest).
Proof.
  induction fuel as [fuel IH] using lt_wf_ind.
  intros v level rest Hcost Hkeys Hfloats Hend.
  destruct fuel as [|fuel]; [pose proof (cost_pos v); lia|].
  pose proof (ends_value_number _ Hend) as Hnum.
  destruct v as [|b|n|f|s|items|entries].
  - reflexivity.
  - destruct b; reflexivity.
  - destruct (int_repr_head n) as (c & s & E & H). simpl Json.dumps_at.
    rewrite E, append_cons, (parse_value_number _ _ _ H), <- append_cons, <- E.
    by rewrite parse_number_int.
  - destruct f as [|[]|m e]; [reflexivity..|].
    simpl in Hfloats. apply andb_true_iff in Hfloats as [Hlit Hrt].
    apply bool_decide_eq_true in Hrt.
    destruct (float_literal_head _ Hlit) as (c & s & E & H). simpl Json.dumps_at.
    rewrite E, append_cons, (parse_value_number _ _ _ H), <- append_cons, <- E.
    by rewrite parse_number_float, Hrt.
  - simpl Json.dumps_at. unfold Json.quote.
    rewrite append_cons, parse_value_quote, append_assoc, append_cons, append_empty_l.
    by rewrite parse_string_escape.
  - destruct items as [|x xs]; [reflexivity|].
    set (inner := NL +:+ Json.spaces (2 * S level)).
    set (close := NL +:+ Json.spaces (2 * level)).
    assert (∀ items f rest',
              items ≠ [] →
              list_sum (map (λ x, S (cost x)) items) ≤ f → f ≤ fuel →
              forallb keys_distinct items = true →
              forallb (floats_read_back float_repr float_of_literal) items = true →
              Json.parse_items float_of_literal f
                (PyStr.join ("," +:+ inner)
                   (map (Json.dumps_at float_repr (S level)) items)
                 +:+ close +:+ "]" +:+ rest')
              = Ok (items, rest')) as Hitems.
    { clear x xs Hcost Hkeys Hfloats.
      induction items as [|x xs IHl]; [done|].
      intros f rest' _ Hf Hle Hk Hfl.
      simpl in Hf, Hk, Hfl.
      apply andb_true_iff in Hk as [Hkx Hk], Hfl as [Hfx Hfl].
      destruct f as [|f]; [lia|]. rewrite parse_items_S.
      destruct xs as [|y ys].
      - simpl map. simpl PyStr.join.
        rewrite IH; [|lia|simpl in Hf; lia|done|done|done].
        unfold rbind at 1. cbv beta iota.
        unfold close at 1. rewrite skip_ws_indent.
        rewrite append_cons, append_empty_l. by rewrite skip_ws_head.
      - change (map (Json.dumps_at float_repr (S level)) (x :: y :: ys))
          with (Json.dumps_at float_repr (S level) x
                :: map (Json.dumps_at float_repr (S level)) (y :: ys)).
        change (map (Json.dumps_at float_repr (S level)) (y :: ys))
          with (Json.dumps_at float_repr (S level) y
                :: map (Json.dumps_at float_repr (S level)) ys) at 1.
        rewrite join_cons, !append_assoc.
        rewrite IH; [|lia|simpl in Hf; lia|done|done|done].
        unfold rbind at 1. cbv beta iota.
        rewrite append_cons, append_empty_l, skip_ws_head by done.
        change (Ascii.eqb "," "]") with false. change (Ascii.eqb "," ",") with true.
        cbv iota. unfold inner at 1. rewrite skip_ws_indent.
        pose proof Hfl as Hfl'. simpl in Hfl'. apply andb_true_iff in Hfl' as [Hfy _].
        destruct (dumps_at_head (S level) y Hfy) as (c & s & E & Hc).
        destruct (value_start_other _ Hc) as (Hws & _).
        match goal with |- context [Json.skip_ws ?text] =>
          assert (∃ t, text = String c t) as [t Et]
        end.
        { rewrite E.
          destruct (join_head ("," +:+ inner) c s
                      (map (Json.dumps_at float_repr (S level)) ys)) as [t ->].
          eexists. apply append_cons. }
        rewrite Et, skip_ws_head, <- Et by done.
        change (Json.dumps_at float_repr (S level) y
                :: map (Json.dumps_at float_repr (S level)) ys)
          with (map (Json.dumps_at float_repr (S level)) (y :: ys)).
        rewrite IHl; [done|done|simpl in Hf |- *; lia|lia|done|done]. }
    simpl in Hcost, Hkeys, Hfloats.
    rewrite dumps_at_list. fold inner close.
    rewrite append_cons, append_empty_l, append_cons, parse_value_list.
    rewrite !append_assoc. unfold inner at 1. rewrite skip_ws_indent.
    apply andb_true_iff in Hfloats as [Hfx Hfl].
    destruct (dumps_at_head (S level) x Hfx) as (c & s & E & Hc).
    destruct (value_start_other _ Hc) as (Hws & Hbr & _).
    match goal with |- context [Json.skip_ws ?text] =>
      assert (∃ t, text = String c t) as [t Et]
    end.
    { simpl map. rewrite E.
      destruct (join_head ("," +:+ inner) c s
                  (map (Json.dumps_at float_repr (S level)) xs)) as [t ->].
      eexists. apply append_cons. }
    rewrite Et, skip_ws_head by done. rewrite Hbr, <- Et.
    rewrite Hitems; [done|done|simpl; lia|lia|done|].
    simpl. by rewrite Hfx, Hfl.
  - destruct entries as [|kv entries]; [reflexivity|].
    set (inner := NL +:+ Json.spaces (2 * S level)).
    set (close := NL +:+ Json.spaces (2 * level)).
    set (member := λ kv : string * pyval,
           Json.quote kv.1 +:+ ": " +:+ Json.dumps_at float_repr (S level) kv.2).
    assert (∀ k v text,
              member (k, v) +:+ text
              = String Json.dq
                  (Json.escape k
                   +:+ String Json.dq
                         (String ":" (String " "
                            (Json.dumps_at float_repr (S level) v +:+ text)))))
      as Hmember.
    { intros k v text. unfold member, Json.quote. simpl fst. simpl snd.
      rewrite !append_cons, !append_assoc. by rewrite !append_cons, !append_empty_l. }
    assert (∀ kv, ∃ t, member kv = String Json.dq t) as Hquoted.
    { intros [k v]. eexists. unfold member, Json.quote. apply append_cons. }
    assert (∀ entries f rest',
              entries ≠ [] →
              list_sum (map (λ kv, S (cost kv.2)) entries) ≤ f → f ≤ fuel →
              forallb (λ kv, keys_distinct kv.2) entries = true →
              forallb (λ kv, floats_read_back float_repr float_of_literal kv.2) entries
              = true →
              Json.parse_members float_of_literal f
                (PyStr.join ("," +:+ inner) (map member entries)
                 +:+ close +:+ "}" +:+ rest')
              = Ok (entries, rest')) as Hmembers.
    { clear kv entries Hcost Hkeys Hfloats.
      induction entries as [|[k v] entries IHl]; [done|].
      intros f rest' _ Hf Hle Hk Hfl.
      simpl in Hf, Hk, Hfl.
      apply andb_true_iff in Hk as [Hkx Hk], Hfl as [Hfx Hfl].
      destruct f as [|f]; [lia|].
      destruct (dumps_at_head (S level) v Hfx) as (c & s & E & Hc).
      destruct (value_start_other _ Hc) as (Hws & _).
      destruct entries as [|[k2 v2] entries].
      - simpl map. simpl PyStr.join.
        rewrite Hmember, parse_members_quote, parse_string_escape.
        unfold rbind at 1. cbv beta iota.
        rewrite skip_ws_head by done. change (Ascii.eqb ":" ":") with true. cbv iota.
        assert (Json.skip_ws
                  (String " " (Json.dumps_at float_repr (S level) v
                               +:+ close +:+ "}" +:+ rest'))
                = Json.dumps_at float_repr (S level) v +:+ close +:+ "}" +:+ rest')
          as ->.
        { change (Json.skip_ws (String " " ?t)) with (Json.skip_ws t).
          rewrite E, append_cons. by rewrite skip_ws_head. }
        rewrite IH; [|lia|simpl in Hf; lia|done|done|done].
        unfold rbind at 1. cbv beta iota.
        unfold close at 1. rewrite skip_ws_indent.
        rewrite append_cons, append_empty_l. by rewrite skip_ws_head.
      - change (map member ((k, v) :: (k2, v2) :: entries))
          with (member (k, v) :: member (k2, v2) :: map member entries).
        rewrite join_cons, !append_assoc.
        rewrite Hmember, parse_members_quote, parse_string_escape.
        unfold rbind at 1. cbv beta iota.
        rewrite skip_ws_head by done. change (Ascii.eqb ":" ":") with true. cbv iota.
        match goal with |- context [Json.skip_ws (String " " ?t)] =>
          assert (Json.skip_ws (String " " t) = t) as ->
        end.
        { change (Json.skip_ws (String " " ?t)) with (Json.skip_ws t).
          rewrite E, append_cons. by rewrite skip_ws_head. }
        rewrite IH; [|lia|simpl in Hf; lia|done|done|done].
        unfold rbind at 1. cbv beta iota.
        rewrite append_cons, append_empty_l, skip_ws_head by done.
        change (Ascii.eqb "," "}") with false. change (Ascii.eqb "," ",") with true.
        cbv iota. unfold inner at 1. rewrite skip_ws_indent.
        change (member (k2, v2) :: map member entries)
          with (map member ((k2, v2) :: entries)).
        assert (Json.skip_ws
                  (PyStr.join ("," +:+ inner) (map member ((k2, v2) :: entries))
                   +:+ close +:+ "}" +:+ rest')
                = PyStr.join ("," +:+ inner) (map member ((k2, v2) :: entries))
                  +:+ close +:+ "}" +:+ rest') as ->.
        { simpl map. destruct (Hquoted (k2, v2)) as [t0 ->].
          destruct (join_head ("," +:+ inner) Json.dq t0 (map member entries))
            as [t ->].
          rewrite append_cons. by rewrite skip_ws_head. }
        rewrite IHl; [done|done|simpl in Hf |- *; lia|lia|done|done]. }
    simpl in Hcost, Hkeys, Hfloats.
    rewrite dumps_at_dict. fold inner close.
    change (λ kv0 : string * pyval,
              Json.quote kv0.1 +:+ ": " +:+ Json.dumps_at float_repr (S level) kv0.2)
      with member.
    rewrite append_cons, append_empty_l, append_cons, parse_value_dict.
    rewrite !append_assoc. unfold inner at 1. rewrite skip_ws_indent.
    apply andb_true_iff in Hkeys as [Hnd Hkeys]. apply bool_decide_eq_true in Hnd.
    match goal with |- context [Json.skip_ws ?text] =>
      assert (∃ t, text = String Json.dq t) as [t Et]
    end.
    { simpl map. destruct (Hquoted kv) as [t0 ->].
      destruct (join_head ("," +:+ inner) Json.dq t0 (map member entries))
        as [t ->].
      rewrite append_cons. by eexists. }
    rewrite Et, skip_ws_head by done.
    change (Ascii.eqb Json.dq "}") with false. cbv iota. rewrite <- Et.
    rewrite Hmembers; [|done|simpl; lia|lia|done|done].
    unfold rbind. by rewrite dict_of_pairs_distinct.
Qed.


End JsonValues.

Section JsonRoundTrip.

Variable float_repr : pyfloat → string.
Variable float_of_literal : string → pyfloat.

Lemma forallb_elem {A} (f : A → bool) (l : list A) x :
  forallb f l = true → x ∈ l → f x = true.
Proof.
  intros Hall Hx. induction Hx as [x l|x y l Hx IH]; simpl in Hall;
    apply andb_true_iff in Hall as [Hy Hl]; auto.
Qed.

Lemma length_join_items {A} (d : A → string) (c : A → nat) sep inner (items : list A) :
  0 < String.length sep → 0 < String.length inner →
  Forall (λ x, c x ≤ String.length (d x)) items →
  list_sum (map (λ x, S (c x)) items)
  ≤ String.length inner + String.length (PyStr.join sep (map d items)).
Proof.
  intros Hsep Hinner Hall. induction Hall as [|x items Hx Hall IH]; [simpl; lia|].
  destruct items as [|y items].
  - simpl. lia.
  - change (map d (x :: y :: items)) with (d x :: d y :: map d items).
    rewrite join_cons, !length_append.
    change (d y :: map d items) with (map d (y :: items)).
    simpl list_sum in *. lia.
Qed.

(** The text of a value is at least as long as the calls its reading
    needs. *)
Lemma cost_le_length n :
  ∀ v level,
    cost v ≤ n →
    floats_read_back float_repr float_of_literal v = true →
    cost v ≤ String.length (Json.dumps_at float_repr level v).
Proof.
  induction n as [n IH] using lt_wf_ind. intros v level Hn Hfloats.
  destruct (dumps_at_head float_repr float_of_literal level v Hfloats)
    as (c & s & E & _).
  destruct v as [| | | | |items|entries]; try (rewrite E; simpl; lia).
  - destruct items as [|x xs]; [simpl; lia|].
    rewrite dumps_at_list, !length_append. simpl cost.
    pose proof (length_join_items (Json.dumps_at float_repr (S level)) cost
                  ("," +:+ NL +:+ Json.spaces (2 * S level))
                  (NL +:+ Json.spaces (2 * S level)) (x :: xs)) as Hlen.
    simpl in Hn.
    assert (Forall (λ y, cost y ≤ String.length (Json.dumps_at float_repr (S level) y))
              (x :: xs)) as Hall.
    { apply Forall_forall. intros y Hy.
      apply (IH (cost y)); [|done|].
      - assert (S (cost y) ≤ list_sum (map (λ x, S (cost x)) (x :: xs))) as Hsum.
        { clear -Hy. induction Hy; simpl; lia. }
        simpl in Hsum. lia.
      - simpl in Hfloats. by apply (forallb_elem _ (x :: xs)). }
    specialize (Hlen ltac:(simpl; lia) ltac:(simpl; lia) Hall).
    rewrite length_append in Hlen.
    change (list_sum (map (λ x, S (cost x)) (x :: xs)))
      with (S (cost x) + list_sum (map (λ x, S (cost x)) xs)) in Hlen.
    change (String.length "[") with 1. lia.
  - destruct entries as [|kv entries]; [simpl; lia|].
    rewrite dumps_at_dict, !length_append. simpl cost.
    pose proof (length_join_items
                  (λ kv, Json.quote kv.1 +:+ ": "
                         +:+ Json.dumps_at float_repr (S level) kv.2)
                  (λ kv, cost kv.2)
                  ("," +:+ NL +:+ Json.spaces (2 * S level))
                  (NL +:+ Json.spaces (2 * S level)) (kv :: entries)) as Hlen.
    simpl in Hn.
    assert (Forall (λ kv, cost kv.2
                          ≤ String.length (Json.quote kv.1 +:+ ": "
                              +:+ Json.dumps_at float_repr (S level) kv.2))
              (kv :: entries)) as Hall.
    { apply Forall_forall. intros y Hy. rewrite !length_append.
      assert (cost y.2 ≤ String.length (Json.dumps_at float_repr (S level) y.2)); [|lia].
      apply (IH (cost y.2)); [|done|].
      - assert (S (cost y.2) ≤ list_sum (map (λ kv, S (cost kv.2)) (kv :: entries)))
          as Hsum.
        { clear -Hy. induction Hy; simpl; lia. }
        simpl in Hsum. lia.
      - simpl in Hfloats.
        by apply (forallb_elem
                    (λ kv, floats_read_back float_repr float_of_literal kv.2)
                    (kv :: entries)). }
    specialize (Hlen ltac:(simpl; lia) ltac:(simpl; lia) Hall).
    rewrite length_append in Hlen.
    change (list_sum (map (λ kv, S (cost kv.2)) (kv :: entries)))
      with (S (cost kv.2) + list_sum (map (λ kv, S (cost kv.2)) entries)) in Hlen.
    change (String.length "{") with 1. lia.
Qed.

(** [json.loads] reads back what [json.dump] has written. *)
Lemma loads_dumps v :
  keys_distinct v = true →
  floats_read_back float_repr float_of_literal v = true →
  Json.loads float_of_literal (Json.dumps float_repr v) = Ok v.
Proof.
  intros Hkeys Hfloats. unfold Json.loads, Json.dumps.
  destruct (dumps_at_head float_repr float_of_literal 0 v Hfloats) as (c & s & E & Hc).
  destruct (value_start_other _ Hc) as (Hws & _).
  assert (Json.skip_ws (Json.dumps_at float_repr 0 v) = Json.dumps_at float_repr 0 v)
    as -> by (by rewrite E, skip_ws_head).
  rewrite <- (append_empty_r (Json.dumps_at float_repr 0 v)) at 2.
  rewrite parse_value_dumps; [done| |done|done|done].
  pose proof (cost_le_length (cost v) v 0 (le_n _) Hfloats). lia.
Qed.

End JsonRoundTrip.

(** ** The JSON sidecar *)

(** C9. When the Writer has generated and saved the report, the sidecar
    file named from the company holds what [json.dump] writes for the
    dictionary of the six entries, and parsing that text with
    [json.loads] gives the dictionary back: its entries [company_name],
    [website], [description], [competitors], [pricing_info] and
    [news_headlines] are the final state's [company_name], [home_url],
    [description], [competitors], [pricing_info] and [news_headlines].
    The JSON library is the codec [Json]; the dictionaries of the state
    have distinct keys, and the floats it holds are written and read back
    by Python's [repr] and [float]. *)
Theorem sidecar_round_trip env state w prompt battle_card w'
    float_repr float_of_literal :
  (∀ v, json_dumps env v = Json.dumps float_repr v) →
  (∀ text, json_loads env text = Json.loads float_of_literal text) →
  keys_distinct (raw_data state) = true →
  floats_read_back float_repr float_of_literal (raw_data state) = true →
  writer_format env state = Ok prompt →
  writer_generate env state prompt w = (Ok battle_card, w') →
  ∃ final text,
    run_node (writer_node env) state w = (Ok final, w')
    ∧ files w' !! json_filename (company_name final) = Some text
    ∧ text = Json.dumps float_repr (raw_data final)
    ∧ json_loads env text
      = Ok (PDict [("company_name", PStr (company_name final));
                   ("website", home_url final);
                   ("description", description final);
                   ("competitors", competitors final);
                   ("pricing_info", PList (pricing_info final));
                   ("news_headlines", news_headlines final)]).
Proof.
  intros Hdumps Hloads Hkeys Hfloats Hfmt Hgen.
  exists (apply_update state (report_update state battle_card)),
         (json_dumps env (raw_data state)).
  assert (raw_data (apply_update state (report_update state battle_card))
          = raw_data state) as Hsame by (by destruct state).
  split.
  { apply run_node_eq. unfold writer_node, bind, lift, try_except, ret.
    by rewrite Hfmt, Hgen. }
  split.
  { apply writer_generate_ok in Hgen as [_ ->]. simpl. apply lookup_insert_eq. }
  split; [by rewrite Hsame, Hdumps|].
  rewrite Hloads, Hdumps, (loads_dumps _ _ _ Hkeys Hfloats).
  by destruct state.
Qed.

Lemma sidecar_round_trip_witness :
  ∃ w' text,
    (run_node (writer_node Demo.happy) Demo2.priced Demo.start).2 = w'
    ∧ files w' !! "acme_corp_data.json" = Some text
    ∧ json_loads Demo.happy text = Ok (raw_data Demo2.priced).
Proof.
  edestruct (sidecar_round_trip Demo.happy Demo2.priced Demo.start)
    as (final & text & Hrun & Hfile & _ & Hload).
  - intros v. reflexivity.
  - intros text. reflexivity.
  - vm_compute; reflexivity.
  - vm_compute; reflexivity.
  - vm_compute; reflexivity.
  - vm_compute; reflexivity.
  - apply run_node_inv in Hrun as (u & Hu & ->).
    pose proof Hu as (r & ->)%writer_node_returns.
    eexists _, text. split; [by rewrite (run_node_eq _ _ _ _ _ Hu)|].
    split; [exact Hfile|exact Hload].
Defined.

(** ** Fence stripping on examples *)

Lemma strip_fence_idempotent_witness :
  strip_fence (strip_fence ("```json" +:+ NL +:+ "{}" +:+ NL +:+ "```"))
  = strip_fence ("```json" +:+ NL +:+ "{}" +:+ NL +:+ "```").
Proof.
  apply strip_fence_idempotent. right.
  exists "json", "{}". split; [reflexivity|]. split; reflexivity.
Defined.

Example strip_fence_json :
  strip_fence ("```json" +:+ NL +:+ "{}" +:+ NL +:+ "```") = "{}".
Proof. reflexivity. Qed.

Example strip_fence_plain : strip_fence "{}" = "{}".
Proof. reflexivity. Qed.

(** A fence that opens and closes on one line is left alone. *)
Example strip_fence_one_line : strip_fence "```json {}```" = "```json {}```".
Proof. reflexivity. Qed.

(** The language tag on a line of its own is removed with the white space
    around what follows it. *)
Example strip_fence_json_word :
  strip_fence ("```" +:+ NL +:+ "json  [1] " +:+ NL +:+ "```") = "[1]".
Proof. reflexivity. Qed.

(** With two layers of fencing a second pass strips again. *)
Example strip_fence_two_layers :
  let x := "```" +:+ NL +:+ "```json" +:+ NL +:+ "{}" +:+ NL +:+ "```" +:+ NL +:+ "```" in
  strip_fence x = "```json" +:+ NL +:+ "{}" +:+ NL +:+ "```"
  ∧ strip_fence (strip_fence x) = "{}".
Proof. split; reflexivity. Qed.

(** The cleaning of a whole response, which strips white space first, is
    not idempotent even on one layer. *)
Example clean_response_not_idempotent :
  let x := "```json" +:+ NL +:+ " {} " +:+ NL +:+ "```" in
  clean_response x = " {} " ∧ clean_response (clean_response x) = "{}".
Proof. split; reflexivity. Qed.

(** * Further properties of the code *)

(** ** Fence stripping, line by line *)

Lemma fenced_lines tag body last :
  PyStr.contains NL tag = false →
  PyStr.contains NL last = false →
  PyStr.split_nl (fence +:+ tag +:+ NL +:+ body +:+ NL +:+ last)
  = (fence +:+ tag) :: PyStr.split_nl body ++ [last].
Proof.
  intros Htag Hlast. unfold PyStr.split_nl.
  rewrite <- (append_assoc fence tag).
  change (NL +:+ body +:+ NL +:+ last) with (String PyStr.nl (body +:+ String PyStr.nl last)).
  rewrite split_by_app by apply Ascii.eqb_refl.
  rewrite split_by_app by apply Ascii.eqb_refl.
  assert (PyStr.split_by (Ascii.eqb PyStr.nl) (fence +:+ tag) = [fence +:+ tag]) as ->.
  { apply split_nl_single. exact Htag. }
  pose proof (split_nl_single _ Hlast) as Hl. unfold PyStr.split_nl in Hl.
  by rewrite Hl.
Qed.

(** X1. On a text that opens with a fence and has more than two lines,
    the stripping step removes the first line and the last line, whatever
    the last line is (a closing fence or, in a truncated answer, content),
    and then a leading "json" with the white space around what follows.  A
    fenced text of two lines is returned as it is, fence included. *)
Theorem strip_fence_by_lines tag body last :
  PyStr.contains NL tag = false →
  PyStr.contains NL last = false →
  strip_fence (fence +:+ tag +:+ NL +:+ body +:+ NL +:+ last)
  = (if PyStr.startswith "json" body then PyStr.strip (PyStr.drop 4 body) else body)
  ∧ strip_fence (fence +:+ tag +:+ NL +:+ last) = (fence +:+ tag +:+ NL +:+ last).
Proof.
  intros Htag Hlast. split.
  - unfold strip_fence.
    change (PyStr.startswith fence (fence +:+ tag +:+ NL +:+ body +:+ NL +:+ last))
      with true. cbv iota.
    rewrite (fenced_lines _ _ _ Htag Hlast).
    assert ((2 <? length ((fence +:+ tag) :: (PyStr.split_nl body ++ [last]))) = true)
      as ->.
    { apply Nat.ltb_lt. rewrite length_cons, length_app. simpl.
      pose proof (split_by_nonempty (Ascii.eqb PyStr.nl) body) as Hne.
      unfold PyStr.split_nl. destruct (PyStr.split_by _ body); [done|]. simpl. lia. }
    unfold slice_1_m1. simpl tail. by rewrite removelast_last, join_split_nl.
  - unfold strip_fence.
    change (PyStr.startswith fence (fence +:+ tag +:+ NL +:+ last)) with true.
    cbv iota.
    assert (PyStr.split_nl (fence +:+ tag +:+ NL +:+ last)
            = [(fence +:+ tag); last]) as ->.
    { unfold PyStr.split_nl. rewrite <- (append_assoc fence tag).
      change (NL +:+ last) with (String PyStr.nl last).
      rewrite split_by_app by apply Ascii.eqb_refl.
      assert (PyStr.split_by (Ascii.eqb PyStr.nl) (fence +:+ tag) = [fence +:+ tag]) as ->.
      { apply split_nl_single. exact Htag. }
      pose proof (split_nl_single _ Hlast) as Hl. unfold PyStr.split_nl in Hl.
      by rewrite Hl. }
    simpl. done.
Qed.

Lemma strip_fence_by_lines_witness :
  strip_fence ("```json" +:+ NL +:+ "{" +:+ NL +:+ "}") = "{".
Proof.
  exact (proj1 (strip_fence_by_lines "json" "{" "}" eq_refl eq_refl)).
Defined.

(** ** File names *)

Section FileNames.

Local Arguments Ascii.eqb : simpl never.
Local Arguments PyStr.lower_char : simpl never.

Lemma stem_char_no_space c :
  Ascii.eqb " " (PyStr.lower_char (if Ascii.eqb c " " then "_"%char else c)) = false.
Proof. destruct c as [[] [] [] [] [] [] [] []]; vm_compute; reflexivity. Qed.

Lemma stem_char_fixed c :
  PyStr.lower_char
    (if Ascii.eqb (PyStr.lower_char (if Ascii.eqb c " " then "_"%char else c)) " "
     then "_"%char
     else PyStr.lower_char (if Ascii.eqb c " " then "_"%char else c))
  = PyStr.lower_char (if Ascii.eqb c " " then "_"%char else c).
Proof. destruct c as [[] [] [] [] [] [] [] []]; vm_compute; reflexivity. Qed.

(** X2. The stem of the two file names holds no space, and taking the
    stem of a stem changes nothing: a company name and its stem (which
    differs by case and by underscores for spaces) are saved under the
    same report file and the same sidecar file. *)
Theorem file_stem_normal name :
  PyStr.contains " " (file_stem name) = false
  ∧ file_stem (file_stem name) = file_stem name
  ∧ report_filename (file_stem name) = report_filename name
  ∧ json_filename (file_stem name) = json_filename name.
Proof.
  assert (PyStr.contains " " (file_stem name) = false) as Hsp.
  { unfold file_stem. induction name as [|c s IH]; [done|].
    simpl. rewrite stem_char_no_space. exact IH. }
  assert (file_stem (file_stem name) = file_stem name) as Hidem.
  { clear Hsp. unfold file_stem. induction name as [|c s IH]; [done|].
    simpl. by rewrite IH, stem_char_fixed. }
  unfold report_filename, json_filename. by rewrite Hidem.
Qed.

End FileNames.

(** ** [scrape_website] *)

Section ScrapeFacts.

Variable env : Env.

Lemma str_length_take n s : String.length (PyStr.take n s) ≤ n.
Proof.
  revert s. induction n as [|n IH]; intros [|c s]; simpl; try lia.
  specialize (IH s). lia.
Qed.

Lemma str_length_take_le n s : String.length (PyStr.take n s) ≤ String.length s.
Proof.
  revert s. induction n as [|n IH]; intros [|c s]; simpl; try lia.
  specialize (IH s). lia.
Qed.

Lemma str_length_drop n s : String.length (PyStr.drop n s) = String.length s - n.
Proof.
  revert s. induction n as [|n IH]; intros [|c s]; simpl; try lia.
  apply IH.
Qed.

Lemma str_length_slice i j s :
  String.length (PyStr.slice i j s) ≤ j - i
  ∧ String.length (PyStr.slice i j s) ≤ String.length s - i.
Proof.
  unfold PyStr.slice. split; [apply str_length_take|].
  rewrite <- str_length_drop. apply str_length_take_le.
Qed.

End ScrapeFacts.

(** X3. When the request answers 200 and the page parses, [scrape_website]
    returns the characters 2000 to 7000 of the cleaned text: at most 5000
    characters, and none of the first 2000.  A page whose cleaned text has
    at most 2100 characters therefore never passes the 100-character test
    of the probes. *)
#[warnings="-abstract-large-number"] Theorem scrape_website_window env url w html text :
  session_get env (trace w) url = Ok (200%Z, html) →
  soup_get_text env html = Ok text →
  let fetched := PyStr.slice 2000 7000 (clean_lines text) in
  scrape_website env url w = (Ok fetched, log (SessionGet url) w)
  ∧ String.length fetched ≤ 7000 - 2000
  ∧ (String.length (clean_lines text) ≤ 2000 + 100 → meaningful fetched = false).
Proof.
  intros Hget Hsoup fetched.
  split; [|split].
  - unfold scrape_website, try_except, bind, call, lift, ret. by rewrite Hget, Hsoup.
  - apply str_length_slice.
  - intros Hlen. apply meaningful_short.
    pose proof (proj2 (str_length_slice _ _ (clean_lines text)) : String.length fetched ≤ _).
    lia.
Qed.

#[warnings="-abstract-large-number"] Lemma scrape_website_window_witness :
  meaningful (PyStr.slice 2000 7000 (clean_lines (Demo.filler 2100))) = false.
Proof.
  refine (proj2 (proj2
    (scrape_website_window Demo.plans_hundred "https://acme.test/plans"
       Demo.start (Demo.filler 2100) (Demo.filler 2100) _ _)) _).
  - vm_compute. reflexivity.
  - reflexivity.
  - apply Nat.leb_le. vm_compute. reflexivity.
Defined.

(** X4. Whenever [scrape_website] fails (the request raises, the status
    is not 200, or the page does not parse) it still returns a string,
    which begins with "Error"; and on such a string [retriever_text] never
    returns chunks: what it returns is (None, None). *)
Theorem scrape_failure_is_rejected env url w :
  scrape_fails env url w →
  ∃ text,
    scrape_website env url w = (Ok text, log (SessionGet url) w)
    ∧ PyStr.startswith "Error" text = true
    ∧ ∀ w' retrieved,
        (retriever_text env text w').1 = Ok retrieved → retrieved = (None, None).
Proof.
  intros Hfail.
  assert (∃ text, scrape_website env url w = (Ok text, log (SessionGet url) w)
                  ∧ PyStr.startswith "Error" text = true) as (text & Hrun & Herr).
  { unfold scrape_fails in Hfail. unfold scrape_website, try_except, bind, call, lift, ret.
    destruct (session_get env (trace w) url) as [[code html]|e]; [|by eauto].
    destruct (code =? 200)%Z; [|by eauto].
    destruct (soup_get_text env html); [done|by eauto]. }
  exists text. split; [done|]. split; [done|].
  intros w' retrieved. unfold retriever_text, bind, call, ret.
  rewrite Herr, orb_true_r.
  destruct (embeddings_load env (trace w') _); [|done]. by intros [= <-].
Qed.

Lemma scrape_failure_is_rejected_witness :
  ∃ text,
    scrape_website Demo.second_only "https://acme.test/pricing" Demo.start
    = (Ok text, log (SessionGet "https://acme.test/pricing") Demo.start)
    ∧ PyStr.startswith "Error" text = true.
Proof.
  destruct (scrape_failure_is_rejected Demo.second_only "https://acme.test/pricing"
              Demo.start) as (text & Hrun & Herr & _).
  - exact I.
  - by exists text.
Defined.

(** ** The cleaned text *)

Section CleanFacts.

Local Arguments Ascii.eqb : simpl never.

Implicit Types (f p : ascii → bool) (s : string).

Lemma has_char_split_by f s :
  Forall (λ l, has_char f l = false) (PyStr.split_by f s).
Proof.
  induction s as [|c s IH]; simpl.
  - by repeat constructor.
  - destruct (f c) eqn:Hc.
    + by constructor.
    + destruct (PyStr.split_by f s) as [|l ls]; [by repeat constructor; simpl; rewrite Hc|].
      inversion IH as [|?? Hl Hls]; subst. constructor; [|done].
      simpl. by rewrite Hc, Hl.
Qed.

Lemma has_char_lstrip f p s :
  has_char f s = false → has_char f (PyStr.lstrip_by p s) = false.
Proof.
  induction s as [|c s IH]; [done|]. simpl.
  intros [Hc Hs]%orb_false_iff. destruct (p c); [by apply IH|].
  simpl. by rewrite Hc, Hs.
Qed.

Lemma has_char_rstrip f p s :
  has_char f s = false → has_char f (PyStr.rstrip_by p s) = false.
Proof.
  induction s as [|c s IH]; [done|]. simpl.
  intros [Hc Hs]%orb_false_iff. specialize (IH Hs).
  destruct (PyStr.rstrip_by p s) as [|d r].
  - destruct (p c); [done|]. simpl. by rewrite Hc.
  - simpl in *. by rewrite Hc, IH.
Qed.

Lemma rstrip_idempotent p s :
  PyStr.rstrip_by p (PyStr.rstrip_by p s) = PyStr.rstrip_by p s.
Proof.
  induction s as [|c s IH]; [done|]. simpl.
  destruct (PyStr.rstrip_by p s) as [|d r] eqn:Hr.
  - destruct (p c) eqn:Hc; [done|]. simpl. by rewrite Hc.
  - change (PyStr.rstrip_by p (String c (String d r)))
      with (match PyStr.rstrip_by p (String d r) with
            | "" => if p c then "" else String c ""
            | r' => String c r'
            end).
    by rewrite IH.
Qed.

Lemma lstrip_head p s :
  PyStr.lstrip_by p s = ""
  ∨ ∃ c t, PyStr.lstrip_by p s = String c t ∧ p c = false.
Proof.
  induction s as [|c s IH]; [by left|]. simpl.
  destruct (p c) eqn:Hc; [done|]. right. eauto.
Qed.

Lemma rstrip_head p c s :
  p c = false → ∃ r, PyStr.rstrip_by p (String c s) = String c r.
Proof.
  intros Hc. simpl. destruct (PyStr.rstrip_by p s); [|eauto].
  rewrite Hc. eauto.
Qed.

Lemma strip_idempotent s : PyStr.strip (PyStr.strip s) = PyStr.strip s.
Proof.
  unfold PyStr.strip.
  destruct (lstrip_head PyStr.isspace s) as [->|(c & t & -> & Hc)]; [done|].
  destruct (rstrip_head PyStr.isspace c t Hc) as [r Hr]. rewrite Hr.
  change (PyStr.lstrip_by PyStr.isspace (String c r))
    with (if PyStr.isspace c then PyStr.lstrip_by PyStr.isspace r else String c r).
  rewrite Hc, <- Hr. apply rstrip_idempotent.
Qed.

Lemma split_by_single f s : has_char f s = false → PyStr.split_by f s = [s].
Proof.
  induction s as [|c s IH]; [done|]. simpl.
  intros [Hc Hs]%orb_false_iff. by rewrite Hc, (IH Hs).
Qed.

Lemma split_by_join f c (ls : list string) :
  f c = true → ls ≠ [] → Forall (λ l, has_char f l = false) ls →
  PyStr.split_by f (PyStr.join (String c "") ls) = ls.
Proof.
  intros Hc. induction ls as [|l ls IH]; [done|]. intros _ Hall.
  inversion Hall as [|?? Hl Hls]; subst.
  destruct ls as [|l2 ls]; [by apply split_by_single|].
  rewrite join_cons.
  change (l +:+ String c "" +:+ PyStr.join (String c "") (l2 :: ls))
    with (l +:+ String c (PyStr.join (String c "") (l2 :: ls))).
  rewrite (split_by_app _ _ _ _ Hc), (split_by_single _ _ Hl), IH; done.
Qed.

Lemma has_char_weaken f p s :
  (∀ c, p c = true → f c = true) → has_char f s = false → has_char p s = false.
Proof.
  intros Himp. induction s as [|c s IH]; [done|]. simpl.
  intros [Hc Hs]%orb_false_iff. rewrite (IH Hs), orb_false_r.
  destruct (p c) eqn:Hp; [|done]. by rewrite (Himp _ Hp) in Hc.
Qed.

End CleanFacts.

(** X5. The text [scrape_website] cleans has no blank line and no line
    with white space at either end: unless it is empty, each of its lines
    is non-empty and is left unchanged by [strip]. *)
Theorem clean_lines_stripped text :
  clean_lines text = ""
  ∨ Forall (λ l, PyStr.is_empty l = false ∧ PyStr.strip l = l)
      (PyStr.split_nl (clean_lines text)).
Proof.
  unfold clean_lines.
  set (ls := filter _ _).
  assert (Forall (λ l, PyStr.is_empty l = false ∧ PyStr.strip l = l
                       ∧ has_char (Ascii.eqb PyStr.nl) l = false) ls) as Hall.
  { apply Forall_forall. intros l [Hne Hin]%list_elem_of_filter.
    apply list_elem_of_fmap in Hin as (l0 & -> & Hin0).
    split; [by destruct (PyStr.is_empty _)|]. split; [apply strip_idempotent|].
    pose proof (has_char_split_by PyStr.is_linebreak text) as Hpieces.
    rewrite Forall_forall in Hpieces. specialize (Hpieces l0 Hin0).
    apply has_char_rstrip, has_char_lstrip.
    apply (has_char_weaken PyStr.is_linebreak); [|done].
    intros c <-%Ascii.eqb_eq. reflexivity. }
  destruct ls as [|l ls'] eqn:Hls; [by left|]. right.
  unfold PyStr.split_nl, NL.
  rewrite split_by_join.
  - eapply Forall_impl; [exact Hall|]. by intros l0 (? & ? & ?).
  - apply Ascii.eqb_refl.
  - done.
  - eapply Forall_impl; [exact Hall|]. by intros l0 (? & ? & ?).
Qed.

(** ** The probes, request by request *)

Lemma trace_fetched urls w :
  trace (fetched urls w) = trace w ++ (SessionGet <$> urls)
  ∧ files (fetched urls w) = files w.
Proof.
  revert w. induction urls as [|u urls IH]; intros w; simpl.
  - by rewrite app_nil_r.
  - destruct (IH (log (SessionGet u) w)) as [-> ->]. simpl.
    by rewrite <- app_assoc.
Qed.

(** X6. The Pricing probe never raises and fetches a prefix of its
    candidate list, in order and each candidate once.  On a non-empty list
    it always ends with a text (never [None]), and when it stops before
    the end of the list that text has more than 100 characters. *)
Theorem pricing_probe_in_order env urls text w :
  ∃ k text',
    pricing_probe env urls text w = (Ok text', fetched (take k urls) w)
    ∧ k ≤ length urls
    ∧ trace (fetched (take k urls) w) = trace w ++ (SessionGet <$> take k urls)
    ∧ (urls ≠ [] →
       0 < k ∧ ∃ t, text' = Some t ∧ (k < length urls → 100 < String.length t)).
Proof.
  revert text w. induction urls as [|u urls IH]; intros text w.
  { exists 0, text. simpl. rewrite app_nil_r. repeat split; done. }
  destruct (scrape_website_total env u w) as [t Ht].
  assert ((scrape_website env u w).1 = Ok t) as Ht1 by (by rewrite Ht).
  destruct (meaningful t) eqn:Hm.
  - apply meaningful_spec in Hm.
    exists 1, (Some t). rewrite (pricing_probe_stop _ _ _ _ _ _ Ht1 Hm). simpl.
    split; [done|]. split; [lia|]. split; [done|].
    intros _. split; [lia|]. eauto.
  - assert (String.length t ≤ 100) as Hlen.
    { destruct (decide (String.length t ≤ 100)); [done|].
      assert (100 < String.length t) as H%meaningful_spec by lia. congruence. }
    rewrite (pricing_probe_skip _ _ _ _ _ _ Ht1 Hlen).
    destruct (IH (Some t) (log (SessionGet u) w)) as (k & text' & Hrun & Hk & _ & Hne).
    exists (S k), text'. simpl. split; [done|]. split; [lia|].
    split; [apply (trace_fetched (u :: take k urls) w)|].
    intros _. split; [lia|].
    destruct urls as [|u2 urls].
    + destruct k; simpl in *; [|lia]. unfold ret in Hrun.
      injection Hrun as <-. exists t. split; [done|]. lia.
    + destruct Hne as (_ & t' & -> & Hlong); [done|].
      exists t'. split; [done|]. intros ?. apply Hlong. simpl in *. lia.
Qed.

Lemma pricing_probe_in_order_witness :
  let urls := ["https://acme.test/pricing"; "https://acme.test/plans";
               "https://acme.test/price"] in
  ∃ k t,
    pricing_probe Demo.second_only urls None Demo.start
    = (Ok (Some t), fetched (take k urls) Demo.start)
    ∧ 0 < k ≤ 3.
Proof.
  intros urls.
  destruct (pricing_probe_in_order Demo.second_only urls None Demo.start)
    as (k & text' & Hrun & Hk & _ & Hne).
  destruct Hne as (Hpos & t & -> & _); [done|].
  exists k, t. split; [exact Hrun|]. split; [exact Hpos|exact Hk].
Defined.

(** X7. The News probe never raises, changes no file, and looks at a
    prefix of its candidate list in order: for each candidate looked at
    it issues one status check, followed or not by one scrape of the same
    URL, and nothing else. *)
Theorem news_probe_in_order env urls text w :
  ∃ text' w' looked_at,
    news_probe env urls text w = (Ok text', w')
    ∧ trace w' = trace w ++ news_requests looked_at
    ∧ files w' = files w
    ∧ looked_at.*1 `prefix_of` urls.
Proof.
  revert text w. induction urls as [|u urls IH]; intros text w.
  { exists text, w, []. simpl. rewrite app_nil_r. repeat split; done. }
  assert (∃ step scraped,
            news_attempt env u text w
            = (Ok step, if scraped : bool
                        then log (SessionGet u) (log (RequestsGet u) w)
                        else log (RequestsGet u) w)) as (step & scraped & Hstep).
  { unfold news_attempt, try_except, bind, call, ret.
    destruct (requests_get env (trace w) u) as [code|e]; [|by eexists _, false].
    destruct (code =? 200)%Z; [|by eexists _, false].
    destruct (scrape_website_total env u (log (RequestsGet u) w)) as [t ->].
    by eexists _, true. }
  simpl. unfold bind at 1. rewrite Hstep. destruct step as [text1 stop].
  destruct stop.
  - eexists text1, _, [(u, scraped)]. split; [done|].
    split; [|split].
    + destruct scraped; simpl; by rewrite <- ?app_assoc.
    + by destruct scraped.
    + simpl. by exists urls.
  - match goal with |- context [news_probe env urls text1 ?w1] =>
      destruct (IH text1 w1) as (text' & w' & looked & -> & Htr & Hf & Hpre) end.
    exists text', w', ((u, scraped) :: looked). split; [done|].
    split; [|split].
    + rewrite Htr. destruct scraped; simpl; by rewrite <- ?app_assoc.
    + rewrite Hf. by destruct scraped.
    + simpl. by apply prefix_cons.
Qed.

(** X8. When none of the three pricing candidates passes the length
    test (each fetch, in the history in which it is made, yields at most
    100 characters), the stage does not give up at the end of the probe:
    after the three requests, in order, it goes on with the text of the
    last candidate alone, whatever the earlier ones returned.  When that
    text is empty the stage returns at once; when it is an error marker
    the embedding model is still loaded before [pricing_info] is returned
    as it was. *)
Theorem pricing_falls_through env state u w c1 c2 c3 t1 t2 t3 :
  resolved (home_url state) u →
  candidate_urls env (home_url state) pricing_suffixes = Ok [c1; c2; c3] →
  (scrape_website env c1 w).1 = Ok t1 → String.length t1 ≤ 100 →
  (scrape_website env c2 (fetched [c1] w)).1 = Ok t2 → String.length t2 ≤ 100 →
  (scrape_website env c3 (fetched [c1; c2] w)).1 = Ok t3 → String.length t3 ≤ 100 →
  let w3 := fetched [c1; c2; c3] w in
  pricing_node env state w = pricing_finish env (Some t3) (pricing_info state) w3
  ∧ trace w3 = trace w ++ [SessionGet c1; SessionGet c2; SessionGet c3]
  ∧ (t3 = "" →
     pricing_node env state w = (Ok (only_pricing_info (pricing_info state)), w3))
  ∧ (t3 ≠ "" → PyStr.startswith "Error" t3 = true →
     pricing_node env state w
     = (Ok (only_pricing_info (pricing_info state)),
        log (EmbeddingsLoad "all-MiniLM-L6-v2") w3)).
Proof.
  intros Hres Hc H1 Hl1 H2 Hl2 H3 Hl3 w3.
  assert (pricing_node env state w
          = pricing_finish env (Some t3) (pricing_info state) w3) as E.
  { rewrite (pricing_node_resolved _ _ _ _ _ Hres Hc). unfold bind at 1.
    rewrite (pricing_probe_skip env _ _ _ _ _ H1 Hl1).
    rewrite (pricing_probe_skip env _ _ _ _ _ H2 Hl2).
    by rewrite (pricing_probe_skip env _ _ _ _ _ H3 Hl3). }
  split; [exact E|]. split.
  { unfold w3. rewrite (proj1 (trace_fetched _ _)). done. }
  split.
  - intros ->. by rewrite E.
  - intros Hne Herr. rewrite E. unfold pricing_finish.
    assert (PyStr.is_empty t3 = false) as -> by (by destruct t3).
    unfold bind, try_except, ret, pricing_extract, retriever_text, bind, call, ret.
    rewrite Herr, orb_true_r.
    by destruct (embeddings_load env (trace w3) "all-MiniLM-L6-v2").
Qed.

Lemma pricing_falls_through_witness :
  ∃ w',
    pricing_node Demo2.offline_site Demo.acme Demo.start
    = (Ok (only_pricing_info (pricing_info Demo.acme)), w')
    ∧ trace w'
      = [SessionGet "https://acme.test/pricing"; SessionGet "https://acme.test/plans";
         SessionGet "https://acme.test/price"; EmbeddingsLoad "all-MiniLM-L6-v2"].
Proof.
  destruct (pricing_falls_through Demo2.offline_site Demo.acme "https://acme.test"
              Demo.start "https://acme.test/pricing" "https://acme.test/plans"
              "https://acme.test/price" "Error: Status code 404"
              "Error: Status code 404" "Error: Status code 404")
    as (_ & _ & _ & Hrun).
  - repeat split; done.
  - reflexivity.
  - vm_compute; reflexivity.
  - vm_compute; lia.
  - vm_compute; reflexivity.
  - vm_compute; lia.
  - vm_compute; reflexivity.
  - vm_compute; lia.
  - eexists. split; [apply Hrun; [done|reflexivity]|]. reflexivity.
Defined.

(** ** The stages on any [home_url] *)

Lemma pricing_probe_returns env urls text w :
  ∃ text' w', pricing_probe env urls text w = (Ok text', w').
Proof.
  revert text w. induction urls as [|u urls IH]; intros text w; [by eexists _, _|].
  destruct (scrape_website_total env u w) as [t Ht]. simpl.
  unfold bind at 1, pricing_attempt, try_except, bind, ret. rewrite Ht.
  destruct (meaningful t); [by eexists _, _|apply IH].
Qed.

Lemma news_probe_returns env urls text w :
  ∃ text' w', news_probe env urls text w = (Ok text', w').
Proof.
  revert text w. induction urls as [|u urls IH]; intros text w; [by eexists _, _|].
  simpl. unfold bind at 1, news_attempt, try_except, bind, call, ret.
  destruct (requests_get env (trace w) u) as [code|e]; [|apply IH].
  destruct (code =? 200)%Z; [|apply IH].
  destruct (scrape_website_total env u (log (RequestsGet u) w)) as [t ->].
  destruct (meaningful t); [by eexists _, _|apply IH].
Qed.

Lemma is_ok_candidate env home_url suffix :
  is_ok (candidate env home_url suffix)
  = match home_url with
    | PStr u =>
        is_ok (urljoin env (PyStr.rstrip_by (Ascii.eqb "/"%char) u +:+ "/") suffix)
    | _ => false
    end.
Proof. by destruct home_url. Qed.

Lemma is_ok_candidate_urls env home_url suffixes :
  is_ok (candidate_urls env home_url suffixes)
  = forallb (λ suffix, is_ok (candidate env home_url suffix)) suffixes.
Proof.
  induction suffixes as [|suffix rest IH]; [done|]. simpl.
  destruct (candidate env home_url suffix); [|done]. simpl.
  rewrite <- IH. by destruct (candidate_urls env home_url rest).
Qed.

(** A stage that does not skip the company raises when its candidate
    list does, before any call, and at no other point. *)
Lemma pricing_node_outcome env state w :
  if unresolved (home_url state) then is_ok (pricing_node env state w).1 = true
  else match candidate_urls env (home_url state) pricing_suffixes with
       | Ok _ => is_ok (pricing_node env state w).1 = true
       | Raise e => pricing_node env state w = (Raise e, w)
       end.
Proof.
  unfold pricing_node. destruct (unresolved (home_url state)); [done|].
  unfold bind at 1, lift.
  destruct (candidate_urls env (home_url state) pricing_suffixes) as [urls|e]; [|done].
  destruct (pricing_probe_returns env urls None w) as (text' & w1 & E).
  unfold bind. rewrite E.
  by destruct (pricing_finish_returns env text' (pricing_info state) w1)
    as (pi' & w2 & -> & _).
Qed.

Lemma news_node_outcome env state w :
  if unresolved (home_url state) then is_ok (news_node env state w).1 = true
  else match candidate_urls env (home_url state) news_suffixes with
       | Ok _ => is_ok (news_node env state w).1 = true
       | Raise e => news_node env state w = (Raise e, w)
       end.
Proof.
  unfold news_node. destruct (unresolved (home_url state)); [done|].
  unfold bind at 1, lift.
  destruct (candidate_urls env (home_url state) news_suffixes) as [urls|e]; [|done].
  destruct (news_probe_returns env urls None w) as (text' & w1 & E).
  unfold bind. rewrite E.
  by destruct (news_finish_returns env text' w1) as (hl & w2 & ->).
Qed.

(** X9. The Pricing stage and the News stage raise exactly when the
    building of their candidate list raises: [home_url] is a true value
    other than "Not found", and it is not a string (the [rstrip] of the
    first candidate raises) or it is a string on which [urljoin] raises
    for one of the stage's suffixes.  The exception is the one of the
    candidate list, and the stage ends before any call is issued.  On
    every other [home_url] neither stage raises. *)
Theorem stages_raise_iff_no_candidates env state w :
  let h := home_url state in
  let joins (suffixes : list string) :=
    match h with
    | PStr u =>
        forallb
          (λ suffix,
             is_ok (urljoin env (PyStr.rstrip_by (Ascii.eqb "/"%char) u +:+ "/") suffix))
          suffixes
    | _ => false
    end in
  is_ok (pricing_node env state w).1 = unresolved h || joins pricing_suffixes
  ∧ is_ok (news_node env state w).1 = unresolved h || joins news_suffixes
  ∧ (∀ e, (pricing_node env state w).1 = Raise e →
          candidate_urls env h pricing_suffixes = Raise e
          ∧ (pricing_node env state w).2 = w)
  ∧ (∀ e, (news_node env state w).1 = Raise e →
          candidate_urls env h news_suffixes = Raise e
          ∧ (news_node env state w).2 = w).
Proof.
  intros h joins.
  assert (∀ suffixes, suffixes ≠ [] →
            is_ok (candidate_urls env h suffixes) = joins suffixes) as Hjoins.
  { intros suffixes Hne. rewrite is_ok_candidate_urls. unfold joins.
    destruct h; by destruct suffixes. }
  rewrite <- !Hjoins by done.
  pose proof (pricing_node_outcome env state w) as Hp.
  pose proof (news_node_outcome env state w) as Hn.
  fold h in Hp, Hn.
  destruct (unresolved h).
  { simpl orb. split; [done|]. split; [done|].
    split; intros e He; rewrite He in *; done. }
  destruct (candidate_urls env h pricing_suffixes) as [urls|e1],
    (candidate_urls env h news_suffixes) as [urls'|e2];
    rewrite ?Hp, ?Hn; simpl; (split; [done|]); (split; [done|]);
    split; intros e He; rewrite ?He in *; simplify_eq/=; done.
Qed.

Lemma stages_raise_iff_no_candidates_witness :
  (pricing_node Demo2.strict_urls Demo2.bracket_url Demo.start).1
    = Raise (OtherException "Invalid IPv6 URL")
  ∧ (pricing_node Demo2.strict_urls Demo2.bracket_url Demo.start).2 = Demo.start
  ∧ is_ok (news_node Demo2.strict_urls Demo2.list_url Demo.start).1 = false.
Proof.
  destruct (stages_raise_iff_no_candidates Demo2.strict_urls Demo2.bracket_url Demo.start)
    as (_ & _ & Hp & _).
  destruct (Hp (OtherException "Invalid IPv6 URL")) as [_ Hw]; [reflexivity|].
  split; [reflexivity|]. split; [exact Hw|].
  destruct (stages_raise_iff_no_candidates Demo2.strict_urls Demo2.list_url Demo.start)
    as (_ & Hn & _).
  exact Hn.
Defined.

Section NewsFacts.

Variable env : Env.

Lemma news_extract_has_len text w headlines w' :
  news_extract env text w = (Ok headlines, w') → is_ok (Py.len headlines) = true.
Proof.
  unfold news_extract. unfold bind at 1.
  destruct (retriever_text env text w) as [[[[chunks|] [emb|]]|e] w1];
    try (by intros [= <- <-]); try done.
  unfold bind at 1.
  destruct (get_price_chunks env chunks emb news_query 5 w1) as [[pc|e] w2]; [|done].
  unfold bind at 1, call.
  destruct (model_invoke env (trace w2) _) as [content|e]; [|done].
  destruct (json_loads env (clean_response content)) as [data|[]];
    try (by intros [= <- <-]); try done.
  unfold bind, lift, ret.
  destruct (Py.get data "headlines" (PList [])) as [h|e]; [|done].
  destruct (Py.len h) eqn:Hlen; [|done].
  intros [= <- <-]. by rewrite Hlen.
Qed.

End NewsFacts.

Lemma news_node_returns_len env state w u w' :
  news_node env state w = (Ok u, w') →
  ∃ headlines,
    u = only_news_headlines headlines ∧ is_ok (Py.len headlines) = true.
Proof.
  unfold news_node. destruct (unresolved _).
  { unfold ret. intros [= <- <-]. by exists (PList []). }
  unfold bind at 1, lift. destruct (candidate_urls _ _ _) as [urls|e]; [|done].
  unfold bind at 1.
  destruct (news_probe env urls None w) as [[text|e] w1]; [|done].
  unfold news_finish. destruct text as [text|];
    [|unfold ret; intros [= <- <-]; by exists (PList [])].
  destruct (PyStr.is_empty text);
    [unfold ret; intros [= <- <-]; by exists (PList [])|].
  unfold bind, try_except, ret.
  destruct (news_extract env text w1) as [[h|e] w2] eqn:E.
  - intros [= <- <-]. exists h. split; [done|]. by eapply news_extract_has_len.
  - intros [= <- <-]. by exists (PList []).
Qed.


(** X10. Whatever the News stage returns as [news_headlines] has a
    length, and replaces the state's former value.  On a resolved
    [home_url], once the probe has left a non-empty text, retrieval has
    answered and the LLM has been called, the value returned is the
    "headlines" entry of the parsed answer when the answer is an object
    and the entry is a string, a list or a dictionary; it is the empty
    list when the answer does not parse, is not an object, has no such
    entry, or has one that is null, a number or a boolean.  Every other
    field of the state is as it was. *)
Theorem news_headlines_from_answer env state w :
  (∀ returned w',
     news_node env state w = (Ok returned, w') →
     ∃ headlines,
       returned = only_news_headlines headlines
       ∧ news_headlines (apply_update state returned) = headlines
       ∧ is_ok (Py.len headlines) = true)
  ∧ (∀ u urls text w1 chunks emb w2 top w3 res,
       let prompt := news_prompt env (combine_chunks top) in
       let kept :=
         match json_loads env (clean_response res) with
         | Ok (PDict d) =>
             match Py.lookup "headlines" d with
             | Some (PStr s) => PStr s
             | Some (PList l) => PList l
             | Some (PDict entries) => PDict entries
             | Some _ | None => PList []
             end
         | _ => PList []
         end in
       resolved (home_url state) u →
       candidate_urls env (home_url state) news_suffixes = Ok urls →
       news_probe env urls None w = (Ok (Some text), w1) →
       PyStr.is_empty text = false →
       retriever_text env text w1 = (Ok (Some chunks, Some emb), w2) →
       get_price_chunks env chunks emb news_query 5 w2 = (Ok top, w3) →
       model_invoke env (trace w3) prompt = Ok res →
       ∃ state',
         news_node env state w
         = (Ok (only_news_headlines kept), log (ModelInvoke prompt) w3)
         ∧ run_node (news_node env) state w = (Ok state', log (ModelInvoke prompt) w3)
         ∧ news_headlines state' = kept
         ∧ messages state' = messages state
         ∧ company_name state' = company_name state
         ∧ home_url state' = home_url state
         ∧ description state' = description state
         ∧ competitors state' = competitors state
         ∧ pricing_info state' = pricing_info state
         ∧ loop_count state' = loop_count state
         ∧ final_report state' = final_report state).
Proof.
  split.
  { intros returned w' Hrun.
    destruct (news_node_returns_len env state w returned w' Hrun) as (h & -> & Hlen).
    by exists h. }
  intros u urls text w1 chunks emb w2 top w3 res prompt kept
    Hres Hc Hprobe Hne Hretr Hchunks Hllm.
  assert (news_node env state w
          = (Ok (only_news_headlines kept), log (ModelInvoke prompt) w3)) as E.
  { rewrite (news_node_resolved _ _ _ _ _ Hres Hc). unfold bind at 1.
    rewrite Hprobe. unfold news_finish. rewrite Hne.
    unfold bind at 1, try_except, news_extract. unfold bind at 1. rewrite Hretr.
    unfold bind at 1. rewrite Hchunks.
    unfold bind at 1, call. fold prompt. rewrite Hllm. subst kept.
    destruct (json_loads env (clean_response res)) as [data|[]]; try done.
    destruct data as [| | | | |items|d]; try done.
    unfold bind, lift, ret. simpl.
    destruct (Py.lookup "headlines" d) as [[]|]; done. }
  eexists. split; [exact E|]. split; [exact (run_node_eq _ _ _ _ _ E)|].
  repeat split.
Qed.

Lemma news_headlines_from_answer_witness :
  ∃ state',
    (run_node (news_node Demo.happy) Demo.acme Demo.start).1 = Ok state'
    ∧ news_headlines state'
      = PList [PDict [("title", PStr "Acme ships"); ("position", PInt 1)]].
Proof.
  destruct (news_headlines_from_answer Demo.happy Demo.acme Demo.start) as [_ Hkept].
  edestruct (Hkept "https://acme.test"
               ["https://acme.test/blog"; "https://acme.test/news";
                "https://acme.test/press"; "https://acme.test/updates"])
    as (state' & _ & Hrun & Hnews & _).
  - repeat split; done.
  - reflexivity.
  - vm_compute; reflexivity.
  - vm_compute; reflexivity.
  - vm_compute; reflexivity.
  - vm_compute; reflexivity.
  - vm_compute; reflexivity.
  - exists state'. rewrite Hrun. split; [reflexivity|].
    rewrite Hnews. vm_compute. reflexivity.
Defined.

(** ** The Research stage on an answer *)

(** X11. When the search and the LLM call succeed and the answer parses
    to a JSON object, each of [home_url], [description] and [competitors]
    is the value of its key in the answer when the key is present
    (whatever that value is, a null included) and the stage's default when
    the key is missing; the stage has issued the search and the LLM call
    and nothing else. *)
Theorem research_reads_answer env state w results content d :
  let q := company_name state +:+ " official website competitors" in
  let prompt := research_prompt env (company_name state) results in
  search_tool_invoke env (trace w) q = Ok results →
  model_invoke env (trace w ++ [SearchInvoke q]) prompt = Ok content →
  json_loads env (clean_response content) = Ok (PDict d) →
  research_node env state w
  = (Ok {| upd_home_url := Some (default (PStr "Not found") (Py.lookup "website_url" d));
           upd_description :=
             Some (default (PStr "Not available") (Py.lookup "description" d));
           upd_competitors := Some (default (PList []) (Py.lookup "competitors" d));
           upd_pricing_info := None;
           upd_news_headlines := None;
           upd_loop_count := Some (loop_count state + 1)%Z;
           upd_final_report := None |},
     log (ModelInvoke prompt) (log (SearchInvoke q) w)).
Proof.
  intros q prompt Hs Hm Hj.
  unfold research_node, try_except, research_extract, bind, call, lift, ret.
  fold q. rewrite Hs. simpl. fold prompt. rewrite Hm, Hj. reflexivity.
Qed.

Lemma research_reads_answer_witness :
  (research_node Demo.happy (initial_state "Acme Corp") Demo.start).1
  = Ok {| upd_home_url := Some (PStr "https://acme.test");
          upd_description := Some (PStr "Acme sells anvils.");
          upd_competitors := Some (PList [PStr "Ajax"; PStr "Apex"]);
          upd_pricing_info := None;
          upd_news_headlines := None;
          upd_loop_count := Some 1%Z;
          upd_final_report := None |}.
Proof.
  erewrite (research_reads_answer Demo.happy (initial_state "Acme Corp") Demo.start);
    cycle 1.
  - vm_compute; reflexivity.
  - vm_compute; reflexivity.
  - vm_compute; reflexivity.
  - reflexivity.
Defined.

(** ** Whole runs *)

Section RunFacts.

Variable env : Env.

Lemma emits_write_file P filename content :
  P (FileWrite filename content) → emits P (write_file env filename content).
Proof.
  intros HP w. exists [FileWrite filename content]. unfold write_file.
  split; [by destruct (file_write env (trace w) filename content)|by constructor].
Qed.

Lemma research_node_reports state : emits is_report_event (research_node env state).
Proof.
  unfold research_node. apply emits_bind.
  - apply emits_try_except; [|intros; apply emits_ret].
    unfold research_extract. apply emits_bind; [by apply emits_call|]. intros r.
    apply emits_bind; [by apply emits_call|]. intros c.
    repeat (apply emits_bind; [apply emits_lift|]; intros ?). apply emits_ret.
  - intros [[a b] c]. apply emits_ret.
Qed.

Lemma writer_node_reports state : emits is_report_event (writer_node env state).
Proof.
  unfold writer_node. apply emits_bind; [apply emits_lift|]. intros prompt.
  apply emits_bind; [|intros; apply emits_ret].
  apply emits_try_except; [|intros; apply emits_ret].
  unfold writer_generate. apply emits_bind; [by apply emits_call|]. intros card.
  apply emits_bind; [by apply emits_write_file|]. intros _.
  apply emits_bind; [by apply emits_write_file|]. intros _. apply emits_ret.
Qed.

(** The Research stage when its [try] fails. *)
Lemma research_node_failed state w :
  research_fails env (company_name state) w →
  ∃ w1, research_node env state w
        = (Ok {| upd_home_url := Some (PStr "Not found");
                 upd_description := Some (PStr "Not available");
                 upd_competitors := Some (PList []);
                 upd_pricing_info := None;
                 upd_news_headlines := None;
                 upd_loop_count := Some (loop_count state + 1)%Z;
                 upd_final_report := None |}, w1).
Proof.
  intros [e He]%research_extract_fails.
  unfold research_node, bind, try_except, ret, research_defaults.
  destruct (research_extract env (company_name state) w) as [[r|e'] w1]; [done|].
  by exists w1.
Qed.

(** The Writer never raises on a formattable state. *)
Lemma writer_node_total state w :
  formattable state = true →
  ∃ report w', writer_node env state w = (Ok (report_update state report), w').
Proof.
  intros Hf. rewrite <- is_ok_writer_format with (env := env) in Hf.
  unfold writer_node, bind, lift, try_except, ret.
  destruct (writer_format env state) as [prompt|e]; [|done].
  destruct (writer_generate env state prompt w) as [[card|e] w1]; eauto.
Qed.

End RunFacts.

Lemma degraded_run env name w :
  research_fails env name w →
  ∃ final w' evs,
    run_battle_card_generator env name w = (Some final, w')
    ∧ home_url final = PStr "Not found"
    ∧ description final = PStr "Not available"
    ∧ competitors final = PList []
    ∧ pricing_info final = []
    ∧ news_headlines final = PList []
    ∧ loop_count final = 2%Z
    ∧ trace w' = trace w ++ evs
    ∧ Forall is_report_event evs.
Proof.
  intros Hfail.
  destruct (research_node_failed env (initial_state name) w Hfail) as (w1 & Hr).
  destruct (research_node_reports env (initial_state name) w) as (evs1 & Ht1 & Hev1).
  rewrite Hr in Ht1. simpl in Ht1.
  set (s1 := {| messages := []; company_name := name; home_url := PStr "Not found";
                description := PStr "Not available"; competitors := PList [];
                pricing_info := []; news_headlines := PList []; loop_count := 1;
                final_report := "" |}).
  destruct (writer_node_total env s1 w1 eq_refl) as (report & w' & Hw).
  destruct (writer_node_reports env s1 w1) as (evs2 & Ht2 & Hev2).
  rewrite Hw in Ht2. simpl in Ht2.
  exists (apply_update s1 (report_update s1 report)), w', (evs1 ++ evs2).
  split.
  { assert (run_node (research_node env) (initial_state name) w = (Ok s1, w1)) as H1
      by (by rewrite (run_node_eq _ _ _ _ _ Hr)).
    assert (run_node (pricing_node env) s1 w1 = (Ok s1, w1)) as H2 by reflexivity.
    assert (run_node (news_node env) s1 w1 = (Ok s1, w1)) as H3 by reflexivity.
    unfold run_battle_card_generator, graph_invoke.
    unfold bind at 1. rewrite H1. unfold bind at 1. rewrite H2.
    unfold bind at 1. rewrite H3. by rewrite (run_node_eq _ _ _ _ _ Hw). }
  repeat (split; [done|]).
  split; [by rewrite Ht2, Ht1, <- app_assoc|by apply Forall_app].
Qed.


(** X12. When the Research stage fails, the run still completes:
    [run_battle_card_generator] returns a state with "Not found",
    "Not available", no competitor, no pricing record, no headline and
    [loop_count] 2, and the whole run has issued no HTTP request and loaded
    no embedding model: only the search, possibly the extraction LLM call,
    the writer's LLM call and its file writes. *)
Theorem run_survives_research_failure env name w :
  research_fails env name w →
  ∃ final w' evs,
    run_battle_card_generator env name w = (Some final, w')
    ∧ home_url final = PStr "Not found"
    ∧ description final = PStr "Not available"
    ∧ competitors final = PList []
    ∧ pricing_info final = []
    ∧ news_headlines final = PList []
    ∧ loop_count final = 2%Z
    ∧ trace w' = trace w ++ evs
    ∧ Forall is_report_event evs.
Proof. apply degraded_run. Qed.

Lemma run_survives_research_failure_witness :
  ∃ final,
    (run_battle_card_generator Demo.offline "Acme Corp" Demo.start).1 = Some final
    ∧ home_url final = PStr "Not found"
    ∧ loop_count final = 2%Z.
Proof.
  destruct (run_survives_research_failure Demo.offline "Acme Corp" Demo.start)
    as (final & w' & evs & Hrun & Hh & _ & _ & _ & _ & Hl & _).
  - exact I.
  - exists final. by rewrite Hrun.
Defined.

(** X13. When the Research stage extracts a [website_url] that is a true
    value but not a string, the run is lost: the Pricing stage raises, the
    graph stops there and [run_battle_card_generator] returns [None]
    without having called the writer or written any file. *)
Theorem run_aborts_on_non_string_url env name w website_url description competitors w1 :
  research_extract env name w = (Ok (website_url, description, competitors), w1) →
  Py.truthy website_url = true →
  is_str website_url = false →
  run_battle_card_generator env name w = (None, w1).
Proof.
  intros Hex Ht Hs.
  set (s1 := {| messages := []; company_name := name; home_url := website_url;
                description := description; competitors := competitors;
                pricing_info := []; news_headlines := PList []; loop_count := 1;
                final_report := "" |}).
  assert (run_node (research_node env) (initial_state name) w = (Ok s1, w1)) as Hr.
  { unfold run_node, research_node, bind, try_except, ret.
    simpl company_name. by rewrite Hex. }
  assert (∃ e, run_node (pricing_node env) s1 w1 = (Raise e, w1)) as [e Hp].
  { unfold run_node, pricing_node, unresolved, bind, lift.
    change (home_url s1) with website_url. rewrite Ht.
    destruct website_url; simpl in *; try done; eauto. }
  unfold run_battle_card_generator, graph_invoke.
  unfold bind at 1. rewrite Hr. unfold bind at 1. by rewrite Hp.
Qed.

Lemma run_aborts_on_non_string_url_witness :
  (run_battle_card_generator Demo2.list_answer "Acme Corp" Demo.start).1 = None.
Proof.
  erewrite (run_aborts_on_non_string_url Demo2.list_answer "Acme Corp" Demo.start);
    cycle 1.
  - vm_compute; reflexivity.
  - reflexivity.
  - reflexivity.
  - reflexivity.
Defined.

(** X14. A run that completes leaves [company_name] and [messages] as
    they were, leaves [pricing_info] as it was or with exactly one record
    appended, and ends with [news_headlines] holding a value that has a
    length. *)
Theorem run_keeps_inputs env state w final w' :
  graph_invoke env state w = (Ok final, w') →
  company_name final = company_name state
  ∧ messages final = messages state
  ∧ (pricing_info final = pricing_info state
     ∨ ∃ record, pricing_info final = pricing_info state ++ [record])
  ∧ is_ok (Py.len (news_headlines final)) = true.
Proof.
  unfold graph_invoke. unfold bind at 1 2 3.
  destruct (run_node (research_node env) _ w) as [[s1|?] w1] eqn:H1; [|done].
  destruct (run_node (pricing_node env) s1 w1) as [[s2|?] w2] eqn:H2; [|done].
  destruct (run_node (news_node env) s2 w2) as [[s3|?] w3] eqn:H3; [|done].
  intros H4.
  apply run_node_inv in H1 as (u1 & H1 & ->).
  apply run_node_inv in H2 as (u2 & H2 & ->).
  apply run_node_inv in H3 as (u3 & H3 & ->).
  apply run_node_inv in H4 as (u4 & H4 & ->).
  destruct (research_node_returns env state w) as (a & b & c & w0 & E).
  rewrite E in H1. injection H1 as <- <-.
  apply pricing_node_returns in H2 as (pi & -> & Hpi).
  apply news_node_returns_len in H3 as (h & -> & Hlen).
  apply writer_node_returns in H4 as (r & ->).
  simpl in *. done.
Qed.

Lemma run_keeps_inputs_witness :
  ∃ final,
    (graph_invoke Demo.happy (initial_state "Acme Corp") Demo.start).1 = Ok final
    ∧ company_name final = "Acme Corp"
    ∧ length (pricing_info final) = 1.
Proof.
  eexists. split; [vm_compute; reflexivity|].
  edestruct (run_keeps_inputs Demo.happy (initial_state "Acme Corp") Demo.start)
    as (Hname & _).
  - vm_compute; reflexivity.
  - split; [exact Hname|reflexivity].
Defined.

(** ** What the Writer leaves on disk *)

Lemma report_not_sidecar name : report_filename name ≠ json_filename name.
Proof.
  unfold report_filename, json_filename. intros H.
  apply (inj (String.app (file_stem name))) in H. done.
Qed.

(** X15. After the Writer has generated and saved its report, the report
    file holds exactly the text returned as [final_report], the sidecar
    has not overwritten it, no other file has changed, and the stage has
    issued one LLM call followed by the two writes. *)
Theorem report_file_holds_report env state w prompt battle_card w' :
  writer_generate env state prompt w = (Ok battle_card, w') →
  let report_file := report_filename (company_name state) in
  let sidecar := json_filename (company_name state) in
  files w' !! report_file = Some battle_card
  ∧ (∀ f, f ≠ report_file → f ≠ sidecar → files w' !! f = files w !! f)
  ∧ trace w'
    = trace w ++ [ModelWriterInvoke prompt; FileWrite report_file battle_card;
                  FileWrite sidecar (json_dumps env (raw_data state))].
Proof.
  intros Hgen report_file sidecar.
  pose proof (writer_generate_ok env _ _ _ _ _ Hgen) as [_ Hfiles].
  split; [|split].
  - rewrite Hfiles, lookup_insert_ne by (symmetry; apply report_not_sidecar).
    apply lookup_insert_eq.
  - intros f Hr Hs. rewrite Hfiles. by rewrite !lookup_insert_ne.
  - revert Hgen. unfold writer_generate, bind, call, write_file, ret. simpl.
    destruct (model_writer_invoke env (trace w) prompt) as [card|e]; [|done].
    destruct (file_write env _ (report_filename _) card); try done. simpl.
    destruct (file_write env _ (json_filename _) _); try done. simpl.
    intros [= <- <-]. simpl. by rewrite <- !app_assoc.
Qed.

Lemma report_file_holds_report_witness :
  ∃ card w',
    writer_generate Demo.happy Demo.acme "prompt" Demo.start = (Ok card, w')
    ∧ files w' !! "acme_corp_battle_card.md" = Some card.
Proof.
  eexists _, _. split; [vm_compute; reflexivity|].
  edestruct (report_file_holds_report Demo.happy Demo.acme Demo.start "prompt")
    as (Hfile & _).
  - vm_compute; reflexivity.
  - exact Hfile.
Defined.

(** X16. When the LLM call and the saving of the report succeed but the
    saving of the sidecar raises, the stage returns the error banner as
    [final_report] although the report file already holds the battle
    card.  The sidecar is as it was when [open] raised; when the failure
    came after [open], it holds what had been written by then, and its
    earlier content is lost.  No other file has changed. *)
Theorem sidecar_failure_keeps_report_file env state w prompt card :
  let report_file := report_filename (company_name state) in
  let sidecar := json_filename (company_name state) in
  let t1 := trace w ++ [ModelWriterInvoke prompt] in
  let outcome :=
    file_write env (t1 ++ [FileWrite report_file card]) sidecar
      (json_dumps env (raw_data state)) in
  writer_format env state = Ok prompt →
  model_writer_invoke env (trace w) prompt = Ok card →
  file_write env t1 report_file card = Written →
  outcome ≠ Written →
  ∃ e w',
    writer_node env state w = (Ok (report_update state (error_message e)), w')
    ∧ files w' !! report_file = Some card
    ∧ (∀ f, f ≠ report_file → f ≠ sidecar → files w' !! f = files w !! f)
    ∧ match outcome with
      | Written => False
      | OpenFailed e' => e = e' ∧ files w' !! sidecar = files w !! sidecar
      | WriteFailed e' partial => e = e' ∧ files w' !! sidecar = Some partial
      end.
Proof.
  intros report_file sidecar t1 outcome Hfmt Hllm Hw1 Hw2.
  assert (writer_node env state w
          = match outcome with
            | Written => writer_node env state w
            | OpenFailed e =>
                (Ok (report_update state (error_message e)),
                 mkWorld (t1 ++ [FileWrite report_file card]
                             ++ [FileWrite sidecar (json_dumps env (raw_data state))])
                         (<[report_file := card]> (files w)))
            | WriteFailed e partial =>
                (Ok (report_update state (error_message e)),
                 mkWorld (t1 ++ [FileWrite report_file card]
                             ++ [FileWrite sidecar (json_dumps env (raw_data state))])
                         (<[sidecar := partial]> (<[report_file := card]> (files w))))
            end) as Hrun.
  { unfold writer_node, bind at 1, lift. rewrite Hfmt.
    unfold bind, try_except, writer_generate, bind, call, write_file, ret. simpl.
    rewrite Hllm. simpl. fold t1 report_file. rewrite Hw1. simpl.
    fold sidecar. fold outcome.
    destruct outcome; [done| |]; simpl; by rewrite <- !app_assoc. }
  pose proof (report_not_sidecar (company_name state)) as Hdiff.
  fold report_file sidecar in Hdiff.
  destruct outcome as [|e|e partial]; [done| |].
  - eexists e, _. split; [exact Hrun|]. simpl.
    split; [apply lookup_insert_eq|]. split.
    + intros f Hr Hs. by rewrite lookup_insert_ne.
    + split; [done|]. by rewrite lookup_insert_ne.
  - eexists e, _. split; [exact Hrun|]. simpl.
    split; [by rewrite lookup_insert_ne, lookup_insert_eq|]. split.
    + intros f Hr Hs. by rewrite !lookup_insert_ne.
    + split; [done|]. apply lookup_insert_eq.
Qed.

Lemma sidecar_failure_keeps_report_file_witness :
  ∃ w' card,
    writer_node Demo2.no_sidecar Demo.acme Demo.start
    = (Ok (report_update Demo.acme
             (error_message (OtherException "[Errno 28] No space left on device"))), w')
    ∧ files w' !! report_filename (company_name Demo.acme) = Some card
    ∧ files w' !! json_filename (company_name Demo.acme) = Some "{".
Proof.
  edestruct (sidecar_failure_keeps_report_file Demo2.no_sidecar Demo.acme Demo.start)
    as (e & w' & Hrun & Hfile & _ & Hside).
  - vm_compute; reflexivity.
  - vm_compute; reflexivity.
  - vm_compute; reflexivity.
  - vm_compute. discriminate.
  - destruct Hside as [-> Hside].
    eexists w', _. split; [exact Hrun|]. split; [exact Hfile|exact Hside].
Defined.

(** ** The batch driver *)

Section BulkFacts.

Variable env : Env.

Lemma bulk_attempt_company company w summary w' :
  bulk_attempt env company w = (Ok (Some summary), w') → Company summary = company.
Proof.
  unfold bulk_attempt.
  destruct (run_battle_card_generator env company w) as [[final|] w1]; [|done].
  unfold bind, lift, ret.
  destruct (write_file env _ _ w1) as [[?|?] w2]; [|done].
  destruct (starter_price final); [|done]. by intros [= <- <-].
Qed.

(** One turn of the loop never raises when the row has a company, and
    puts the company in exactly one of the two lists. *)
Lemma bulk_step_returns st row company w :
  row_get "Company" row = Ok company →
  ∃ st' w',
    bulk_step env st row w = (Ok st', w')
    ∧ slept st' = S (slept st)
    ∧ ((∃ summary, Company summary = company
                   ∧ summary_results st' = summary_results st ++ [summary]
                   ∧ failed_companies st' = failed_companies st)
       ∨ (summary_results st' = summary_results st
          ∧ failed_companies st' = failed_companies st ++ [company])).
Proof.
  intros Hrow. unfold bulk_step. unfold bind at 1, lift. rewrite Hrow.
  unfold bind, try_except, ret.
  destruct (bulk_attempt env company w) as [[[summary|]|e] w1] eqn:E;
    eexists _, _; (split; [done|]); (split; [done|]); simpl; eauto.
  left. exists summary. by rewrite (bulk_attempt_company _ _ _ _ E).
Qed.

Lemma bulk_loop_returns df companies st w :
  Forall2 (λ row company, row_get "Company" row = Ok company) df companies →
  ∃ st' w',
    bulk_loop env df st w = (Ok st', w')
    ∧ (Company <$> summary_results st') ++ failed_companies st'
      ≡ₚ ((Company <$> summary_results st) ++ failed_companies st) ++ companies
    ∧ slept st' = slept st + length df.
Proof.
  intros Hrows. revert st w.
  induction Hrows as [|row company df companies Hrow _ IH]; intros st w.
  { exists st, w. rewrite app_nil_r. simpl. split; [done|]. split; [done|lia]. }
  destruct (bulk_step_returns st row company w Hrow) as (st1 & w1 & Hstep & Hs & Hcase).
  destruct (IH st1 w1) as (st' & w' & Hloop & Hperm & Hslept).
  exists st', w'. simpl. unfold bind at 1. rewrite Hstep.
  split; [done|]. split; [|lia].
  rewrite Hperm.
  destruct Hcase as [(summary & <- & -> & ->)|[-> ->]].
  - rewrite fmap_app. simpl. rewrite <- !app_assoc. apply Permutation_app_head.
    simpl. by rewrite Permutation_middle.
  - by rewrite <- !app_assoc.
Qed.

End BulkFacts.



(** X18. A company for which the pipeline returns a state without any
    pricing record is put in the failed list and gets no summary row, even
    though its report has been saved in the reports folder: indexing the
    empty [pricing_info] raises after the file is written. *)
Theorem bulk_fails_without_pricing env st row company w final w1 :
  row_get "Company" row = Ok company →
  run_battle_card_generator env company w = (Some final, w1) →
  pricing_info final = [] →
  ∃ w2,
    bulk_step env st row w
    = (Ok {| summary_results := summary_results st;
             failed_companies := failed_companies st ++ [company];
             slept := S (slept st) |}, w2)
    ∧ (file_write env (trace w1) (bulk_report_file company) (final_report final)
       = Written →
       files w2 !! bulk_report_file company = Some (final_report final)).
Proof.
  intros Hrow Hrun Hempty.
  unfold bulk_step. unfold bind at 1, lift. rewrite Hrow.
  unfold bind at 1, try_except, bulk_attempt. rewrite Hrun.
  unfold starter_price. rewrite Hempty.
  unfold bind, lift, write_file, ret.
  destruct (file_write env (trace w1) _ _) as [|e|e partial]; simpl.
  - eexists. split; [done|]. intros _. simpl. apply lookup_insert_eq.
  - eexists. split; done.
  - eexists. split; done.
Qed.

Lemma bulk_fails_without_pricing_witness :
  ∃ st w2,
    bulk_step Demo.offline (mkBulk [] [] 0) [("Company", "Acme Corp")] Demo.start
    = (Ok st, w2)
    ∧ failed_companies st = ["Acme Corp"]
    ∧ summary_results st = []
    ∧ is_Some (files w2 !! "reports/Acme Corp_Battle_Card.md").
Proof.
  edestruct (bulk_fails_without_pricing Demo.offline (mkBulk [] [] 0)
               [("Company", "Acme Corp")] "Acme Corp" Demo.start)
    as (w2 & Hstep & Hfile).
  - reflexivity.
  - vm_compute; reflexivity.
  - reflexivity.
  - eexists _, w2. split; [exact Hstep|]. split; [reflexivity|].
    split; [reflexivity|]. eexists. apply Hfile. reflexivity.
Defined.

(** X19. A company whose Research stage fails is always reported as
    failed by the batch driver: the degraded run completes and returns a
    state, but that state has no pricing record. *)
Theorem bulk_fails_on_research_failure env st row company w :
  row_get "Company" row = Ok company →
  research_fails env company w →
  ∃ w2,
    bulk_step env st row w
    = (Ok {| summary_results := summary_results st;
             failed_companies := failed_companies st ++ [company];
             slept := S (slept st) |}, w2).
Proof.
  intros Hrow Hfail.
  destruct (degraded_run env company w Hfail)
    as (final & w1 & evs & Hrun & _ & _ & _ & Hempty & _).
  unfold bulk_step. unfold bind at 1, lift. rewrite Hrow.
  unfold bind at 1, try_except, bulk_attempt. rewrite Hrun.
  unfold starter_price. rewrite Hempty.
  unfold bind, lift, write_file, ret.
  destruct (file_write env (trace w1) _ _) as [|e|e partial]; simpl; by eexists.
Qed.

Lemma bulk_fails_on_research_failure_witness :
  ∃ w2,
    bulk_step Demo.offline (mkBulk [] [] 0) [("Company", "Acme Corp")] Demo.start
    = (Ok (mkBulk [] ["Acme Corp"] 1), w2).
Proof.
  apply (bulk_fails_on_research_failure Demo.offline (mkBulk [] [] 0)
           [("Company", "Acme Corp")] "Acme Corp" Demo.start).
  - reflexivity.
  - exact I.
Defined.

(** ** When the Writer raises *)

(** X20. The Writer stage raises exactly on the states it cannot format
    ([competitors] a true value that is not an iterable of strings, a
    first pricing record that is not a dictionary or whose [starter_plan]
    is a true value that is not a dictionary, or [news_headlines] a true
    value that is not a list of dictionaries), and it does so before the
    LLM is called or any file is written. *)
Theorem writer_raises_iff_unformattable env state w :
  is_ok (writer_node env state w).1 = formattable state
  ∧ (formattable state = false → (writer_node env state w).2 = w).
Proof.
  rewrite <- (is_ok_writer_format env state).
  unfold writer_node, bind, lift, try_except, ret.
  destruct (writer_format env state) as [prompt|e]; [|done].
  by destruct (writer_generate env state prompt w) as [[card|e] w1].
Qed.

Lemma writer_raises_iff_unformattable_witness :
  is_ok (writer_node Demo.happy Demo.bare_headlines Demo.start).1 = false
  ∧ (writer_node Demo.happy Demo.bare_headlines Demo.start).2 = Demo.start.
Proof.
  destruct (writer_raises_iff_unformattable Demo.happy Demo.bare_headlines Demo.start)
    as [Hok Hw].
  split; [exact Hok|]. apply Hw. reflexivity.
Defined.

(** ** The News probe when nothing answers *)

Lemma news_probe_no_page env urls text w :
  status_checks_fail env urls w →
  news_probe env urls text w
  = (Ok text, mkWorld (trace w ++ (RequestsGet <$> urls)) (files w)).
Proof.
  revert w. induction urls as [|url rest IH]; intros w Hfail.
  { simpl. unfold ret. rewrite app_nil_r. by destruct w. }
  assert (news_probe env (url :: rest) text w
          = news_probe env rest text (log (RequestsGet url) w)) as ->.
  { simpl. unfold bind at 1, news_attempt, try_except, bind, call, ret.
    pose proof (Hfail 0 url eq_refl) as Hne. simpl in Hne. rewrite app_nil_r in Hne.
    destruct (requests_get env (trace w) url) as [code|e]; [|done].
    destruct (code =? 200)%Z eqn:E; [|done].
    apply Z.eqb_eq in E as ->. done. }
  rewrite IH.
  - simpl. by rewrite <- app_assoc.
  - intros k url' Hk. simpl. rewrite <- app_assoc. apply (Hfail (S k) url' Hk).
Qed.

(** X21. On a resolved [home_url], when every status check of the News
    probe fails in the history in which it is made (it raises or answers
    another status than 200), the News stage issues the four status
    checks in order and nothing else (no scrape, no embedding load, no
    LLM call), changes no file and returns the empty list. *)
Theorem news_without_any_page env state u w c1 c2 c3 c4 :
  resolved (home_url state) u →
  candidate_urls env (home_url state) news_suffixes = Ok [c1; c2; c3; c4] →
  status_checks_fail env [c1; c2; c3; c4] w →
  ∃ w',
    news_node env state w = (Ok (only_news_headlines (PList [])), w')
    ∧ trace w'
      = trace w ++ [RequestsGet c1; RequestsGet c2; RequestsGet c3; RequestsGet c4]
    ∧ files w' = files w.
Proof.
  intros Hres Hc Hfail.
  eexists. rewrite (news_node_resolved _ _ _ _ _ Hres Hc). unfold bind at 1.
  rewrite (news_probe_no_page _ _ _ _ Hfail). simpl.
  split; [reflexivity|]. split; reflexivity.
Qed.

Lemma news_without_any_page_witness :
  ∃ w',
    news_node Demo2.offline_site Demo.acme Demo.start
    = (Ok (only_news_headlines (PList [])), w')
    ∧ trace w'
      = [RequestsGet "https://acme.test/blog"; RequestsGet "https://acme.test/news";
         RequestsGet "https://acme.test/press"; RequestsGet "https://acme.test/updates"].
Proof.
  edestruct (news_without_any_page Demo2.offline_site Demo.acme "https://acme.test"
               Demo.start "https://acme.test/blog" "https://acme.test/news"
               "https://acme.test/press" "https://acme.test/updates")
    as (w' & Hrun & Htrace & _).
  - repeat split; done.
  - reflexivity.
  - intros k url _. discriminate.
  - exists w'. split; [exact Hrun|exact Htrace].
Defined.
